(** * Session tokens and password reset of the FinPlan backend

    A shallow embedding of the authentication core of
    [backend/auth/index.py] and [backend/user-auth/index.py]:
    the hand-rolled JWT codec ([create_jwt_token], [verify_jwt_token]),
    cookie extraction, the GET session check, the password-reset handlers,
    and the Bearer gate of [backend/transactions/index.py].

    Python values are modelled as follows.
    - [bytes] is a list of integers in [0, 255];
    - [str] is a list of Unicode code points ([pystr]);
    - exceptions are the [Raise] case of the result monad [res];
    - the standard library functions the code calls ([hashlib.sha256],
      [hmac.new], [base64.urlsafe_b64encode]/[urlsafe_b64decode],
      [str.encode]/[bytes.decode], [json.dumps]/[json.loads]) are
      written out below as executable definitions;
    - [time.time()] readings are exact rationals ([Q]) passed in as inputs;
      every call of [time.time()] in the source is a separate input. *)

From Stdlib Require Import String Ascii.
From Stdlib Require Import ZArith List Bool QArith Lia.
Import ListNotations.
Open Scope Z_scope.
Set Warnings "-register-all".

(** ** Python primitives *)

Definition bytes := list Z.
Definition pystr := list Z.

(** Source-level string literals (ASCII) as Python strings. *)
Definition lit (x : string) : pystr :=
  map (fun a => Z.of_nat (nat_of_ascii a)) (list_ascii_of_string x).
Arguments lit x%_string_scope.

Definition Zeqb_list (a b : list Z) : bool :=
  if list_eq_dec Z.eq_dec a b then true else false.

Inductive exn :=
| ValueError | TypeError | AttributeError | KeyError | IndexError
| UnicodeDecodeError | UnicodeEncodeError | BinasciiError
| JSONDecodeError | DatabaseError.

(** The result of a Python computation: a value, or a raised exception. *)
Inductive res (A : Type) :=
| Ok (a : A)
| Raise (e : exn).
Arguments Ok {A} a.
Arguments Raise {A} e.

Definition bind {A B} (m : res A) (k : A -> res B) : res B :=
  match m with
  | Ok a => k a
  | Raise e => Raise e
  end.

Notation "'let*' x := m 'in' k" := (bind m (fun x => k))
  (at level 200, x name, m at level 100, k at level 200).

(** ** hashlib.sha256 (FIPS 180-4) *)
Module SHA256.

Definition w32 (x : Z) : Z := Z.land x (Z.ones 32).
Definition add32 (a b : Z) : Z := w32 (a + b).
Definition rotr (n x : Z) : Z :=
  Z.lor (Z.shiftr x n) (w32 (Z.shiftl x (32 - n))).

(** The constants of FIPS 180-4, section 4.2.2 and 5.3.3: the first 32
    bits of the fractional parts of the cube roots of the first 64 primes,
    and of the square roots of the first 8 primes. *)
Definition is_prime (n : Z) : bool :=
  (1 <? n) && forallb (fun d => negb (n mod d =? 0)) (map Z.of_nat (seq 2 (Z.to_nat n - 2))).

Definition primes (k : nat) : list Z :=
  firstn k (filter is_prime (map Z.of_nat (seq 0 320))).

(** Integer cube root, one bit at a time from bit [b - 1] down. *)
Fixpoint icbrt (b : nat) (n acc : Z) : Z :=
  match b with
  | O => acc
  | S b' =>
      let c := Z.lor acc (Z.shiftl 1 (Z.of_nat b')) in
      icbrt b' n (if c * c * c <=? n then c else acc)
  end.

Definition K : list Z :=
  Eval vm_compute in map (fun p => w32 (icbrt 40 (Z.shiftl p 96) 0)) (primes 64).

Definition H0 : list Z :=
  Eval vm_compute in map (fun p => w32 (Z.sqrt (Z.shiftl p 64))) (primes 8).

Definition pad (m : bytes) : bytes :=
  let l := Z.of_nat (length m) in
  let zeros := Z.to_nat ((55 - l) mod 64) in
  m ++ [0x80] ++ repeat 0 zeros ++
    map (fun i => Z.land (Z.shiftr (8 * l) (8 * (7 - i))) 255) [0;1;2;3;4;5;6;7].

Fixpoint words_of (b : bytes) : list Z :=
  match b with
  | b0 :: b1 :: b2 :: b3 :: rest =>
      (b0 * 16777216 + b1 * 65536 + b2 * 256 + b3) :: words_of rest
  | _ => []
  end.

Definition bytes_of_word (w : Z) : bytes :=
  map (fun k => Z.land (Z.shiftr w k) 255) [24; 16; 8; 0].

Definition ssig0 x := Z.lxor (Z.lxor (rotr 7 x) (rotr 18 x)) (Z.shiftr x 3).
Definition ssig1 x := Z.lxor (Z.lxor (rotr 17 x) (rotr 19 x)) (Z.shiftr x 10).
Definition bsig0 x := Z.lxor (Z.lxor (rotr 2 x) (rotr 13 x)) (rotr 22 x).
Definition bsig1 x := Z.lxor (Z.lxor (rotr 6 x) (rotr 11 x)) (rotr 25 x).
Definition ch x y z := Z.lxor (Z.land x y) (Z.land (Z.lxor x (Z.ones 32)) z).
Definition maj x y z := Z.lxor (Z.lxor (Z.land x y) (Z.land x z)) (Z.land y z).

(** Message schedule: extend [W] (kept in reverse) from 16 to 64 words. *)
Fixpoint schedule (n : nat) (rw : list Z) : list Z :=
  match n with
  | O => rw
  | S n' =>
      let w t := nth t rw 0 in
      schedule n' (add32 (add32 (ssig1 (w 1%nat)) (w 6%nat))
                         (add32 (ssig0 (w 14%nat)) (w 15%nat)) :: rw)
  end.

Definition round (st : list Z) (kw : Z * Z) : list Z :=
  match st with
  | [a; b; c; d; e; f; g; h] =>
      let t1 := add32 (add32 (add32 h (bsig1 e)) (add32 (ch e f g) (fst kw))) (snd kw) in
      let t2 := add32 (bsig0 a) (maj a b c) in
      [add32 t1 t2; a; b; c; add32 d t1; e; f; g]
  | _ => st
  end.

Definition compress (hv : list Z) (block : bytes) : list Z :=
  let w := rev (schedule 48 (rev (words_of block))) in
  let st := fold_left round (combine K w) hv in
  map (fun p => add32 (fst p) (snd p)) (combine hv st).

Fixpoint blocks (fuel : nat) (m : bytes) : list bytes :=
  match fuel with
  | O => []
  | S f => match m with
           | [] => []
           | _ => firstn 64 m :: blocks f (skipn 64 m)
           end
  end.

Definition digest (m : bytes) : bytes :=
  let p := pad m in
  flat_map bytes_of_word (fold_left compress (blocks (length p) p) H0).

End SHA256.

(** ** hmac.new(key, msg, hashlib.sha256).digest() (RFC 2104, block size 64) *)
Definition hmac_key_block (key : bytes) : bytes :=
  let k := if Nat.ltb 64 (length key) then SHA256.digest key else key in
  k ++ repeat 0 (64 - length k).

Definition hmac_sha256 (key msg : bytes) : bytes :=
  let k0 := hmac_key_block key in
  SHA256.digest (map (Z.lxor 0x5c) k0 ++ SHA256.digest (map (Z.lxor 0x36) k0 ++ msg)).

(** ** str and bytes helpers *)

(** [str.split(sep)] for a one-character separator. *)
Fixpoint split_on (sep : Z) (s : pystr) : list pystr :=
  match s with
  | [] => [[]]
  | c :: r =>
      if c =? sep then [] :: split_on sep r
      else match split_on sep r with
           | p :: ps => (c :: p) :: ps
           | [] => [[c]]
           end
  end.

Fixpoint starts_with (pre s : pystr) : bool :=
  match pre, s with
  | [], _ => true
  | p :: pre', c :: s' => (p =? c) && starts_with pre' s'
  | _ :: _, [] => false
  end.

(** [str.isspace] on a single code point. *)
Definition is_space (c : Z) : bool :=
  ((9 <=? c) && (c <=? 13)) || ((28 <=? c) && (c <=? 32)) || (c =? 0x85) ||
  (c =? 0xa0) || (c =? 0x1680) || ((0x2000 <=? c) && (c <=? 0x200a)) ||
  (c =? 0x2028) || (c =? 0x2029) || (c =? 0x202f) || (c =? 0x205f) ||
  (c =? 0x3000).

Fixpoint lstrip_by (p : Z -> bool) (s : pystr) : pystr :=
  match s with
  | c :: r => if p c then lstrip_by p r else s
  | [] => []
  end.

Definition rstrip_by (p : Z -> bool) (s : pystr) : pystr :=
  rev (lstrip_by p (rev s)).

(** [str.strip()] *)
Definition strip (s : pystr) : pystr := rstrip_by is_space (lstrip_by is_space s).

(** [s.split(c, 1)[1]]: what follows the first [c] (IndexError if none). *)
Fixpoint after_first (c : Z) (s : pystr) : res pystr :=
  match s with
  | [] => Raise IndexError
  | x :: r => if x =? c then Ok r else after_first c r
  end.

(** [str.encode('utf-8')]: surrogates are not encodable. *)
Fixpoint utf8_encode (s : pystr) : res bytes :=
  match s with
  | [] => Ok []
  | c :: r =>
      let* rest := utf8_encode r in
      if c <? 0x80 then Ok (c :: rest)
      else if c <? 0x800 then
        Ok (Z.lor 0xc0 (Z.shiftr c 6) :: Z.lor 0x80 (Z.land c 63) :: rest)
      else if (0xd800 <=? c) && (c <=? 0xdfff) then Raise UnicodeEncodeError
      else if c <? 0x10000 then
        Ok (Z.lor 0xe0 (Z.shiftr c 12) :: Z.lor 0x80 (Z.land (Z.shiftr c 6) 63)
            :: Z.lor 0x80 (Z.land c 63) :: rest)
      else
        Ok (Z.lor 0xf0 (Z.shiftr c 18) :: Z.lor 0x80 (Z.land (Z.shiftr c 12) 63)
            :: Z.lor 0x80 (Z.land (Z.shiftr c 6) 63) :: Z.lor 0x80 (Z.land c 63) :: rest)
  end.

Definition cont (b : Z) : bool := (0x80 <=? b) && (b <=? 0xbf).
Definition in_range (lo hi b : Z) : bool := (lo <=? b) && (b <=? hi).

(** [bytes.decode('utf-8')] (strict), with the byte ranges of the
    CPython decoder: no overlong forms, no surrogates, at most U+10FFFF. *)
Fixpoint utf8_decode (b : bytes) : res pystr :=
  match b with
  | [] => Ok []
  | b0 :: r =>
      if b0 <? 0x80 then let* rest := utf8_decode r in Ok (b0 :: rest)
      else if in_range 0xc2 0xdf b0 then
        match r with
        | b1 :: r1 =>
            if cont b1 then
              let* rest := utf8_decode r1 in
              Ok (Z.lor (Z.shiftl (Z.land b0 31) 6) (Z.land b1 63) :: rest)
            else Raise UnicodeDecodeError
        | [] => Raise UnicodeDecodeError
        end
      else if in_range 0xe0 0xef b0 then
        match r with
        | b1 :: b2 :: r2 =>
            let ok1 := if b0 =? 0xe0 then in_range 0xa0 0xbf b1
                       else if b0 =? 0xed then in_range 0x80 0x9f b1
                       else cont b1 in
            if ok1 && cont b2 then
              let* rest := utf8_decode r2 in
              Ok (Z.lor (Z.lor (Z.shiftl (Z.land b0 15) 12) (Z.shiftl (Z.land b1 63) 6))
                        (Z.land b2 63) :: rest)
            else Raise UnicodeDecodeError
        | _ => Raise UnicodeDecodeError
        end
      else if in_range 0xf0 0xf4 b0 then
        match r with
        | b1 :: b2 :: b3 :: r3 =>
            let ok1 := if b0 =? 0xf0 then in_range 0x90 0xbf b1
                       else if b0 =? 0xf4 then in_range 0x80 0x8f b1
                       else cont b1 in
            if ok1 && cont b2 && cont b3 then
              let* rest := utf8_decode r3 in
              Ok (Z.lor (Z.lor (Z.shiftl (Z.land b0 7) 18) (Z.shiftl (Z.land b1 63) 12))
                        (Z.lor (Z.shiftl (Z.land b2 63) 6) (Z.land b3 63)) :: rest)
            else Raise UnicodeDecodeError
        | _ => Raise UnicodeDecodeError
        end
      else Raise UnicodeDecodeError
  end.

(** ** base64 *)

(** The standard alphabet: A-Z, a-z, 0-9, '+', '/'. *)
Definition b64_char (v : Z) : Z :=
  if v <? 26 then 65 + v
  else if v <? 52 then 97 + (v - 26)
  else if v <? 62 then 48 + (v - 52)
  else if v =? 62 then 43 else 47.

(** [table_a2b_base64]: the value of a character, 64 or more if invalid. *)
Definition b64_value (c : Z) : Z :=
  if in_range 65 90 c then c - 65
  else if in_range 97 122 c then c - 97 + 26
  else if in_range 48 57 c then c - 48 + 52
  else if c =? 43 then 62
  else if c =? 47 then 63
  else 64.

(** [base64.b64encode(s).decode()]; the shifts and masks of [binascii]
    on disjoint bit fields are written as division, remainder and
    multiplication by powers of two. *)
Fixpoint b64encode (b : bytes) : pystr :=
  match b with
  | b0 :: b1 :: b2 :: r =>
      [b64_char (b0 / 4); b64_char (b0 mod 4 * 16 + b1 / 16);
       b64_char (b1 mod 16 * 4 + b2 / 64); b64_char (b2 mod 64)] ++ b64encode r
  | [b0; b1] =>
      [b64_char (b0 / 4); b64_char (b0 mod 4 * 16 + b1 / 16);
       b64_char (b1 mod 16 * 4); 61]
  | [b0] => [b64_char (b0 / 4); b64_char (b0 mod 4 * 16); 61; 61]
  | [] => []
  end.

(** The characters of [b64encode b] before its '=' padding. *)
Fixpoint b64_unpadded (b : bytes) : pystr :=
  match b with
  | b0 :: b1 :: b2 :: r =>
      b64_char (b0 / 4) :: b64_char (b0 mod 4 * 16 + b1 / 16) ::
      b64_char (b1 mod 16 * 4 + b2 / 64) :: b64_char (b2 mod 64) :: b64_unpadded r
  | [b0; b1] =>
      [b64_char (b0 / 4); b64_char (b0 mod 4 * 16 + b1 / 16); b64_char (b1 mod 16 * 4)]
  | [b0] => [b64_char (b0 / 4); b64_char (b0 mod 4 * 16)]
  | [] => []
  end.

Definition urlsafe_encode_char (c : Z) : Z :=
  if c =? 43 then 45 else if c =? 47 then 95 else c.
Definition urlsafe_decode_char (c : Z) : Z :=
  if c =? 45 then 43 else if c =? 95 then 47 else c.

(** [base64.urlsafe_b64encode(s).decode()] *)
Definition urlsafe_b64encode (b : bytes) : pystr :=
  map urlsafe_encode_char (b64encode b).

(** [s.rstrip('=')] *)
Definition rstrip_eq (s : pystr) : pystr := rstrip_by (Z.eqb 61) s.

(** [binascii.a2b_base64(s, strict_mode=False)] (CPython 3.11+): invalid
    characters are skipped, a complete pad sequence ends the input, and a
    dangling quad is an error. [acc] holds the output in reverse; the
    bit operations on [leftchar] are written arithmetically as above. *)
Fixpoint a2b_base64 (s : list Z) (quad_pos leftchar pads : Z) (acc : bytes)
  : res bytes :=
  match s with
  | [] => if quad_pos =? 0 then Ok (rev acc) else Raise BinasciiError
  | c :: r =>
      if c =? 61 then
        if (quad_pos >=? 2) && (quad_pos + (pads + 1) >=? 4) then Ok (rev acc)
        else a2b_base64 r quad_pos leftchar
               (if quad_pos >=? 2 then pads + 1 else pads) acc
      else
        let v := b64_value c in
        if v >=? 64 then a2b_base64 r quad_pos leftchar pads acc
        else if quad_pos =? 0 then a2b_base64 r 1 v 0 acc
        else if quad_pos =? 1 then
          a2b_base64 r 2 (v mod 16) 0 ((leftchar * 4 + v / 16) mod 256 :: acc)
        else if quad_pos =? 2 then
          a2b_base64 r 3 (v mod 4) 0 ((leftchar * 16 + v / 4) mod 256 :: acc)
        else
          a2b_base64 r 0 0 0 ((leftchar * 64 + v) mod 256 :: acc)
  end.

(** [base64.urlsafe_b64decode(s)] for a [str] argument: non-ASCII text is a
    ValueError, then '-' and '_' are mapped to '+' and '/'. *)
Definition urlsafe_b64decode (s : pystr) : res bytes :=
  if forallb (fun c => c <? 128) s
  then a2b_base64 (map urlsafe_decode_char s) 0 0 0 []
  else Raise ValueError.

(** [s += '=' * (4 - len(s) % 4)] *)
Definition add_padding (s : pystr) : pystr :=
  s ++ repeat 61 (Z.to_nat (4 - Z.of_nat (length s) mod 4)).

(** ** json *)

(** A finite float is kept as the decimal [m * 10^e] of its text
    ([m] without trailing zeros); the rounding of [float()] to the nearest
    double, and the sign of [-0.0], are not modelled. *)
Inductive pyfloat :=
| FDec (m e : Z)
| FInf
| FNegInf
| FNaN.

(** The Python values [json.loads] produces and [json.dumps] accepts;
    a dict is its list of items in insertion order, keys unique. *)
Inductive json :=
| JNull
| JBool (b : bool)
| JInt (z : Z)
| JFloat (f : pyfloat)
| JStr (s : pystr)
| JList (l : list json)
| JObj (kv : list (pystr * json)).

Fixpoint dict_lookup (k : pystr) (kv : list (pystr * json)) : option json :=
  match kv with
  | [] => None
  | (k', v) :: r => if Zeqb_list k k' then Some v else dict_lookup k r
  end.

(** [d[k] = v] on a dict: an existing key keeps its position. *)
Fixpoint dict_set (k : pystr) (v : json) (kv : list (pystr * json))
  : list (pystr * json) :=
  match kv with
  | [] => [(k, v)]
  | (k', v') :: r =>
      if Zeqb_list k k' then (k', v) :: r else (k', v') :: dict_set k v r
  end.

(** [d[k] = v]: only a dict supports item assignment with a [str] key. *)
Definition setitem (d : json) (k : pystr) (v : json) : res json :=
  match d with
  | JObj kv => Ok (JObj (dict_set k v kv))
  | _ => Raise TypeError
  end.

(** [d.get(k, default)]: only a dict has a [get] method. *)
Definition dict_get (d : json) (k : pystr) (default : json) : res json :=
  match d with
  | JObj kv => Ok (match dict_lookup k kv with Some v => v | None => default end)
  | _ => Raise AttributeError
  end.

(** [d[k]] with a [str] key. *)
Definition getitem (d : json) (k : pystr) : res json :=
  match d with
  | JObj kv => match dict_lookup k kv with Some v => Ok v | None => Raise KeyError end
  | _ => Raise TypeError
  end.

(** Truth value ([if x:]) of a Python value. *)
Definition truthy (v : json) : bool :=
  match v with
  | JNull => false
  | JBool b => b
  | JInt z => negb (z =? 0)
  | JFloat (FDec m _) => negb (m =? 0)
  | JFloat _ => true
  | JStr s | JList s => negb (Nat.eqb (length s) 0)
  | JObj kv => negb (Nat.eqb (length kv) 0)
  end.

(** Decimal digits of a natural number. *)
Fixpoint digits_aux (fuel : nat) (n : Z) (acc : list Z) : list Z :=
  match fuel with
  | O => acc
  | S f =>
      let acc' := (48 + n mod 10) :: acc in
      if n <? 10 then acc' else digits_aux f (n / 10) acc'
  end.

Definition nat_digits (n : Z) : list Z := digits_aux (S (Z.to_nat (Z.log2 n))) n [].

(** [str(int)] *)
Definition int_repr (z : Z) : pystr :=
  if z <? 0 then 45 :: nat_digits (- z) else nat_digits z.

(** [repr(float)]: positional notation for decimal-point positions in
    (-4, 16], scientific notation with a two-digit exponent otherwise. *)
Definition float_repr (f : pyfloat) : pystr :=
  match f with
  | FNaN => lit "NaN"
  | FInf => lit "Infinity"
  | FNegInf => lit "-Infinity"
  | FDec m e =>
      let d := nat_digits (Z.abs m) in
      let n := Z.of_nat (length d) in
      let decpt := n + e in
      (if m <? 0 then [45] else []) ++
      (if (decpt <=? -4) || (16 <? decpt) then
         let x := decpt - 1 in
         let xd := nat_digits (Z.abs x) in
         [hd 48 d] ++ (if 1 <? n then 46 :: tl d else []) ++ [101] ++
         (if x <? 0 then [45] else [43]) ++
         (if Nat.eqb (length xd) 1 then 48 :: xd else xd)
       else if decpt <=? 0 then [48; 46] ++ repeat 48 (Z.to_nat (- decpt)) ++ d
       else if n <=? decpt then d ++ repeat 48 (Z.to_nat (decpt - n)) ++ [46; 48]
       else firstn (Z.to_nat decpt) d ++ [46] ++ skipn (Z.to_nat decpt) d)
  end.

Definition hex_digit (d : Z) : Z := if d <? 10 then 48 + d else 87 + d.
Definition hex4 (v : Z) : list Z :=
  map (fun i => hex_digit (Z.land (Z.shiftr v (4 * i)) 15)) [3; 2; 1; 0].

(** One character of a JSON string literal; [ea] is [ensure_ascii]. *)
Definition esc_char (ea : bool) (c : Z) : list Z :=
  if c =? 34 then [92; 34]
  else if c =? 92 then [92; 92]
  else if c =? 10 then [92; 110]
  else if c =? 13 then [92; 114]
  else if c =? 9 then [92; 116]
  else if c =? 8 then [92; 98]
  else if c =? 12 then [92; 102]
  else if ea then
    if in_range 32 126 c then [c]
    else if c <? 0x10000 then 92 :: 117 :: hex4 c
    else
      let n := c - 0x10000 in
      (92 :: 117 :: hex4 (Z.lor 0xd800 (Z.land (Z.shiftr n 10) 0x3ff))) ++
      (92 :: 117 :: hex4 (Z.lor 0xdc00 (Z.land n 0x3ff)))
  else if c <? 32 then 92 :: 117 :: hex4 c
  else [c].

Definition dump_str (ea : bool) (s : pystr) : pystr :=
  34 :: flat_map (esc_char ea) s ++ [34].

Fixpoint join (sep : pystr) (l : list pystr) : pystr :=
  match l with
  | [] => []
  | [x] => x
  | x :: r => x ++ sep ++ join sep r
  end.

(** [json.dumps(v, ensure_ascii=ea)] with the default separators. *)
Fixpoint dumps (ea : bool) (v : json) : pystr :=
  match v with
  | JNull => lit "null"
  | JBool true => lit "true"
  | JBool false => lit "false"
  | JInt z => int_repr z
  | JFloat f => float_repr f
  | JStr s => dump_str ea s
  | JList l =>
      [91] ++ join (lit ", ")
        ((fix go (l : list json) : list pystr :=
            match l with [] => [] | x :: r => dumps ea x :: go r end) l) ++ [93]
  | JObj kv =>
      [123] ++ join (lit ", ")
        ((fix go (kv : list (pystr * json)) : list pystr :=
            match kv with
            | [] => []
            | (k, x) :: r => (dump_str ea k ++ lit ": " ++ dumps ea x) :: go r
            end) kv) ++ [125]
  end.

(** [json.loads] on a [str], after CPython's C scanner ([_json.c]). *)
Definition is_ws (c : Z) : bool := (c =? 32) || (c =? 9) || (c =? 10) || (c =? 13).

Fixpoint skip_ws (s : list Z) : list Z :=
  match s with
  | c :: r => if is_ws c then skip_ws r else s
  | [] => []
  end.

Definition is_digit (c : Z) : bool := in_range 48 57 c.

Definition hexval (c : Z) : option Z :=
  if in_range 48 57 c then Some (c - 48)
  else if in_range 97 102 c then Some (c - 87)
  else if in_range 65 70 c then Some (c - 55)
  else None.

Definition hex4v (a b c d : Z) : option Z :=
  match hexval a, hexval b, hexval c, hexval d with
  | Some x, Some y, Some z, Some w => Some (((x * 16 + y) * 16 + z) * 16 + w)
  | _, _, _, _ => None
  end.

Definition simple_escape (e : Z) : option Z :=
  if e =? 34 then Some 34 else if e =? 92 then Some 92
  else if e =? 47 then Some 47 else if e =? 98 then Some 8
  else if e =? 102 then Some 12 else if e =? 110 then Some 10
  else if e =? 114 then Some 13 else if e =? 116 then Some 9
  else None.

(** [scanstring] in strict mode, from just after the opening quote;
    a high surrogate escape followed by a low one is joined. *)
Fixpoint scanstring (s : list Z) (acc : list Z) : res (pystr * list Z) :=
  match s with
  | [] => Raise JSONDecodeError
  | c :: r =>
      if c =? 34 then Ok (rev acc, r)
      else if c =? 92 then
        match r with
        | [] => Raise JSONDecodeError
        | e :: r1 =>
            if e =? 117 then
              match r1 with
              | h1 :: h2 :: h3 :: h4 :: r2 =>
                  match hex4v h1 h2 h3 h4, r2 with
                  | None, _ => Raise JSONDecodeError
                  | Some _, [] => Raise JSONDecodeError
                  | Some u, _ =>
                      if in_range 0xd800 0xdbff u then
                        match r2 with
                        | x1 :: x2 :: g1 :: g2 :: g3 :: g4 :: r3 =>
                            if (x1 =? 92) && (x2 =? 117) && negb (Nat.eqb (length r3) 0) then
                              match hex4v g1 g2 g3 g4 with
                              | None => Raise JSONDecodeError
                              | Some u2 =>
                                  if in_range 0xdc00 0xdfff u2 then
                                    scanstring r3
                                      ((0x10000 + Z.shiftl (u - 0xd800) 10 + (u2 - 0xdc00)) :: acc)
                                  else scanstring r2 (u :: acc)
                              end
                            else scanstring r2 (u :: acc)
                        | _ => scanstring r2 (u :: acc)
                        end
                      else scanstring r2 (u :: acc)
                  end
              | _ => Raise JSONDecodeError
              end
            else match simple_escape e with
                 | Some ch => scanstring r1 (ch :: acc)
                 | None => Raise JSONDecodeError
                 end
        end
      else if c <? 32 then Raise JSONDecodeError
      else scanstring r (c :: acc)
  end.

Fixpoint span_digits (s : list Z) : list Z * list Z :=
  match s with
  | c :: r => if is_digit c then let (d, t) := span_digits r in (c :: d, t) else ([], s)
  | [] => ([], [])
  end.

Definition digits_value (d : list Z) : Z := fold_left (fun a c => 10 * a + (c - 48)) d 0.

(** A float [m * 10^e] with trailing zeros of [m] moved into [e]. *)
Fixpoint norm_float (fuel : nat) (m e : Z) : pyfloat :=
  match fuel with
  | O => FDec m e
  | S f =>
      if m =? 0 then FDec 0 0
      else if m mod 10 =? 0 then norm_float f (m / 10) (e + 1) else FDec m e
  end.

Definition mk_float (m e : Z) : pyfloat := norm_float (S (Z.to_nat (Z.log2 (Z.abs m)))) m e.

(** [_match_number]: optional minus, then 0 or a digit string not starting
    with 0, an optional fraction (dot and digits), an optional exponent
    (e or E, optional sign, digits). *)
Definition match_number (s : list Z) : option (json * list Z) :=
  let '(neg, s1) := match s with
                    | c :: r => if c =? 45 then (true, r) else (false, s)
                    | [] => (false, s)
                    end in
  let int_part :=
    match s1 with
    | c :: r1 =>
        if c =? 48 then Some ([c], r1)
        else if in_range 49 57 c then let (ds, r2) := span_digits r1 in Some (c :: ds, r2)
        else None
    | [] => None
    end in
  match int_part with
  | None => None
  | Some (intd, r) =>
      let '(fracd, r') :=
        match r with
        | c :: d :: t =>
            if (c =? 46) && is_digit d then span_digits (d :: t) else ([], r)
        | _ => ([], r)
        end in
      let '(has_exp, expv, r'') :=
        match r' with
        | c :: t =>
            if (c =? 101) || (c =? 69) then
              let '(sgn, t') := match t with
                                | x :: t1 => if x =? 45 then (-1, t1)
                                             else if x =? 43 then (1, t1) else (1, t)
                                | [] => (1, t)
                                end in
              match span_digits t' with
              | ([], _) => (false, 0, r')
              | (ed, t'') => (true, sgn * digits_value ed, t'')
              end
            else (false, 0, r')
        | [] => (false, 0, r')
        end in
      let sign := if neg then -1 else 1 in
      if has_exp || negb (Nat.eqb (length fracd) 0) then
        Some (JFloat (mk_float (sign * digits_value (intd ++ fracd))
                               (expv - Z.of_nat (length fracd))), r'')
      else Some (JInt (sign * digits_value intd), r'')
  end.

Fixpoint scan_value (fuel : nat) (s : list Z) : res (json * list Z) :=
  match fuel with
  | O => Raise JSONDecodeError
  | S f =>
      match s with
      | [] => Raise JSONDecodeError
      | c :: r =>
          if c =? 34 then let* p := scanstring r [] in Ok (JStr (fst p), snd p)
          else if c =? 123 then
            match skip_ws r with
            | x :: t => if x =? 125 then Ok (JObj [], t) else parse_members f (x :: t) []
            | [] => Raise JSONDecodeError
            end
          else if c =? 91 then
            match skip_ws r with
            | x :: t => if x =? 93 then Ok (JList [], t) else parse_elements f (x :: t) []
            | [] => Raise JSONDecodeError
            end
          else if starts_with (lit "null") s then Ok (JNull, skipn 4 s)
          else if starts_with (lit "true") s then Ok (JBool true, skipn 4 s)
          else if starts_with (lit "false") s then Ok (JBool false, skipn 5 s)
          else if starts_with (lit "NaN") s then Ok (JFloat FNaN, skipn 3 s)
          else if starts_with (lit "Infinity") s then Ok (JFloat FInf, skipn 8 s)
          else if starts_with (lit "-Infinity") s then Ok (JFloat FNegInf, skipn 9 s)
          else match match_number s with
               | Some p => Ok p
               | None => Raise JSONDecodeError
               end
      end
  end
(** The members of an object, from a key on; [acc] is the dict so far. *)
with parse_members (fuel : nat) (s : list Z) (acc : list (pystr * json))
  : res (json * list Z) :=
  match fuel with
  | O => Raise JSONDecodeError
  | S f =>
      match s with
      | c :: r =>
          if c =? 34 then
            let* kp := scanstring r [] in
            match skip_ws (snd kp) with
            | d :: t =>
                if d =? 58 then
                  let* vp := scan_value f (skip_ws t) in
                  let acc' := dict_set (fst kp) (fst vp) acc in
                  match skip_ws (snd vp) with
                  | x :: t' =>
                      if x =? 125 then Ok (JObj acc', t')
                      else if x =? 44 then parse_members f (skip_ws t') acc'
                      else Raise JSONDecodeError
                  | [] => Raise JSONDecodeError
                  end
                else Raise JSONDecodeError
            | [] => Raise JSONDecodeError
            end
          else Raise JSONDecodeError
      | [] => Raise JSONDecodeError
      end
  end
(** The elements of an array; [acc] holds them in reverse. *)
with parse_elements (fuel : nat) (s : list Z) (acc : list json)
  : res (json * list Z) :=
  match fuel with
  | O => Raise JSONDecodeError
  | S f =>
      let* vp := scan_value f s in
      let acc' := fst vp :: acc in
      match skip_ws (snd vp) with
      | x :: t =>
          if x =? 93 then Ok (JList (rev acc'), t)
          else if x =? 44 then parse_elements f (skip_ws t) acc'
          else Raise JSONDecodeError
      | [] => Raise JSONDecodeError
      end
  end.

(** [json.loads(s)]: a leading BOM or trailing non-whitespace is an error.
    The fuel (three steps per character) is never exhausted: every step
    of the scanner consumes a character. *)
Definition json_loads (s : pystr) : res json :=
  if starts_with [0xfeff] s then Raise JSONDecodeError
  else
    let* p := scan_value (3 * length s + 3) (skip_ws s) in
    match skip_ws (snd p) with
    | [] => Ok (fst p)
    | _ => Raise JSONDecodeError
    end.

(** ** time *)

(** [int(time.time())]: truncation toward zero. *)
Definition py_int (t : Q) : Z := Z.quot (Qnum t) (Zpos (Qden t)).

Definition float_to_Q (m e : Z) : Q :=
  if 0 <=? e then inject_Z (m * 10 ^ e) else Qmake m (Z.to_pos (10 ^ (- e))).

Definition Qltb (x y : Q) : bool := negb (Qle_bool y x).

(** [v < time.time()] for a value [v] read from a payload: numbers compare
    exactly with the float, anything else is a TypeError. *)
Definition lt_time (v : json) (now : Q) : res bool :=
  match v with
  | JInt z => Ok (Qltb (inject_Z z) now)
  | JBool b => Ok (Qltb (inject_Z (if b then 1 else 0)) now)
  | JFloat (FDec m e) => Ok (Qltb (float_to_Q m e) now)
  | JFloat FInf => Ok false
  | JFloat FNegInf => Ok true
  | JFloat FNaN => Ok false
  | _ => Raise TypeError
  end.

(** [os.environ.get('JWT_SECRET', 'default-secret').encode()], where
    [env_secret] is the value of [JWT_SECRET] if set. *)
Definition jwt_secret (env_secret : option pystr) : res bytes :=
  utf8_encode (match env_secret with Some s => s | None => lit "default-secret" end).

(** ** The token codec of backend/auth/index.py *)
Module Auth.

(** [create_jwt_token(payload)]. [t_exp] and [t_iat] are the two readings of
    [time.time()] (the first for [exp], the second for [iat]). The result
    is the token and the caller's dict after the two item assignments. *)
Definition create_jwt_token (env_secret : option pystr) (t_exp t_iat : Q)
  (payload : json) : res (pystr * json) :=
  let header := JObj [(lit "typ", JStr (lit "JWT")); (lit "alg", JStr (lit "HS256"))] in
  let* payload := setitem payload (lit "exp") (JInt (py_int t_exp + 7 * 24 * 3600)) in
  let* payload := setitem payload (lit "iat") (JInt (py_int t_iat)) in
  let* hb := utf8_encode (dumps true header) in
  let header_b64 := rstrip_eq (urlsafe_b64encode hb) in
  let* pb := utf8_encode (dumps true payload) in
  let payload_b64 := rstrip_eq (urlsafe_b64encode pb) in
  let message := header_b64 ++ [46] ++ payload_b64 in
  let* key := jwt_secret env_secret in
  let* msg := utf8_encode message in
  let signature := hmac_sha256 key msg in
  let signature_b64 := rstrip_eq (urlsafe_b64encode signature) in
  Ok (message ++ [46] ++ signature_b64, payload).

(** The body of the [try] of [verify_jwt_token(token)]; [now] is the
    reading of [time.time()]. A token that does not split into exactly
    three parts yields [None]. *)
Definition verify_body (env_secret : option pystr) (now : Q) (token : pystr)
  : res (option json) :=
  match split_on 46 token with
  | [header_b64; payload_b64; signature_b64] =>
      let message := header_b64 ++ [46] ++ payload_b64 in
      let* key := jwt_secret env_secret in
      let* msg := utf8_encode message in
      let expected_signature := hmac_sha256 key msg in
      let* actual_signature := urlsafe_b64decode (add_padding signature_b64) in
      if negb (Zeqb_list expected_signature actual_signature) then Ok None
      else
        let* pb := urlsafe_b64decode (add_padding payload_b64) in
        let* ps := utf8_decode pb in
        let* payload := json_loads ps in
        let* exp := dict_get payload (lit "exp") (JInt 0) in
        let* expired := lt_time exp now in
        if expired then Ok None else Ok (Some payload)
  | _ => Ok None
  end.

(** [verify_jwt_token(token)]: [except Exception: return None]. *)
Definition verify_jwt_token (env_secret : option pystr) (now : Q) (token : pystr)
  : option json :=
  match verify_body env_secret now token with
  | Ok r => r
  | Raise _ => None
  end.

End Auth.

(** ** The token codec of backend/user-auth/index.py *)
Module UserAuth.

Definition create_jwt_token (env_secret : option pystr) (t_exp t_iat : Q)
  (payload : json) : res (pystr * json) :=
  let header := JObj [(lit "typ", JStr (lit "JWT")); (lit "alg", JStr (lit "HS256"))] in
  let* payload := setitem payload (lit "exp") (JInt (py_int t_exp + 7 * 24 * 3600)) in
  let* payload := setitem payload (lit "iat") (JInt (py_int t_iat)) in
  let* hb := utf8_encode (dumps true header) in
  let header_b64 := rstrip_eq (urlsafe_b64encode hb) in
  let* pb := utf8_encode (dumps true payload) in
  let payload_b64 := rstrip_eq (urlsafe_b64encode pb) in
  let message := header_b64 ++ [46] ++ payload_b64 in
  let* key := jwt_secret env_secret in
  let* msg := utf8_encode message in
  let signature := hmac_sha256 key msg in
  let signature_b64 := rstrip_eq (urlsafe_b64encode signature) in
  Ok (message ++ [46] ++ signature_b64, payload).

Definition verify_body (env_secret : option pystr) (now : Q) (token : pystr)
  : res (option json) :=
  match split_on 46 token with
  | [header_b64; payload_b64; signature_b64] =>
      let message := header_b64 ++ [46] ++ payload_b64 in
      let* key := jwt_secret env_secret in
      let* msg := utf8_encode message in
      let expected_signature := hmac_sha256 key msg in
      let* actual_signature := urlsafe_b64decode (add_padding signature_b64) in
      if negb (Zeqb_list expected_signature actual_signature) then Ok None
      else
        let* pb := urlsafe_b64decode (add_padding payload_b64) in
        let* ps := utf8_decode pb in
        let* payload := json_loads ps in
        let* exp := dict_get payload (lit "exp") (JInt 0) in
        let* expired := lt_time exp now in
        if expired then Ok None else Ok (Some payload)
  | _ => Ok None
  end.

Definition verify_jwt_token (env_secret : option pystr) (now : Q) (token : pystr)
  : option json :=
  match verify_body env_secret now token with
  | Ok r => r
  | Raise _ => None
  end.

End UserAuth.

(** ** HTTP responses and the users table *)

Record response := mk_response {
  statusCode : Z;
  headers : list (pystr * pystr);
  body : pystr;
  isBase64Encoded : bool
}.

(** [headers.get(name, '')] on a dict of header strings. *)
Fixpoint header_get (name : pystr) (hs : list (pystr * pystr)) : pystr :=
  match hs with
  | [] => []
  | (k, v) :: r => if Zeqb_list k name then v else header_get name r
  end.

(** [bcrypt.hashpw(pw, bcrypt.gensalt())]: the hash is kept symbolic, as the
    bytes it was computed from and the salt drawn by [gensalt]. *)
Inductive pwhash :=
| Bcrypt (password : bytes) (salt : Z).

(** A row of [users]; [reset_token_expires] is a timestamp in seconds. *)
Record user := mk_user {
  id : Z;
  email : pystr;
  password_hash : pwhash;
  first_name : pystr;
  last_name : pystr;
  reset_token : option pystr;
  reset_token_expires : option Q
}.

Definition db := list user.

(** [str(e)] in an error message: the exception's text is abstracted to
    its class name. *)
Definition exn_text (e : exn) : pystr :=
  match e with
  | ValueError => lit "ValueError" | TypeError => lit "TypeError"
  | AttributeError => lit "AttributeError" | KeyError => lit "KeyError"
  | IndexError => lit "IndexError"
  | UnicodeDecodeError => lit "UnicodeDecodeError"
  | UnicodeEncodeError => lit "UnicodeEncodeError"
  | BinasciiError => lit "binascii.Error" | JSONDecodeError => lit "JSONDecodeError"
  | DatabaseError => lit "DatabaseError"
  end.

(** psycopg2's adaptation of a [str] query parameter: the text is encoded
    to UTF-8, then a NUL character is refused with [ValueError] ("A string
    literal cannot contain NUL (0x00) characters."). *)
Definition pg_param (s : pystr) : res unit :=
  let* _ := utf8_encode s in
  if existsb (fun c => c =? 0) s then Raise ValueError else Ok tt.

(** [extract_token_from_cookies(cookie_header)] (identical in both modules). *)
Definition extract_token_from_cookies (cookie_header : pystr) : res (option pystr) :=
  if Nat.eqb (length cookie_header) 0 then Ok None
  else
    (fix go (cookies : list pystr) : res (option pystr) :=
       match cookies with
       | [] => Ok None
       | cookie :: rest =>
           let cookie := strip cookie in
           if starts_with (lit "auth_token=") cookie
           then let* v := after_first 61 cookie in Ok (Some v)
           else go rest
       end) (split_on 59 cookie_header).

(** Whether a [str] parameter is accepted by PostgreSQL as an integer. *)
Definition int_literal (s : pystr) : option Z :=
  let '(neg, ds) := match s with
                    | c :: r => if c =? 45 then (true, r)
                                else if c =? 43 then (false, r) else (false, s)
                    | [] => (false, s)
                    end in
  if negb (Nat.eqb (length ds) 0) && forallb is_digit ds
  then Some ((if neg then -1 else 1) * digits_value ds) else None.

(** [SELECT ... FROM users WHERE id = %s] with the parameter adapted by
    psycopg2: numbers compare numerically, [None] matches no row, a string
    must be an integer literal, anything else is an error. *)
Definition select_user_by_id (users : db) (param : json) : res (option user) :=
  let by_q (q : Q) := find (fun u => Qeq_bool (inject_Z (id u)) q) users in
  match param with
  | JInt z => Ok (by_q (inject_Z z))
  | JFloat (FDec m e) => Ok (by_q (float_to_Q m e))
  | JFloat _ => Ok None
  | JNull => Ok None
  | JStr s => match int_literal s with
              | Some z => Ok (by_q (inject_Z z))
              | None => Raise DatabaseError
              end
  | _ => Raise DatabaseError
  end.

(** ** Handlers of backend/auth/index.py *)
Module AuthHandler.

Definition response_headers : list (pystr * pystr) :=
  [(lit "Content-Type", lit "application/json");
   (lit "Access-Control-Allow-Origin", lit "*");
   (lit "Access-Control-Allow-Credentials", lit "true")].

Definition success_response (data : json) : response :=
  mk_response 200 response_headers (dumps false data) false.

Definition error_response (message : pystr) (status_code : Z) : response :=
  mk_response status_code response_headers
    (dumps false (JObj [(lit "error", JStr message)])) false.

(** The [GET] branch of [handler] (the session check). [hs] is
    [event.get('headers', {})]; an exception goes to the handler's
    [except] clause. *)
Definition handle_session_check (env_secret : option pystr) (now : Q) (users : db)
  (hs : list (pystr * pystr)) : res response :=
  let cookies := header_get (lit "Cookie") hs in
  let* token := extract_token_from_cookies cookies in
  match token with
  | Some t =>
      if negb (Nat.eqb (length t) 0) then
        match Auth.verify_jwt_token env_secret now t with
        | Some user_data =>
            if truthy user_data then
              let* uid := getitem user_data (lit "user_id") in
              let* row := select_user_by_id users uid in
              match row with
              | Some u =>
                  Ok (success_response
                        (JObj [(lit "user",
                                JObj [(lit "id", JInt (id u));
                                      (lit "email", JStr (email u));
                                      (lit "first_name", JStr (first_name u));
                                      (lit "last_name", JStr (last_name u))]);
                               (lit "valid", JBool true)]))
              | None => Ok (error_response (lit "Invalid token") 401)
              end
            else Ok (error_response (lit "Invalid token") 401)
        | None => Ok (error_response (lit "Invalid token") 401)
        end
      else Ok (error_response (lit "Invalid token") 401)
  | None => Ok (error_response (lit "Invalid token") 401)
  end.

Definition reset_sent : json :=
  JObj [(lit "message", JStr (lit "Reset email sent if account exists"))].

Section Reset.

(** [str.lower()] (Unicode case mapping) *)
Variable py_lower : pystr -> pystr.

(** [handle_reset_password(conn, data)] with [data['email']] a string.
    [now] is [time.time()], [new_token] is [secrets.token_urlsafe(32)] and
    [smtp] the outcome of [send_reset_email], whose exceptions are caught. *)
Definition handle_reset_password (now : Q) (new_token : pystr) (smtp : res unit)
  (users : db) (email_in : pystr) : response * db :=
  let email_n := strip (py_lower email_in) in
  if Nat.eqb (length email_n) 0 then (error_response (lit "Email is required") 400, users)
  else
    match find (fun u => Zeqb_list (email u) email_n) users with
    | None => (success_response reset_sent, users)
    | Some u =>
        let expires_at := (now + inject_Z 3600)%Q in
        let users' :=
          map (fun v => if id v =? id u
                        then mk_user (id v) (email v) (password_hash v) (first_name v)
                               (last_name v) (Some new_token) (Some expires_at)
                        else v) users in
        match smtp with
        | Ok _ => (success_response reset_sent, users')
        | Raise _ => (success_response reset_sent, users')
        end
    end.

End Reset.

Definition reset_done : json :=
  JObj [(lit "message", JStr (lit "Password reset successful"))].

(** [SELECT id, email FROM users WHERE reset_token = %s
     AND reset_token_expires > CURRENT_TIMESTAMP]; [fetchone()] takes the
    first row; [now] is the transaction's timestamp. *)
Definition select_by_reset_token (now : Q) (users : db) (token : pystr) : option user :=
  find (fun u => match reset_token u, reset_token_expires u with
                 | Some t, Some e => Zeqb_list t token && Qltb now e
                 | _, _ => false
                 end) users.

(** [UPDATE users SET password_hash = %s, reset_token = NULL,
     reset_token_expires = NULL WHERE id = %s] *)
Definition update_password (users : db) (uid : Z) (h : pwhash) : db :=
  map (fun v => if id v =? uid
                then mk_user (id v) (email v) h (first_name v) (last_name v) None None
                else v) users.

(** [handle_confirm_reset(conn, data)] with [data['token']] and
    [data['password']] strings; [salt] is drawn by [bcrypt.gensalt()]. On an
    exception the transaction is rolled back. *)
Definition handle_confirm_reset (now : Q) (salt : Z) (users : db)
  (token new_password : pystr) : response * db :=
  if Nat.eqb (length token) 0 || Nat.eqb (length new_password) 0 then
    (error_response (lit "Token and new password are required") 400, users)
  else if Nat.ltb (length new_password) 6 then
    (error_response (lit "Password must be at least 6 characters") 400, users)
  else
    match select_by_reset_token now users token with
    | None => (error_response (lit "Invalid or expired token") 400, users)
    | Some u =>
        match utf8_encode new_password with
        | Ok pw =>
            (success_response reset_done, update_password users (id u) (Bcrypt pw salt))
        | Raise e =>
            (error_response (lit "Password reset failed: " ++ exn_text e) 500, users)
        end
    end.

(** The same handler cut at its database statements, for interleaving two
    requests: [CStart] runs the input checks and the SELECT, [CSelected]
    the hashing, the UPDATE keyed on the selected id, and the commit. *)
Inductive confirm_state :=
| CStart (token new_password : pystr) (salt : Z)
| CSelected (uid : Z) (new_password : pystr) (salt : Z)
| CDone (r : response).

Definition confirm_step (now : Q) (users : db) (st : confirm_state) : confirm_state * db :=
  match st with
  | CStart token new_password salt =>
      if Nat.eqb (length token) 0 || Nat.eqb (length new_password) 0 then
        (CDone (error_response (lit "Token and new password are required") 400), users)
      else if Nat.ltb (length new_password) 6 then
        (CDone (error_response (lit "Password must be at least 6 characters") 400), users)
      else
        match select_by_reset_token now users token with
        | None => (CDone (error_response (lit "Invalid or expired token") 400), users)
        | Some u => (CSelected (id u) new_password salt, users)
        end
  | CSelected uid new_password salt =>
      match utf8_encode new_password with
      | Ok pw => (CDone (success_response reset_done), update_password users uid (Bcrypt pw salt))
      | Raise e =>
          (CDone (error_response (lit "Password reset failed: " ++ exn_text e) 500), users)
      end
  | CDone r => (CDone r, users)
  end.


(** The [user] object of the login and register responses:
    [{'id': ..., 'email': ..., 'first_name': ..., 'last_name': ...}]. *)
Definition user_json (u : user) : json :=
  JObj [(lit "id", JInt (id u)); (lit "email", JStr (email u));
        (lit "first_name", JStr (first_name u)); (lit "last_name", JStr (last_name u))].

(** [{'user_id': user['id'], 'email': user['email']}], the claims of the
    token made at login and registration. *)
Definition token_claims (uid : Z) (em : pystr) : json :=
  JObj [(lit "user_id", JInt uid); (lit "email", JStr em)].

(** The [DELETE] branch of [handler] (logout). *)
Definition logout_response : response :=
  mk_response 200
    (response_headers ++
     [(lit "Set-Cookie", lit "auth_token=; Path=/; HttpOnly; Secure; SameSite=Lax; Max-Age=0")])
    (dumps false (JObj [(lit "message", JStr (lit "Logged out successfully"))])) false.

Section Accounts.

Variable py_lower : pystr -> pystr.

(** [bcrypt.checkpw(password, hashed)] *)
Variable checkpw : bytes -> pwhash -> bool.

(** The [try] block of [handle_login]; [email_n] is the normalized email.
    psycopg2 adapts the email parameter with [pg_param]. [t_exp] and [t_iat]
    are the clock readings of [create_jwt_token]. *)
Definition login_body (env_secret : option pystr) (t_exp t_iat : Q) (users : db)
  (email_n password : pystr) : res response :=
  let* _ := pg_param email_n in
  match find (fun u => Zeqb_list (email u) email_n) users with
  | None => Ok (error_response (lit "Invalid credentials") 401)
  | Some u =>
      let* pw := utf8_encode password in
      if negb (checkpw pw (password_hash u)) then
        Ok (error_response (lit "Invalid credentials") 401)
      else
        let* r := Auth.create_jwt_token env_secret t_exp t_iat (token_claims (id u) (email u)) in
        Ok (success_response (JObj [(lit "token", JStr (fst r)); (lit "user", user_json u)]))
  end.

(** [handle_login(conn, data)] with [data['email']] and [data['password']]
    strings. *)
Definition handle_login (env_secret : option pystr) (t_exp t_iat : Q) (users : db)
  (email_in password : pystr) : response :=
  let email_n := strip (py_lower email_in) in
  if Nat.eqb (length email_n) 0 || Nat.eqb (length password) 0 then
    error_response (lit "Email and password are required") 400
  else
    match login_body env_secret t_exp t_iat users email_n password with
    | Ok r => r
    | Raise e => error_response (lit "Login failed: " ++ exn_text e) 500
    end.

(** [handle_register(conn, data)] with string fields. [salt] is drawn by
    [bcrypt.gensalt()] and [next_id] is the id the INSERT assigns. psycopg2
    adapts the SELECT's email parameter, and the INSERT's [first_name] and
    [last_name] after [password.encode('utf-8')] for the hash, with
    [pg_param]. The new row is committed before the token is made, so an
    exception raised by [create_jwt_token] leaves it in the table. *)
Definition handle_register (env_secret : option pystr) (t_exp t_iat : Q) (salt next_id : Z)
  (users : db) (email_in password first_name last_name : pystr) : response * db :=
  let email_n := strip (py_lower email_in) in
  let fail e := error_response (lit "Registration failed: " ++ exn_text e) 500 in
  if Nat.eqb (length email_n) 0 || Nat.eqb (length password) 0 then
    (error_response (lit "Email and password are required") 400, users)
  else if Nat.ltb (length password) 6 then
    (error_response (lit "Password must be at least 6 characters") 400, users)
  else
    match pg_param email_n with
    | Raise e => (fail e, users)
    | Ok _ =>
        match find (fun u => Zeqb_list (email u) email_n) users with
        | Some _ => (error_response (lit "User already exists") 409, users)
        | None =>
            match utf8_encode password, pg_param first_name, pg_param last_name with
            | Ok pw, Ok _, Ok _ =>
                let u := mk_user next_id email_n (Bcrypt pw salt) first_name last_name None None in
                let users' := users ++ [u] in
                match Auth.create_jwt_token env_secret t_exp t_iat (token_claims (id u) (email u)) with
                | Ok r =>
                    (success_response (JObj [(lit "token", JStr (fst r)); (lit "user", user_json u)]),
                     users')
                | Raise e => (fail e, users')
                end
            | Raise e, _, _ => (fail e, users)
            | _, Raise e, _ => (fail e, users)
            | _, _, Raise e => (fail e, users)
            end
        end
    end.

End Accounts.

End AuthHandler.

(** ** Handlers of backend/user-auth/index.py *)
Module UserAuthHandler.

Definition cors_headers : list (pystr * pystr) :=
  [(lit "Access-Control-Allow-Origin", lit "*");
   (lit "Access-Control-Allow-Credentials", lit "true");
   (lit "Access-Control-Allow-Methods", lit "GET, POST, PUT, DELETE, OPTIONS");
   (lit "Access-Control-Allow-Headers",
    lit "Content-Type, X-User-Id, X-Auth-Token, Authorization, Cookie");
   (lit "Access-Control-Max-Age", lit "86400");
   (lit "Content-Type", lit "application/json")].

Definition success_response (data : json) (cors : list (pystr * pystr)) : response :=
  mk_response 200 cors (dumps false data) false.

Definition error_response (message : pystr) (status_code : Z)
  (cors : list (pystr * pystr)) : response :=
  mk_response status_code cors (dumps false (JObj [(lit "error", JStr message)])) false.

Section Reset.

Variable py_lower : pystr -> pystr.

(** [handle_reset_password(conn, data, cors_headers)]: the table is not read. *)
Definition handle_reset_password (users : db) (email_in : pystr) : response :=
  let email_n := strip (py_lower email_in) in
  if Nat.eqb (length email_n) 0 then error_response (lit "Email required") 400 cors_headers
  else success_response
         (JObj [(lit "message", JStr (lit "Reset email sent if account exists"))])
         cors_headers.

End Reset.

(** [success_response_with_cookie(data, token, cors_headers)]: the
    [Set-Cookie] key is added after the CORS headers, which do not hold it. *)
Definition success_response_with_cookie (data : json) (token : pystr)
  (cors : list (pystr * pystr)) : response :=
  mk_response 200
    (cors ++ [(lit "Set-Cookie",
               lit "auth_token=" ++ token ++ lit "; Path=/; HttpOnly; SameSite=Lax; Max-Age=" ++
               int_repr (7 * 24 * 3600))])
    (dumps false data) false.

(** The [GET] branch of [handler]: the same session check as in
    backend/auth/index.py, answering with [dict(user)] of the selected
    columns. *)
Definition handle_session_check (env_secret : option pystr) (now : Q) (users : db)
  (hs : list (pystr * pystr)) : res response :=
  let cookies := header_get (lit "Cookie") hs in
  let* token := extract_token_from_cookies cookies in
  match token with
  | Some t =>
      if negb (Nat.eqb (length t) 0) then
        match UserAuth.verify_jwt_token env_secret now t with
        | Some user_data =>
            if truthy user_data then
              let* uid := getitem user_data (lit "user_id") in
              let* row := select_user_by_id users uid in
              match row with
              | Some u =>
                  Ok (success_response
                        (JObj [(lit "user", AuthHandler.user_json u); (lit "valid", JBool true)])
                        cors_headers)
              | None => Ok (error_response (lit "Invalid token") 401 cors_headers)
              end
            else Ok (error_response (lit "Invalid token") 401 cors_headers)
        | None => Ok (error_response (lit "Invalid token") 401 cors_headers)
        end
      else Ok (error_response (lit "Invalid token") 401 cors_headers)
  | None => Ok (error_response (lit "Invalid token") 401 cors_headers)
  end.

(** The [DELETE] branch of [handler] (logout): [{**cors_headers, 'Set-Cookie': ...}]. *)
Definition logout_response : response :=
  mk_response 200
    (cors_headers ++
     [(lit "Set-Cookie", lit "auth_token=; Path=/; HttpOnly; SameSite=Lax; Max-Age=0")])
    (dumps false (JObj [(lit "message", JStr (lit "Logged out successfully"))])) false.

Section Accounts.

Variable py_lower : pystr -> pystr.
Variable checkpw : bytes -> pwhash -> bool.

(** The [try] block of [handle_login(conn, data, cors_headers)]. *)
Definition login_body (env_secret : option pystr) (t_exp t_iat : Q) (users : db)
  (email_n password : pystr) : res response :=
  let* _ := pg_param email_n in
  match find (fun u => Zeqb_list (email u) email_n) users with
  | None => Ok (error_response (lit "Invalid credentials") 401 cors_headers)
  | Some u =>
      let* pw := utf8_encode password in
      if negb (checkpw pw (password_hash u)) then
        Ok (error_response (lit "Invalid credentials") 401 cors_headers)
      else
        let* r := UserAuth.create_jwt_token env_secret t_exp t_iat
                    (AuthHandler.token_claims (id u) (email u)) in
        Ok (success_response_with_cookie (JObj [(lit "user", AuthHandler.user_json u)])
              (fst r) cors_headers)
  end.

Definition handle_login (env_secret : option pystr) (t_exp t_iat : Q) (users : db)
  (email_in password : pystr) : response :=
  let email_n := strip (py_lower email_in) in
  if Nat.eqb (length email_n) 0 || Nat.eqb (length password) 0 then
    error_response (lit "Email and password required") 400 cors_headers
  else
    match login_body env_secret t_exp t_iat users email_n password with
    | Ok r => r
    | Raise e => error_response (lit "Login failed: " ++ exn_text e) 500 cors_headers
    end.

(** [handle_register(conn, data, cors_headers)]; [last_name or ''] is the
    identity on strings. *)
Definition handle_register (env_secret : option pystr) (t_exp t_iat : Q) (salt next_id : Z)
  (users : db) (email_in password first_name last_name : pystr) : response * db :=
  let email_n := strip (py_lower email_in) in
  let fail e := error_response (lit "Registration failed: " ++ exn_text e) 500 cors_headers in
  if Nat.eqb (length email_n) 0 || Nat.eqb (length password) 0 then
    (error_response (lit "Email and password required") 400 cors_headers, users)
  else if Nat.ltb (length password) 6 then
    (error_response (lit "Password must be at least 6 characters") 400 cors_headers, users)
  else
    match pg_param email_n with
    | Raise e => (fail e, users)
    | Ok _ =>
        match find (fun u => Zeqb_list (email u) email_n) users with
        | Some _ => (error_response (lit "User already exists") 409 cors_headers, users)
        | None =>
            match utf8_encode password, pg_param first_name, pg_param last_name with
            | Ok pw, Ok _, Ok _ =>
                let u := mk_user next_id email_n (Bcrypt pw salt) first_name last_name None None in
                let users' := users ++ [u] in
                match UserAuth.create_jwt_token env_secret t_exp t_iat
                        (AuthHandler.token_claims (id u) (email u)) with
                | Ok r =>
                    (success_response_with_cookie (JObj [(lit "user", AuthHandler.user_json u)])
                       (fst r) cors_headers, users')
                | Raise e => (fail e, users')
                end
            | Raise e, _, _ => (fail e, users)
            | _, Raise e, _ => (fail e, users)
            | _, _, Raise e => (fail e, users)
            end
        end
    end.

End Accounts.

End UserAuthHandler.

(** ** The authorization gate of backend/transactions/index.py *)
Module Transactions.

Definition error_response (message : pystr) (status_code : Z) : response :=
  mk_response status_code
    [(lit "Content-Type", lit "application/json"); (lit "Access-Control-Allow-Origin", lit "*")]
    (dumps true (JObj [(lit "error", JStr message)])) false.

(** Lines 36-42 of [handler]: the token is [auth_header[7:]] and is checked
    by [verify_jwt_token] imported from [auth.index]. The result is the
    early 401 response or the verified payload. *)
Definition auth_gate (env_secret : option pystr) (now : Q) (hs : list (pystr * pystr))
  : response + json :=
  let auth_header := header_get (lit "Authorization") hs in
  if negb (starts_with (lit "Bearer ") auth_header)
  then inl (error_response (lit "Authorization required") 401)
  else
    let token := skipn 7 auth_header in
    match Auth.verify_jwt_token env_secret now token with
    | Some user_data =>
        if truthy user_data then inr user_data
        else inl (error_response (lit "Invalid token") 401)
    | None => inl (error_response (lit "Invalid token") 401)
    end.

End Transactions.

(** ** The cookie check of backend/goals/index.py and backend/calendar/index.py *)
Module Goals.

(** The body of the [try] of [extract_user_id_from_cookies(event)] (the
    two files hold the same function); [hs] is [event.get('headers', {})]
    and Python's [None] is [JNull]. *)
Definition extract_body (env_secret : option pystr) (now : Q) (hs : list (pystr * pystr))
  : res json :=
  let cookies := header_get (lit "Cookie") hs in
  if Nat.eqb (length cookies) 0 then Ok JNull
  else
    let* token :=
      (fix go (cs : list pystr) : res (option pystr) :=
         match cs with
         | [] => Ok None
         | cookie :: rest =>
             let cookie := strip cookie in
             if starts_with (lit "auth_token=") cookie
             then let* v := after_first 61 cookie in Ok (Some v)
             else go rest
         end) (split_on 59 cookies) in
    match token with
    | None => Ok JNull
    | Some t =>
        if Nat.eqb (length t) 0 then Ok JNull
        else
          match split_on 46 t with
          | [header_b64; payload_b64; signature_b64] =>
              let message := header_b64 ++ [46] ++ payload_b64 in
              let* key := jwt_secret env_secret in
              let* msg := utf8_encode message in
              let expected_signature := hmac_sha256 key msg in
              let* actual_signature := urlsafe_b64decode (add_padding signature_b64) in
              if negb (Zeqb_list expected_signature actual_signature) then Ok JNull
              else
                let* pb := urlsafe_b64decode (add_padding payload_b64) in
                let* ps := utf8_decode pb in
                let* payload := json_loads ps in
                let* exp := dict_get payload (lit "exp") (JInt 0) in
                let* expired := lt_time exp now in
                if expired then Ok JNull else dict_get payload (lit "user_id") JNull
          | _ => Ok JNull
          end
    end.

(** [extract_user_id_from_cookies(event)]: [except Exception: return None]. *)
Definition extract_user_id_from_cookies (env_secret : option pystr) (now : Q)
  (hs : list (pystr * pystr)) : json :=
  match extract_body env_secret now hs with
  | Ok v => v
  | Raise _ => JNull
  end.

Definition error_response (message : pystr) (status_code : Z) : response :=
  mk_response status_code
    [(lit "Content-Type", lit "application/json"); (lit "Access-Control-Allow-Origin", lit "*");
     (lit "Access-Control-Allow-Credentials", lit "true")]
    (dumps false (JObj [(lit "error", JStr message)])) false.

(** Lines 34-36 of [handler] (after the OPTIONS branch): the early 401
    response, or the user id the request goes on with. *)
Definition auth_gate (env_secret : option pystr) (now : Q) (hs : list (pystr * pystr))
  : response + json :=
  let user_id := extract_user_id_from_cookies env_secret now hs in
  if negb (truthy user_id) then inl (error_response (lit "Authentication required") 401)
  else inr user_id.

End Goals.

(** ** Predicates and inputs used in the statements below *)

Definition byteb (b : Z) : bool := (0 <=? b) && (b <? 256).
Definition asciib (c : Z) : bool := (0 <=? c) && (c <? 128).

(** The part of a token covered by its signature: the first two
    dot-separated segments. *)
Definition signing_input (token : pystr) : pystr :=
  match split_on 46 token with
  | [h; p; _] => h ++ [46] ++ p
  | _ => []
  end.

(** A token value that survives [cookie.strip()] unchanged inside one
    cookie: non-empty, no ';', no trailing whitespace. *)
Definition cookie_safe (t : pystr) : bool :=
  forallb (fun c => negb (c =? 59)) t &&
  match rev t with
  | c :: _ => negb (is_space c)
  | [] => false
  end.

(** The token and the claims returned by [create_jwt_token]. *)
Definition token_of (r : res (pystr * json)) : pystr :=
  match r with Ok (t, _) => t | Raise _ => [] end.
Definition claims_of (r : res (pystr * json)) : option json :=
  match r with Ok (_, c) => Some c | Raise _ => None end.

(** The claims passed by [handle_login] for user 7. *)
Definition login_claims : json :=
  JObj [(lit "user_id", JInt 7); (lit "email", JStr (lit "a@x.com"))].

(** A signing secret longer than the 64-byte HMAC block, and the text
    whose UTF-8 encoding is its SHA-256 digest (code points). *)
Definition long_secret : pystr :=
  lit "finplan-production-jwt-signing-secret-for-auth-tokens-rotated-2026-152348183".
Definition long_secret_digest : pystr :=
  [57; 46; 53; 39; 58; 112; 33; 294; 86; 5678; 72; 50; 6; 73; 101; 118; 36; 95;
   1186; 22; 3; 124; 31; 163; 519; 61].

(** A table with one user holding a live reset token (it expires one hour
    after [login_time] below). *)
Definition reset_user_7 : user :=
  mk_user 7 (lit "a@x.com") (Bcrypt (lit "secret1") 1) (lit "Ann") (lit "")
    (Some (lit "Zq3xV9sPpL0aW2mRk8tYc1uN5bHf7dJe4gQi6oTz0wE")) (Some (inject_Z 1700003600)).
Definition reset_table : db :=
  [reset_user_7;
   mk_user 8 (lit "b@x.com") (Bcrypt (lit "hunter22") 2) (lit "Bob") (lit "") None None].


(** A login at [time.time() = 1700000000]: the token and the claims it
    carries. *)
Definition login_time : Q := inject_Z 1700000000.
Definition login_issue : res (pystr * json) :=
  Auth.create_jwt_token None login_time login_time login_claims.
Definition login_token : pystr := token_of login_issue.
Definition login_claims_issued : json :=
  JObj [(lit "user_id", JInt 7); (lit "email", JStr (lit "a@x.com"));
        (lit "exp", JInt 1700604800); (lit "iat", JInt 1700000000)].

(** Claims holding a str made of two lone surrogate code points. *)
Definition surrogate_claims : json :=
  JObj [(lit "user_id", JInt 7); (lit "name", JStr [0xd800; 0xdc00])].

(** The session check finds no usable token in the request: no
    [auth_token] cookie, an empty value, or a value [verify_jwt_token]
    rejects (for whatever reason). *)
Definition token_rejected (env_secret : option pystr) (now : Q)
  (hs : list (pystr * pystr)) : Prop :=
  let r := extract_token_from_cookies (header_get (lit "Cookie") hs) in
  r = Ok None \/ r = Ok (Some []) \/
  exists t, r = Ok (Some t) /\ Auth.verify_jwt_token env_secret now t = None.

(** [auth_token=] as code points. *)
Definition auth_cookie_prefix : pystr := [97; 117; 116; 104; 95; 116; 111; 107; 101; 110; 61].

(** The number of '=' that [add_padding] appends. *)
Definition pad_len (u : pystr) : nat := Z.to_nat (4 - Z.of_nat (length u) mod 4).

(** The facts about one base64 character used by the round trip. *)
Definition b64_char_ok (v : Z) : bool :=
  let c := b64_char v in
  (b64_value c =? v) && negb (c =? 61) && asciib (urlsafe_encode_char c) &&
  negb (urlsafe_encode_char c =? 61) && negb (urlsafe_encode_char c =? 46) &&
  (urlsafe_decode_char (urlsafe_encode_char c) =? c).

Definition b64_sextet (c : Z) : Prop := exists v, 0 <= v < 64 /\ c = b64_char v.

(** A Unicode scalar value: a code point that is not a surrogate. *)
Definition scalarb (c : Z) : bool :=
  (0 <=? c) && (c <=? 0x10ffff) && negb (in_range 0xd800 0xdfff c).

(** Pairwise distinct keys, as in a Python dict. *)
Definition keys_distinct (kv : list (pystr * json)) : bool :=
  (fix nd (kv : list (pystr * json)) : bool :=
     match kv with
     | [] => true
     | (k, _) :: r => forallb (fun p => negb (Zeqb_list k (fst p))) r && nd r
     end) kv.

(** Values without floats whose strings hold only scalar values and whose
    dicts have distinct keys. *)
Fixpoint json_ok (v : json) : bool :=
  match v with
  | JNull | JBool _ | JInt _ => true
  | JFloat _ => false
  | JStr s => forallb scalarb s
  | JList l =>
      (fix go (l : list json) : bool :=
         match l with [] => true | x :: r => json_ok x && go r end) l
  | JObj kv =>
      keys_distinct kv &&
      (fix go (kv : list (pystr * json)) : bool :=
         match kv with
         | [] => true
         | (k, x) :: r => forallb scalarb k && json_ok x && go r
         end) kv
  end.

(** What may follow a value in [json.dumps] output: nothing, ',', ']' or '}'. *)
Definition json_term (r : list Z) : Prop :=
  r = [] \/ exists c t, r = c :: t /\ (c = 44 \/ c = 93 \/ c = 125).

(** One [key: value] item of a dumped dict. *)
Definition member_text (p : pystr * json) : pystr :=
  dump_str true (fst p) ++ lit ": " ++ dumps true (snd p).

(** The scanner reads [v] back from its [json.dumps] text, with enough fuel. *)
Definition scans_back (v : json) : Prop :=
  forall f r, (length (dumps true v) < f)%nat -> json_term r ->
    scan_value f (dumps true v ++ r) = Ok (v, r).

(** The claims [create_jwt_token] returns for the dict [kv]. *)
Definition issued_claims (t_exp t_iat : Q) (kv : list (pystr * json)) : json :=
  JObj (dict_set (lit "iat") (JInt (py_int t_iat))
          (dict_set (lit "exp") (JInt (py_int t_exp + 7 * 24 * 3600)) kv)).

(** The [Cookie] header a browser sends back for a [Set-Cookie] value:
    its first [;]-separated part, the name=value pair. *)
Definition cookie_pair (set_cookie : pystr) : pystr :=
  match split_on 59 set_cookie with
  | p :: _ => p
  | [] => []
  end.

(** CPython converts an [int] to and from decimal text only up to 4300
    digits ([sys.get_int_max_str_digits()]); [json.dumps] and [json.loads]
    raise [ValueError] beyond. *)
Definition int_small (z : Z) : bool := Nat.leb (length (nat_digits (Z.abs z))) 4300.

(** A value all of whose ints are within that limit, nested at most [d]
    lists or dicts deep. *)
Fixpoint json_within (d : nat) (v : json) : bool :=
  match v with
  | JInt z => int_small z
  | JNull | JBool _ | JFloat _ | JStr _ => true
  | JList l =>
      Nat.ltb 0 d &&
      (fix go (l : list json) : bool :=
         match l with [] => true | x :: r => json_within (pred d) x && go r end) l
  | JObj kv =>
      Nat.ltb 0 d &&
      (fix go (kv : list (pystr * json)) : bool :=
         match kv with [] => true | (_, x) :: r => json_within (pred d) x && go r end) kv
  end.

(** Values that [json.dumps] and [json.loads] handle without raising: ints
    within the digit limit and nesting at most 100 deep, far below the
    interpreter's recursion limit of 1000. *)
Definition json_small (v : json) : bool := json_within 100 v.

(** A password that [bcrypt.hashpw] and [bcrypt.checkpw] accept in every
    release of the bcrypt package: no NUL byte and at most 72 bytes. *)
Definition bcrypt_input (pw : bytes) : Prop := ~ In 0 pw /\ (length pw <= 72)%nat.

(** A character that base64url text and a cookie value share: ASCII, and
    none of ";", ".", "=" or whitespace. *)
Definition url_text_char (c : Z) : Prop :=
  asciib c = true /\ c <> 59 /\ c <> 46 /\ c <> 61 /\ is_space c = false.

(** The login with [email_n] and [password] is refused at the lookup or at
    the password check: no row has the email, or the first one that has it
    does not match the password, which encodes to bytes bcrypt accepts. *)
Definition login_rejects (checkpw : bytes -> pwhash -> bool) (users : db)
  (email_n password : pystr) : Prop :=
  match find (fun u => Zeqb_list (email u) email_n) users with
  | None => True
  | Some u => exists pb, utf8_encode password = Ok pb /\ bcrypt_input pb /\
                         checkpw pb (password_hash u) = false
  end.

(** [users'] is [users], or [users] with one row appended whose id is
    [next_id] and whose email [email_n] no row of [users] has. *)
Definition appends_fresh (users users' : db) (next_id : Z) (email_n : pystr) : Prop :=
  users' = users \/
  exists u, users' = users ++ [u] /\ id u = next_id /\ email u = email_n /\
            Forall (fun v => email v <> email_n) users.

(** [str.lower()] on ASCII text. *)
Definition ascii_lower (s : pystr) : pystr :=
  map (fun c => if in_range 65 90 c then c + 32 else c) s.

(** [bcrypt.checkpw] on the symbolic hash: it holds when the password is
    the one that was hashed. *)
Definition checkpw_model (pw : bytes) (h : pwhash) : bool :=
  match h with Bcrypt p _ => Zeqb_list pw p end.

(** * Proofs *)

Import AuthHandler.

Lemma forallb_range (f : Z -> bool) (lo : Z) (n : nat) v :
  forallb f (map (fun k => lo + Z.of_nat k) (seq 0 n)) = true ->
  lo <= v < lo + Z.of_nat n -> f v = true.
Proof.
  intros H Hv. rewrite forallb_forall in H. apply H.
  apply in_map_iff. exists (Z.to_nat (v - lo)). split; [lia|].
  apply in_seq. lia.
Qed.

Lemma b64_char_ok_all v : 0 <= v < 64 -> b64_char_ok v = true.
Proof.
  apply (forallb_range b64_char_ok 0 64). vm_compute. reflexivity.
Qed.

Lemma b64_char_facts v : 0 <= v < 64 ->
  b64_value (b64_char v) = v /\ b64_char v <> 61 /\
  asciib (urlsafe_encode_char (b64_char v)) = true /\
  urlsafe_encode_char (b64_char v) <> 61 /\ urlsafe_encode_char (b64_char v) <> 46 /\
  urlsafe_decode_char (urlsafe_encode_char (b64_char v)) = b64_char v.
Proof.
  intros Hv. pose proof (b64_char_ok_all v Hv) as H. unfold b64_char_ok in H.
  repeat rewrite andb_true_iff in H. rewrite !negb_true_iff, !Z.eqb_eq, !Z.eqb_neq in H.
  tauto.
Qed.

Lemma a2b_char v r q l p acc : 0 <= v < 64 ->
  a2b_base64 (b64_char v :: r) q l p acc =
  if q =? 0 then a2b_base64 r 1 v 0 acc
  else if q =? 1 then a2b_base64 r 2 (v mod 16) 0 ((l * 4 + v / 16) mod 256 :: acc)
  else if q =? 2 then a2b_base64 r 3 (v mod 4) 0 ((l * 16 + v / 4) mod 256 :: acc)
  else a2b_base64 r 0 0 0 ((l * 64 + v) mod 256 :: acc).
Proof.
  intros Hv. destruct (b64_char_facts v Hv) as (Hval & Hne & _).
  cbn [a2b_base64]. rewrite (proj2 (Z.eqb_neq _ _) Hne), Hval.
  replace (v >=? 64) with false by (symmetry; rewrite Z.geb_leb; apply Z.leb_gt; lia).
  reflexivity.
Qed.

Lemma a2b_unpadded (n : nat) : forall bs acc,
  (length bs <= n)%nat -> Forall (fun b => 0 <= b < 256) bs ->
  a2b_base64 (b64_unpadded bs ++ repeat 61 (pad_len (b64_unpadded bs))) 0 0 0 acc =
  Ok (rev acc ++ bs).
Proof.
  induction n as [|n IH]; intros bs acc Hlen Hb.
  - destruct bs; [|simpl in Hlen; lia]. simpl. rewrite app_nil_r. reflexivity.
  - destruct bs as [|b0 [|b1 [|b2 r]]].
    + simpl. rewrite app_nil_r. reflexivity.
    + inversion Hb; subst. cbn [b64_unpadded app].
      unfold pad_len. cbn [length]. simpl (Z.to_nat _). cbn [repeat].
      rewrite a2b_char by (Z.div_mod_to_equations; lia); cbn [Z.eqb Pos.eqb].
      rewrite a2b_char by (Z.div_mod_to_equations; lia); cbn [Z.eqb Pos.eqb].
      cbn [Z.eqb Pos.eqb]. simpl. repeat f_equal.
      Z.div_mod_to_equations; lia.
    + inversion Hb as [|? ? H0 Hb1]; subst. inversion Hb1; subst.
      cbn [b64_unpadded app].
      unfold pad_len. cbn [length]. simpl (Z.to_nat _). cbn [repeat].
      do 3 (rewrite a2b_char by (Z.div_mod_to_equations; lia); cbn [Z.eqb Pos.eqb]).
      simpl. rewrite <- !app_assoc. simpl. repeat f_equal; Z.div_mod_to_equations; lia.
    + inversion Hb as [|? ? H0 Hb1]; subst. inversion Hb1 as [|? ? H1 Hb2]; subst.
      inversion Hb2 as [|? ? H2 Hbr]; subst.
      cbn [b64_unpadded app].
      assert (Hp : pad_len (b64_char (b0 / 4) :: b64_char (b0 mod 4 * 16 + b1 / 16) ::
                   b64_char (b1 mod 16 * 4 + b2 / 64) :: b64_char (b2 mod 64) :: b64_unpadded r)
                   = pad_len (b64_unpadded r)).
      { unfold pad_len. cbn [length]. f_equal. rewrite !Nat2Z.inj_succ.
        Z.div_mod_to_equations; lia. }
      rewrite Hp.
      do 4 (rewrite a2b_char by (Z.div_mod_to_equations; lia); cbn [Z.eqb Pos.eqb]).
      rewrite IH by (simpl in Hlen; lia || assumption).
      cbn [rev]. rewrite <- !app_assoc. simpl.
      repeat f_equal; Z.div_mod_to_equations; lia.
Qed.

Lemma bytes3_ind (P : bytes -> Prop) :
  P [] -> (forall b0, P [b0]) -> (forall b0 b1, P [b0; b1]) ->
  (forall b0 b1 b2 r, P r -> P (b0 :: b1 :: b2 :: r)) -> forall bs, P bs.
Proof.
  intros H0 H1 H2 H3. fix IH 1. intros [|b0 [|b1 [|b2 r]]];
    [apply H0 | apply H1 | apply H2 | apply H3, IH].
Qed.

Lemma b64_unpadded_sextets (bs : bytes) :
  Forall (fun b => 0 <= b < 256) bs -> Forall b64_sextet (b64_unpadded bs).
Proof.
  induction bs as [| b0 | b0 b1 | b0 b1 b2 r IH] using bytes3_ind; intros Hb;
    repeat match goal with H : Forall _ (_ :: _) |- _ => inversion H; subst; clear H end;
    cbn [b64_unpadded];
    repeat apply Forall_cons; try (eexists; split; [|reflexivity]; Z.div_mod_to_equations; lia);
    auto.
Qed.

Lemma b64encode_unpadded (bs : bytes) :
  exists k, b64encode bs = b64_unpadded bs ++ repeat 61 k.
Proof.
  induction bs as [| b0 | b0 b1 | b0 b1 b2 r IH] using bytes3_ind.
  - exists 0%nat. reflexivity.
  - exists 2%nat. reflexivity.
  - exists 1%nat. reflexivity.
  - destruct IH as [k Hk]. exists k. simpl. rewrite Hk. reflexivity.
Qed.

Lemma lstrip_repeat p c k s : p c = true -> lstrip_by p (repeat c k ++ s) = lstrip_by p s.
Proof. intros Hc. induction k as [|k IH]; simpl; [reflexivity|]. rewrite Hc. exact IH. Qed.

Lemma rstrip_eq_pad u k :
  Forall (fun c => c <> 61) u -> rstrip_eq (u ++ repeat 61 k) = u.
Proof.
  intros Hu. unfold rstrip_eq, rstrip_by.
  rewrite rev_app_distr, rev_repeat, lstrip_repeat by reflexivity.
  destruct (rev u) as [|c r] eqn:E; cbn [lstrip_by].
  - rewrite <- (rev_involutive u), E. reflexivity.
  - assert (Hc : c <> 61).
    { rewrite Forall_forall in Hu. apply Hu. rewrite in_rev, E. left. reflexivity. }
    rewrite (proj2 (Z.eqb_neq _ _) (not_eq_sym Hc)).
    rewrite <- E, rev_involutive. reflexivity.
Qed.

Lemma map_repeat {A B} (f : A -> B) x k : map f (repeat x k) = repeat (f x) k.
Proof. induction k; simpl; congruence. Qed.

Lemma b64_roundtrip bs : Forall (fun b => 0 <= b < 256) bs ->
  urlsafe_b64decode (add_padding (rstrip_eq (urlsafe_b64encode bs))) = Ok bs.
Proof.
  intros Hb. pose proof (b64_unpadded_sextets bs Hb) as Hs.
  destruct (b64encode_unpadded bs) as [k Hk].
  set (u := b64_unpadded bs) in *.
  unfold urlsafe_b64encode. rewrite Hk, map_app, map_repeat.
  change (urlsafe_encode_char 61) with 61.
  rewrite rstrip_eq_pad.
  2:{ rewrite Forall_map. eapply Forall_impl; [|exact Hs].
      intros c [v [Hv ->]]. apply (b64_char_facts v Hv). }
  unfold add_padding, urlsafe_b64decode. rewrite length_map.
  replace (forallb (fun c => c <? 128) _) with true.
  2:{ symmetry. rewrite forallb_app, andb_true_iff. split.
      - rewrite forallb_forall. intros c Hc. apply in_map_iff in Hc.
        destruct Hc as [c0 [<- Hc0]]. rewrite Forall_forall in Hs.
        destruct (Hs c0 Hc0) as [v [Hv ->]]. destruct (b64_char_facts v Hv) as (_ & _ & Ha & _).
        unfold asciib in Ha. apply andb_true_iff in Ha. tauto.
      - rewrite forallb_forall. intros c Hc. apply repeat_spec in Hc. subst. reflexivity. }
  rewrite map_app, map_map, map_repeat. change (urlsafe_decode_char 61) with 61.
  replace (map (fun x => urlsafe_decode_char (urlsafe_encode_char x)) u) with u.
  2:{ rewrite <- (map_id u) at 1. apply map_ext_in. intros c Hc.
      rewrite Forall_forall in Hs. destruct (Hs c Hc) as [v [Hv ->]].
      symmetry. apply (b64_char_facts v Hv). }
  apply (a2b_unpadded (length bs) bs [] (le_n _) Hb).
Qed.

Lemma no_dot_encoded bs : Forall (fun b => 0 <= b < 256) bs ->
  ~ In 46 (rstrip_eq (urlsafe_b64encode bs)).
Proof.
  intros Hb. pose proof (b64_unpadded_sextets bs Hb) as Hs.
  destruct (b64encode_unpadded bs) as [k Hk].
  unfold urlsafe_b64encode. rewrite Hk, map_app, map_repeat.
  change (urlsafe_encode_char 61) with 61.
  assert (Hf : Forall (fun c => c <> 61 /\ c <> 46) (map urlsafe_encode_char (b64_unpadded bs))).
  { rewrite Forall_map. eapply Forall_impl; [|exact Hs].
    intros c [v [Hv ->]]. destruct (b64_char_facts v Hv) as (_ & _ & _ & H1 & H2 & _). tauto. }
  rewrite rstrip_eq_pad by (eapply Forall_impl; [|exact Hf]; simpl; tauto).
  intros Hin. rewrite Forall_forall in Hf. apply (Hf 46 Hin). reflexivity.
Qed.

Lemma split_on_app sep a b : ~ In sep a ->
  split_on sep (a ++ sep :: b) = a :: split_on sep b.
Proof.
  induction a as [|c a IH]; intros Ha; simpl.
  - rewrite Z.eqb_refl. reflexivity.
  - rewrite (proj2 (Z.eqb_neq c sep)) by (intros ->; apply Ha; left; reflexivity).
    rewrite IH by (intros H; apply Ha; right; exact H). reflexivity.
Qed.

Lemma split_on_none sep a : ~ In sep a -> split_on sep a = [a].
Proof.
  induction a as [|c a IH]; intros Ha; simpl; [reflexivity|].
  rewrite (proj2 (Z.eqb_neq c sep)) by (intros ->; apply Ha; left; reflexivity).
  rewrite IH by (intros H; apply Ha; right; exact H). reflexivity.
Qed.

Lemma utf8_encode_ascii s : forallb asciib s = true -> utf8_encode s = Ok s.
Proof.
  induction s as [|c s IH]; simpl; [reflexivity|].
  intros H. apply andb_true_iff in H as [Hc Hs]. rewrite IH by exact Hs. simpl.
  unfold asciib in Hc. apply andb_true_iff in Hc as [_ Hc]. rewrite Hc. reflexivity.
Qed.

Lemma utf8_decode_ascii s : forallb asciib s = true -> utf8_decode s = Ok s.
Proof.
  induction s as [|c s IH]; simpl; [reflexivity|].
  intros H. apply andb_true_iff in H as [Hc Hs].
  unfold asciib in Hc. apply andb_true_iff in Hc as [_ Hc]. rewrite Hc.
  rewrite IH by exact Hs. reflexivity.
Qed.

Lemma ascii_bytes s : forallb asciib s = true -> Forall (fun b => 0 <= b < 256) s.
Proof.
  intros H. apply Forall_forall. intros c Hc. rewrite forallb_forall in H.
  specialize (H c Hc). unfold asciib in H. apply andb_true_iff in H as [H1 H2].
  apply Z.leb_le in H1. apply Z.ltb_lt in H2. lia.
Qed.

(** *** json.dumps with ensure_ascii produces ASCII text *)

Lemma forallb_split {A} (f : A -> bool) n l :
  forallb f l = true -> forallb f (firstn n l) = true /\ forallb f (skipn n l) = true.
Proof.
  intros H. rewrite <- (firstn_skipn n l), forallb_app in H. apply andb_true_iff in H. exact H.
Qed.

Lemma forallb_repeat {A} (f : A -> bool) x k : f x = true -> forallb f (repeat x k) = true.
Proof. intros H. induction k; simpl; [reflexivity|]. rewrite H. exact IHk. Qed.

Lemma asciib_range c : 0 <= c < 128 -> asciib c = true.
Proof. intros H. unfold asciib. apply andb_true_iff. split; [apply Z.leb_le | apply Z.ltb_lt]; lia. Qed.

Lemma digits_aux_ascii fuel n acc :
  forallb asciib acc = true -> forallb asciib (digits_aux fuel n acc) = true.
Proof.
  revert n acc. induction fuel as [|f IH]; intros n acc H; cbn [digits_aux]; [exact H|].
  assert (Hd : asciib (48 + n mod 10) = true)
    by (apply asciib_range; pose proof (Z.mod_pos_bound n 10); lia).
  destruct (n <? 10); [cbn [forallb]; rewrite Hd; exact H|].
  apply IH. cbn [forallb]. rewrite Hd. exact H.
Qed.

Lemma nat_digits_ascii n : forallb asciib (nat_digits n) = true.
Proof. apply digits_aux_ascii. reflexivity. Qed.

Lemma int_repr_ascii z : forallb asciib (int_repr z) = true.
Proof. unfold int_repr. destruct (z <? 0); simpl; apply nat_digits_ascii. Qed.

Lemma float_repr_ascii f : forallb asciib (float_repr f) = true.
Proof.
  destruct f as [m e| | |]; try reflexivity. unfold float_repr.
  pose proof (nat_digits_ascii (Z.abs m)) as Hd.
  set (d := nat_digits (Z.abs m)) in *.
  rewrite forallb_app. apply andb_true_iff. split; [destruct (m <? 0); reflexivity|].
  destruct (_ || _).
  - pose proof (nat_digits_ascii (Z.abs (Z.of_nat (length d) + e - 1))) as Hx.
    set (xd := nat_digits _) in *.
    assert (Hh : asciib (hd 48 d) = true).
    { destruct d as [|c r]; [reflexivity|]. simpl in Hd. apply andb_true_iff in Hd. tauto. }
    assert (Ht : forallb asciib (tl d) = true).
    { destruct d as [|c r]; [reflexivity|]. simpl in Hd. apply andb_true_iff in Hd. tauto. }
    repeat (rewrite forallb_app; apply andb_true_iff; split);
      simpl; rewrite ?Hh, ?Ht, ?Hx; try reflexivity;
      repeat match goal with |- context [if ?b then _ else _] => destruct b end;
      simpl; rewrite ?Ht, ?Hx; reflexivity.
  - destruct (_ <=? 0); [|destruct (_ <=? _)];
      repeat (rewrite forallb_app; apply andb_true_iff; split);
      try apply forallb_repeat; try reflexivity; try exact Hd;
      apply (forallb_split asciib _ d Hd).
Qed.

Lemma hex4_ascii v : forallb asciib (hex4 v) = true.
Proof.
  unfold hex4. rewrite forallb_forall. intros c Hc. apply in_map_iff in Hc.
  destruct Hc as [i [<- _]].
  change 15 with (Z.ones 4). rewrite Z.land_ones by lia.
  change (2 ^ 4) with 16. generalize (Z.shiftr v (4 * i)) as x. intros x.
  pose proof (Z.mod_pos_bound x 16 ltac:(lia)) as Hb.
  unfold hex_digit. destruct (x mod 16 <? 10) eqn:E; apply asciib_range;
    [apply Z.ltb_lt in E | apply Z.ltb_ge in E]; lia.
Qed.

Lemma esc_char_ascii c : forallb asciib (esc_char true c) = true.
Proof.
  unfold esc_char.
  destruct (c =? 34); [reflexivity|]. destruct (c =? 92); [reflexivity|].
  destruct (c =? 10); [reflexivity|]. destruct (c =? 13); [reflexivity|].
  destruct (c =? 9); [reflexivity|]. destruct (c =? 8); [reflexivity|].
  destruct (c =? 12); [reflexivity|].
  destruct (in_range 32 126 c) eqn:Hr.
  - cbn [forallb]. rewrite andb_true_r. apply asciib_range.
    unfold in_range in Hr. apply andb_true_iff in Hr as [H1 H2].
    apply Z.leb_le in H1. apply Z.leb_le in H2. lia.
  - destruct (c <? 0x10000).
    + cbn [forallb]. rewrite hex4_ascii. reflexivity.
    + rewrite forallb_app. cbn [forallb]. rewrite !hex4_ascii. reflexivity.
Qed.

Lemma dump_str_ascii s : forallb asciib (dump_str true s) = true.
Proof.
  unfold dump_str. simpl. rewrite forallb_app, andb_true_r.
  induction s as [|c s IH]; [reflexivity|]. simpl. rewrite forallb_app, esc_char_ascii. exact IH.
Qed.

Lemma join_ascii sep l :
  forallb asciib sep = true -> forallb (forallb asciib) l = true ->
  forallb asciib (join sep l) = true.
Proof.
  intros Hs. induction l as [|x [|y r] IH]; simpl; intros H; [reflexivity| |].
  - rewrite andb_true_r in H. exact H.
  - apply andb_true_iff in H as [Hx Hr].
    rewrite !forallb_app, Hx, Hs. simpl. apply IH. exact Hr.
Qed.

Lemma dumps_ascii : forall v, forallb asciib (dumps true v) = true.
Proof.
  fix IH 1. intros v. destruct v as [| b | z | f | s | l | kv].
  - reflexivity.
  - destruct b; reflexivity.
  - apply int_repr_ascii.
  - apply float_repr_ascii.
  - apply dump_str_ascii.
  - cbn [dumps]. rewrite !forallb_app, join_ascii; [reflexivity | reflexivity |].
    revert l. fix IHl 1. intros [|x r]; [reflexivity|].
    cbn [forallb]. rewrite (IH x). apply IHl.
  - cbn [dumps]. rewrite !forallb_app, join_ascii; [reflexivity | reflexivity |].
    revert kv. fix IHk 1. intros [|[k x] r]; [reflexivity|].
    cbn [forallb]. rewrite !forallb_app, dump_str_ascii, (IH x). apply IHk.
Qed.

Lemma digest_bytes m : Forall (fun b => 0 <= b < 256) (SHA256.digest m).
Proof.
  unfold SHA256.digest. apply Forall_forall. intros b Hb.
  apply in_flat_map in Hb. destruct Hb as [w [_ Hw]].
  unfold SHA256.bytes_of_word in Hw. apply in_map_iff in Hw. destruct Hw as [k [<- _]].
  change 255 with (Z.ones 8). rewrite Z.land_ones by lia.
  apply Z.mod_pos_bound. reflexivity.
Qed.

Lemma hmac_bytes key msg : Forall (fun b => 0 <= b < 256) (hmac_sha256 key msg).
Proof. apply digest_bytes. Qed.

Lemma dict_lookup_set_eq k v kv : dict_lookup k (dict_set k v kv) = Some v.
Proof.
  induction kv as [|[k' v'] r IH]; simpl.
  - unfold Zeqb_list. destruct (list_eq_dec Z.eq_dec k k); [reflexivity | congruence].
  - destruct (Zeqb_list k k') eqn:E; simpl; rewrite ?E; [reflexivity | exact IH].
Qed.

Lemma dict_lookup_set_ne k k2 v kv : Zeqb_list k k2 = false ->
  dict_lookup k (dict_set k2 v kv) = dict_lookup k kv.
Proof.
  intros Hne. induction kv as [|[k' v'] r IH]; simpl.
  - rewrite Hne. reflexivity.
  - destruct (Zeqb_list k2 k') eqn:E; simpl.
    + unfold Zeqb_list in *.
      destruct (list_eq_dec Z.eq_dec k2 k'); [subst|discriminate].
      rewrite Hne. reflexivity.
    + rewrite IH. reflexivity.
Qed.

Lemma Zeqb_list_refl l : Zeqb_list l l = true.
Proof. unfold Zeqb_list. destruct (list_eq_dec Z.eq_dec l l); congruence. Qed.

Lemma Zeqb_list_true a b : Zeqb_list a b = true -> a = b.
Proof. unfold Zeqb_list. destruct (list_eq_dec Z.eq_dec a b); congruence. Qed.

(** What [create_jwt_token] computes, step by step. *)

Lemma create_jwt_token_ok env t_exp t_iat c tok c' :
  Auth.create_jwt_token env t_exp t_iat c = Ok (tok, c') ->
  exists kv key msg,
    c = JObj kv /\
    c' = JObj (dict_set (lit "iat") (JInt (py_int t_iat))
                 (dict_set (lit "exp") (JInt (py_int t_exp + 7 * 24 * 3600)) kv)) /\
    jwt_secret env = Ok key /\
    let hb := dumps true (JObj [(lit "typ", JStr (lit "JWT")); (lit "alg", JStr (lit "HS256"))]) in
    let header_b64 := rstrip_eq (urlsafe_b64encode hb) in
    let payload_b64 := rstrip_eq (urlsafe_b64encode (dumps true c')) in
    utf8_encode (header_b64 ++ [46] ++ payload_b64) = Ok msg /\
    tok = header_b64 ++ [46] ++ payload_b64 ++ [46] ++
          rstrip_eq (urlsafe_b64encode (hmac_sha256 key msg)).
Proof.
  unfold Auth.create_jwt_token. intros H.
  destruct c as [| | | | | | kv]; try discriminate H.
  cbn [setitem bind] in H.
  rewrite (utf8_encode_ascii (dumps true (JObj _))) in H by apply dumps_ascii.
  rewrite (utf8_encode_ascii (dumps true (JObj (dict_set _ _ (dict_set _ _ kv))))) in H
    by apply dumps_ascii.
  cbn [bind] in H.
  destruct (jwt_secret env) as [key|e]; [|discriminate H]. cbn [bind] in H.
  match type of H with
  | context [utf8_encode ?m] => destruct (utf8_encode m) as [msg|e] eqn:Em; [|discriminate H]
  end.
  cbn [bind] in H. injection H as <- <-.
  exists kv, key, msg. do 3 (split; [reflexivity|]). cbv zeta.
  split; [exact Em | reflexivity].
Qed.

(** C2 (amended): a token made by [create_jwt_token] from a dict [c],
    whose claims survive [json.loads (json.dumps ...)], verifies with the
    same secret before its expiry and returns [c] with [exp] and [iat] set;
    any secret under which it verifies gives the same HMAC on the signing
    input as the issuing secret. *)
Theorem jwt_roundtrip env t_exp t_iat now c tok c' :
  Auth.create_jwt_token env t_exp t_iat c = Ok (tok, c') ->
  json_loads (dumps true c') = Ok c' ->
  (now <= inject_Z (py_int t_exp + 7 * 24 * 3600))%Q ->
  Auth.verify_jwt_token env now tok = Some c' /\
  (exists kv, c = JObj kv /\
     c' = JObj (dict_set (lit "iat") (JInt (py_int t_iat))
                 (dict_set (lit "exp") (JInt (py_int t_exp + 7 * 24 * 3600)) kv))) /\
  (forall env', Auth.verify_jwt_token env' now tok <> None ->
     exists key key' msg,
       jwt_secret env = Ok key /\ jwt_secret env' = Ok key' /\
       utf8_encode (signing_input tok) = Ok msg /\
       hmac_sha256 key' msg = hmac_sha256 key msg).
Proof.
  intros Hc Hjson Hnow.
  destruct (create_jwt_token_ok _ _ _ _ _ _ Hc) as (kv & key & msg & -> & Hc' & Hkey & Hmsg & Htok).
  cbv zeta in Hmsg, Htok.
  set (hb := dumps true (JObj _)) in Hmsg, Htok.
  assert (Hhb : Forall (fun b => 0 <= b < 256) hb) by apply ascii_bytes, dumps_ascii.
  assert (Hpb : Forall (fun b => 0 <= b < 256) (dumps true c')) by apply ascii_bytes, dumps_ascii.
  assert (Hsplit : split_on 46 tok =
            [rstrip_eq (urlsafe_b64encode hb); rstrip_eq (urlsafe_b64encode (dumps true c'));
             rstrip_eq (urlsafe_b64encode (hmac_sha256 key msg))]).
  { rewrite Htok. cbn [app]. rewrite split_on_app, split_on_app, split_on_none; try reflexivity;
      apply no_dot_encoded; auto using hmac_bytes. }
  split; [|split; [exists kv; split; [reflexivity | exact Hc'] |]].
  - unfold Auth.verify_jwt_token, Auth.verify_body. rewrite Hsplit, Hkey. cbn [bind].
    rewrite Hmsg. cbn [bind]. rewrite b64_roundtrip by apply hmac_bytes. cbn [bind].
    rewrite Zeqb_list_refl. cbn [negb]. rewrite b64_roundtrip by exact Hpb. cbn [bind].
    rewrite utf8_decode_ascii by apply dumps_ascii. cbn [bind].
    rewrite Hjson. cbn [bind]. rewrite Hc'. cbn [dict_get].
    rewrite dict_lookup_set_ne by reflexivity. rewrite dict_lookup_set_eq.
    cbn [bind lt_time]. unfold Qltb. rewrite (proj2 (Qle_bool_iff _ _) Hnow). reflexivity.
  - intros env' Hv. unfold Auth.verify_jwt_token, Auth.verify_body in Hv.
    rewrite Hsplit in Hv.
    destruct (jwt_secret env') as [key'|e] eqn:Hk'; [|cbn in Hv; congruence].
    cbn [bind] in Hv. rewrite Hmsg in Hv. cbn [bind] in Hv.
    rewrite b64_roundtrip in Hv by apply hmac_bytes. cbn [bind] in Hv.
    destruct (Zeqb_list (hmac_sha256 key' msg) (hmac_sha256 key msg)) eqn:Eq;
      [|cbn in Hv; congruence].
    exists key, key', msg. repeat split; auto.
    + unfold signing_input. rewrite Hsplit. exact Hmsg.
    + apply Zeqb_list_true. exact Eq.
Qed.

Ltac chase_result H :=
  repeat match type of H with
  | context [match ?m with Ok _ => _ | Raise _ => _ end] =>
      let E := fresh "E" in destruct m eqn:E; try discriminate H
  | context [if ?b then _ else _] => destruct b; try discriminate H
  end.

Lemma verify_body_dict env now tok p :
  Auth.verify_body env now tok = Ok (Some p) -> exists kv, p = JObj kv.
Proof.
  unfold Auth.verify_body, bind. intros H.
  destruct (split_on 46 tok) as [|h [|pl [|s [|x r]]]]; try discriminate H.
  chase_result H. injection H as <-.
  match goal with E : dict_get ?j _ _ = Ok _ |- _ => destruct j; try discriminate E end.
  eexists. reflexivity.
Qed.

Lemma user_verify_body_dict env now tok p :
  UserAuth.verify_body env now tok = Ok (Some p) -> exists kv, p = JObj kv.
Proof.
  unfold UserAuth.verify_body, bind. intros H.
  destruct (split_on 46 tok) as [|h [|pl [|s [|x r]]]]; try discriminate H.
  chase_result H. injection H as <-.
  match goal with E : dict_get ?j _ _ = Ok _ |- _ => destruct j; try discriminate E end.
  eexists. reflexivity.
Qed.

(** C9: [verify_jwt_token] of both modules returns [None] or a dict for
    every token string; it raises nothing. *)
Theorem verify_jwt_token_total env now tok :
  (Auth.verify_jwt_token env now tok = None \/
   exists kv, Auth.verify_jwt_token env now tok = Some (JObj kv)) /\
  (UserAuth.verify_jwt_token env now tok = None \/
   exists kv, UserAuth.verify_jwt_token env now tok = Some (JObj kv)).
Proof.
  split.
  - unfold Auth.verify_jwt_token.
    destruct (Auth.verify_body env now tok) as [[p|]|e] eqn:E; auto.
    right. destruct (verify_body_dict _ _ _ _ E) as [kv ->]. exists kv. reflexivity.
  - unfold UserAuth.verify_jwt_token.
    destruct (UserAuth.verify_body env now tok) as [[p|]|e] eqn:E; auto.
    right. destruct (user_verify_body_dict _ _ _ _ E) as [kv ->]. exists kv. reflexivity.
Qed.

(** *** The session check *)

Lemma session_check_rejected env now users hs :
  token_rejected env now hs ->
  AuthHandler.handle_session_check env now users hs =
  Ok (AuthHandler.error_response (lit "Invalid token") 401).
Proof.
  unfold token_rejected, AuthHandler.handle_session_check.
  intros [H | [H | (t & H & Hv)]]; rewrite H; cbn [bind]; [reflexivity | reflexivity |].
  rewrite Hv. destruct (negb _); reflexivity.
Qed.

(** C6: two GET session checks whose tokens fail for whatever reason (no
    cookie, empty value, wrong segment count, bad signature or encoding,
    expiry) get the same 401 "Invalid token" response. *)
Theorem session_check_uniform env now users1 users2 hs1 hs2 :
  token_rejected env now hs1 -> token_rejected env now hs2 ->
  AuthHandler.handle_session_check env now users1 hs1 =
    Ok (AuthHandler.error_response (lit "Invalid token") 401) /\
  AuthHandler.handle_session_check env now users1 hs1 =
    AuthHandler.handle_session_check env now users2 hs2.
Proof.
  intros H1 H2. rewrite !session_check_rejected by assumption. split; reflexivity.
Qed.

Lemma reset_password_response py_lower now tok smtp users email_in :
  fst (AuthHandler.handle_reset_password py_lower now tok smtp users email_in) =
  if Nat.eqb (length (strip (py_lower email_in))) 0
  then AuthHandler.error_response (lit "Email is required") 400
  else AuthHandler.success_response AuthHandler.reset_sent.
Proof.
  unfold AuthHandler.handle_reset_password.
  destruct (Nat.eqb _ 0); [reflexivity|].
  destruct (find _ users); [destruct smtp|]; reflexivity.
Qed.

(** C5: the reset_password response does not depend on the user table (nor,
    in the auth module, on the clock, the new token or the mail outcome). *)
Theorem reset_password_uniform py_lower email_in :
  (forall now1 now2 tok1 tok2 smtp1 smtp2 users1 users2,
     fst (AuthHandler.handle_reset_password py_lower now1 tok1 smtp1 users1 email_in) =
     fst (AuthHandler.handle_reset_password py_lower now2 tok2 smtp2 users2 email_in)) /\
  (forall users1 users2,
     UserAuthHandler.handle_reset_password py_lower users1 email_in =
     UserAuthHandler.handle_reset_password py_lower users2 email_in).
Proof.
  split.
  - intros. rewrite !reset_password_response. reflexivity.
  - intros. reflexivity.
Qed.






(** The two steps of a session together are the handler. *)

Lemma confirm_steps_handler now salt users token pw :
  (let '(s1, u1) := confirm_step now users (CStart token pw salt) in
   confirm_step now u1 s1) =
  (let '(r, u') := handle_confirm_reset now salt users token pw in (CDone r, u')).
Proof.
  unfold confirm_step, handle_confirm_reset.
  destruct (_ || _); [reflexivity|]. destruct (Nat.ltb _ _); [reflexivity|].
  destruct (select_by_reset_token now users token); [|reflexivity].
  destruct (utf8_encode pw); reflexivity.
Qed.


Lemma starts_with_app (p s : pystr) : starts_with p (p ++ s) = true.
Proof. induction p as [|c p IH]; simpl; [reflexivity|]. rewrite Z.eqb_refl. exact IH. Qed.

Lemma strip_cookie t : cookie_safe t = true ->
  strip (auth_cookie_prefix ++ t) = auth_cookie_prefix ++ t.
Proof.
  unfold cookie_safe. intros H. apply andb_true_iff in H as [_ Hlast].
  unfold strip.
  change (lstrip_by is_space (auth_cookie_prefix ++ t)) with (auth_cookie_prefix ++ t).
  unfold rstrip_by. rewrite rev_app_distr.
  destruct (rev t) as [|c r] eqn:Er; [discriminate Hlast|].
  apply negb_true_iff in Hlast. cbn [app lstrip_by]. rewrite Hlast.
  change (c :: (r ++ ?x)) with ((c :: r) ++ x).
  rewrite <- Er, <- rev_app_distr, rev_involutive. reflexivity.
Qed.

Lemma extract_cookie_safe t : cookie_safe t = true ->
  extract_token_from_cookies (lit "auth_token=" ++ t) = Ok (Some t).
Proof.
  intros H. change (lit "auth_token=") with auth_cookie_prefix.
  pose proof H as H'. unfold cookie_safe in H'. apply andb_true_iff in H' as [Hsemi _].
  unfold extract_token_from_cookies.
  replace (Nat.eqb (length (auth_cookie_prefix ++ t)) 0) with false by reflexivity.
  rewrite split_on_none.
  2:{ intros Hin. apply in_app_iff in Hin as [Hin|Hin].
      - vm_compute in Hin. intuition discriminate.
      - rewrite forallb_forall in Hsemi. specialize (Hsemi 59 Hin). discriminate Hsemi. }
  lazy beta iota zeta.
  rewrite strip_cookie, starts_with_app by exact H.
  reflexivity.
Qed.

Lemma session_check_other_header env now users hs name v :
  Zeqb_list name (lit "Cookie") = false ->
  AuthHandler.handle_session_check env now users ((name, v) :: hs) =
  AuthHandler.handle_session_check env now users hs.
Proof.
  intros Hn. unfold AuthHandler.handle_session_check. cbn [header_get]. rewrite Hn.
  reflexivity.
Qed.

Lemma auth_gate_bearer env now t p :
  Transactions.auth_gate env now [(lit "Authorization", lit "Bearer " ++ t)] = inr p <->
  Auth.verify_jwt_token env now t = Some p /\ truthy p = true.
Proof.
  unfold Transactions.auth_gate. cbn [header_get]. rewrite Zeqb_list_refl.
  rewrite starts_with_app. cbn [negb].
  change (lit "Bearer ") with [66; 101; 97; 114; 101; 114; 32]. cbn [skipn app].
  destruct (Auth.verify_jwt_token env now t) as [q|].
  - destruct (truthy q) eqn:Eq; split; intros H.
    + injection H as <-. auto.
    + destruct H as [H1 _]. injection H1 as ->. reflexivity.
    + discriminate H.
    + destruct H as [H1 H2]. injection H1 as ->. congruence.
  - split; intros H; [discriminate H | destruct H as [H _]; discriminate H].
Qed.

Lemma user_session_check_other_header env now users hs name v :
  Zeqb_list name (lit "Cookie") = false ->
  UserAuthHandler.handle_session_check env now users ((name, v) :: hs) =
  UserAuthHandler.handle_session_check env now users hs.
Proof.
  intros Hn. unfold UserAuthHandler.handle_session_check. cbn [header_get]. rewrite Hn.
  reflexivity.
Qed.

Lemma session_checks_no_cookie env now users :
  AuthHandler.handle_session_check env now users [] =
    Ok (AuthHandler.error_response (lit "Invalid token") 401) /\
  UserAuthHandler.handle_session_check env now users [] =
    Ok (UserAuthHandler.error_response (lit "Invalid token") 401 UserAuthHandler.cors_headers).
Proof. split; reflexivity. Qed.

Lemma auth_gate_other_header env now hs name v :
  Zeqb_list name (lit "Authorization") = false ->
  Transactions.auth_gate env now ((name, v) :: hs) = Transactions.auth_gate env now hs.
Proof.
  intros Hn. unfold Transactions.auth_gate. cbn [header_get]. rewrite Hn. reflexivity.
Qed.

(** C8 (amended): the token is read only from the [auth_token] cookie by the
    session checks of backend/auth and backend/user-auth: any other header,
    [Authorization] included, is ignored, so a request carrying the token
    only as [Authorization: Bearer] gets 401 "Invalid token". The Bearer
    transport exists only in the transactions gate, which verifies the
    token with the same [verify_jwt_token] and accepts exactly when that
    returns a non-empty payload; the gate ignores the [Cookie] header, so a
    request carrying the token only as the cookie gets 401 "Authorization
    required". *)
Theorem bearer_transport env now users hs name v t :
  Zeqb_list name (lit "Cookie") = false -> cookie_safe t = true ->
  AuthHandler.handle_session_check env now users ((name, v) :: hs) =
    AuthHandler.handle_session_check env now users hs /\
  UserAuthHandler.handle_session_check env now users ((name, v) :: hs) =
    UserAuthHandler.handle_session_check env now users hs /\
  AuthHandler.handle_session_check env now users
    [(lit "Authorization", lit "Bearer " ++ t)] =
    Ok (AuthHandler.error_response (lit "Invalid token") 401) /\
  UserAuthHandler.handle_session_check env now users
    [(lit "Authorization", lit "Bearer " ++ t)] =
    Ok (UserAuthHandler.error_response (lit "Invalid token") 401 UserAuthHandler.cors_headers) /\
  extract_token_from_cookies (lit "auth_token=" ++ t) = Ok (Some t) /\
  (forall p,
     Transactions.auth_gate env now [(lit "Authorization", lit "Bearer " ++ t)] = inr p <->
     Auth.verify_jwt_token env now t = Some p /\ truthy p = true) /\
  (forall c hs',
     Transactions.auth_gate env now ((lit "Cookie", c) :: hs') =
     Transactions.auth_gate env now hs') /\
  Transactions.auth_gate env now [(lit "Cookie", lit "auth_token=" ++ t)] =
    inl (Transactions.error_response (lit "Authorization required") 401).
Proof.
  intros Hn Ht.
  assert (Ha : Zeqb_list (lit "Authorization") (lit "Cookie") = false) by reflexivity.
  assert (Hc : Zeqb_list (lit "Cookie") (lit "Authorization") = false) by reflexivity.
  destruct (session_checks_no_cookie env now users) as [S1 S2].
  split; [apply session_check_other_header; exact Hn|].
  split; [apply user_session_check_other_header; exact Hn|].
  split; [rewrite session_check_other_header by exact Ha; exact S1|].
  split; [rewrite user_session_check_other_header by exact Ha; exact S2|].
  split; [apply extract_cookie_safe; exact Ht|].
  split; [intros p; apply auth_gate_bearer|].
  split; [intros c hs'; apply auth_gate_other_header; exact Hc|].
  rewrite auth_gate_other_header by exact Hc. reflexivity.
Qed.

(** C1: [verify_jwt_token] rejects only when [exp < time.time()]: a token
    whose [exp] equals the current time is accepted, in both modules. *)
Theorem verify_accepts_exp_equal_now :
  Auth.verify_jwt_token None (inject_Z 1700604800) login_token = Some login_claims_issued /\
  UserAuth.verify_jwt_token None (inject_Z 1700604800) login_token = Some login_claims_issued /\
  Auth.verify_jwt_token None (inject_Z 1700604801) login_token = None.
Proof. vm_compute. repeat split. Qed.

(** C7: [exp] and [iat] come from two readings of [time.time()]: when the
    clock passes a second boundary between them, [exp - iat] is 604799. *)
Theorem create_exp_iat_two_clocks :
  claims_of (Auth.create_jwt_token None (3399999999 # 2) login_time login_claims) =
    Some (JObj [(lit "user_id", JInt 7); (lit "email", JStr (lit "a@x.com"));
                (lit "exp", JInt 1700604799); (lit "iat", JInt 1700000000)]) /\
  claims_of (UserAuth.create_jwt_token None (3399999999 # 2) login_time login_claims) =
    Some (JObj [(lit "user_id", JInt 7); (lit "email", JStr (lit "a@x.com"));
                (lit "exp", JInt 1700604799); (lit "iat", JInt 1700000000)]).
Proof. vm_compute. split; reflexivity. Qed.

(** C2 (counterexample): a second, different secret longer than 64 bytes
    whose SHA-256 digest is the first secret verifies the token, and claims
    holding lone surrogates come back changed. *)
Theorem jwt_other_secret_or_claims :
  long_secret <> long_secret_digest /\
  jwt_secret (Some long_secret_digest) = Ok (SHA256.digest long_secret) /\
  Auth.verify_jwt_token (Some long_secret_digest) login_time
    (token_of (Auth.create_jwt_token (Some long_secret) login_time login_time login_claims))
    = Some login_claims_issued /\
  claims_of (Auth.create_jwt_token None login_time login_time surrogate_claims) =
    Some (JObj [(lit "user_id", JInt 7); (lit "name", JStr [0xd800; 0xdc00]);
                (lit "exp", JInt 1700604800); (lit "iat", JInt 1700000000)]) /\
  Auth.verify_jwt_token None login_time
    (token_of (Auth.create_jwt_token None login_time login_time surrogate_claims)) =
    Some (JObj [(lit "user_id", JInt 7); (lit "name", JStr [0x10000]);
                (lit "exp", JInt 1700604800); (lit "iat", JInt 1700000000)]).
Proof.
  split.
  - intros H. apply (f_equal (@length Z)) in H. vm_compute in H. discriminate H.
  - vm_compute. repeat split.
Qed.

(** C2 (witness): the round trip at a login token. *)
Lemma jwt_roundtrip_witness :
  login_issue = Ok (login_token, login_claims_issued) /\
  json_loads (dumps true login_claims_issued) = Ok login_claims_issued /\
  (login_time <= inject_Z (py_int login_time + 7 * 24 * 3600))%Q /\
  Auth.verify_jwt_token None login_time login_token = Some login_claims_issued.
Proof.
  assert (H1 : login_issue = Ok (login_token, login_claims_issued)) by (vm_compute; reflexivity).
  assert (H2 : json_loads (dumps true login_claims_issued) = Ok login_claims_issued)
    by (vm_compute; reflexivity).
  assert (H3 : (login_time <= inject_Z (py_int login_time + 7 * 24 * 3600))%Q)
    by (apply Qle_bool_iff; vm_compute; reflexivity).
  split; [exact H1|]. split; [exact H2|]. split; [exact H3|].
  exact (proj1 (jwt_roundtrip None login_time login_time login_time login_claims
                  login_token login_claims_issued H1 H2 H3)).
Defined.





(** C6 (witness): no cookie and a malformed token get the same response. *)
Lemma session_check_uniform_witness :
  token_rejected None login_time [] /\
  token_rejected None login_time [(lit "Cookie", lit "theme=dark; auth_token=a.b.c")] /\
  handle_session_check None login_time reset_table [] =
    handle_session_check None login_time reset_table
      [(lit "Cookie", lit "theme=dark; auth_token=a.b.c")].
Proof.
  assert (H1 : token_rejected None login_time []) by (left; reflexivity).
  assert (H2 : token_rejected None login_time
                 [(lit "Cookie", lit "theme=dark; auth_token=a.b.c")]).
  { right. right. exists (lit "a.b.c"). split; vm_compute; reflexivity. }
  split; [exact H1|]. split; [exact H2|].
  exact (proj2 (session_check_uniform None login_time reset_table reset_table _ _ H1 H2)).
Defined.

(** C8 (counterexample): the same token is accepted by the session check as
    a cookie and rejected as a Bearer header, and the transactions gate
    rejects it as a cookie. *)
Theorem session_check_ignores_bearer :
  handle_session_check None login_time reset_table
    [(lit "Authorization", lit "Bearer " ++ login_token)] =
    Ok (error_response (lit "Invalid token") 401) /\
  handle_session_check None login_time reset_table
    [(lit "Cookie", lit "auth_token=" ++ login_token)] =
    Ok (success_response
          (JObj [(lit "user", JObj [(lit "id", JInt 7); (lit "email", JStr (lit "a@x.com"));
                                    (lit "first_name", JStr (lit "Ann"));
                                    (lit "last_name", JStr (lit ""))]);
                 (lit "valid", JBool true)])) /\
  Transactions.auth_gate None login_time [(lit "Cookie", lit "auth_token=" ++ login_token)] =
    inl (Transactions.error_response (lit "Authorization required") 401).
Proof. vm_compute. repeat split. Qed.

(** C8 (witness): a Bearer header is ignored by the session check. *)
Lemma bearer_transport_witness :
  Zeqb_list (lit "Authorization") (lit "Cookie") = false /\
  cookie_safe login_token = true /\
  handle_session_check None login_time reset_table
    [(lit "Authorization", lit "Bearer " ++ login_token)] =
    handle_session_check None login_time reset_table [].
Proof.
  assert (H1 : Zeqb_list (lit "Authorization") (lit "Cookie") = false) by reflexivity.
  assert (H2 : cookie_safe login_token = true) by (vm_compute; reflexivity).
  split; [exact H1|]. split; [exact H2|].
  exact (proj1 (bearer_transport None login_time reset_table [] _
                  (lit "Bearer " ++ login_token) login_token H1 H2)).
Defined.

(** C10: the token codecs of the two modules compute the same functions. *)
Theorem codecs_agree :
  (forall env t_exp t_iat c,
     Auth.create_jwt_token env t_exp t_iat c = UserAuth.create_jwt_token env t_exp t_iat c) /\
  (forall env now tok,
     Auth.verify_jwt_token env now tok = UserAuth.verify_jwt_token env now tok).
Proof. split; reflexivity. Qed.

(** * Further properties of the handlers *)


Lemma hexval_digit d : 0 <= d < 16 -> hexval (hex_digit d) = Some d.
Proof.
  intros H.
  pose proof (forallb_range (fun d => match hexval (hex_digit d) with Some x => x =? d | None => false end)
                0 16 d ltac:(vm_compute; reflexivity) ltac:(lia)) as B.
  cbv beta in B. destruct (hexval (hex_digit d)); [|discriminate B].
  apply Z.eqb_eq in B. subst. reflexivity.
Qed.

Lemma hex4v_hex4 v r : 0 <= v < 65536 ->
  exists a b c d, hex4 v ++ r = a :: b :: c :: d :: r /\ hex4v a b c d = Some v.
Proof.
  intros Hv. do 4 eexists. split; [reflexivity|].
  change 15 with (Z.ones 4). rewrite !Z.land_ones, !Z.shiftr_div_pow2 by lia.
  cbn [Z.mul Z.pow Z.pow_pos Pos.iter Pos.mul].
  change (2 ^ 0) with 1. change (2 ^ 4) with 16. rewrite Z.div_1_r.
  replace 4096 with (256 * 16) by reflexivity. replace 256 with (16 * 16) by reflexivity.
  rewrite <- !Z.div_div by lia.
  unfold hex4v.
  rewrite !hexval_digit by (apply Z.mod_pos_bound; lia).
  f_equal.
  set (q1 := v / 16). set (q2 := q1 / 16). set (q3 := q2 / 16).
  assert (q3 < 16).
  { unfold q3, q2, q1. rewrite !Z.div_div by lia. apply Z.div_lt_upper_bound; lia. }
  assert (0 <= q3) by (unfold q3, q2, q1; repeat apply Z.div_pos; lia).
  rewrite (Z.mod_small q3 16) by lia.
  pose proof (Z.div_mod v 16 ltac:(lia)). pose proof (Z.div_mod q1 16 ltac:(lia)).
  pose proof (Z.div_mod q2 16 ltac:(lia)).
  fold q1 in H1. fold q2 in H2. fold q3 in H3. lia.
Qed.

Lemma lor_d800 x : 0 <= x < 1024 -> Z.lor 0xd800 x = 0xd800 + x.
Proof.
  intros H. apply Z.eqb_eq.
  exact (forallb_range (fun x => Z.lor 0xd800 x =? 0xd800 + x) 0 1024 x
           ltac:(vm_compute; reflexivity) ltac:(lia)).
Qed.

Lemma lor_dc00 x : 0 <= x < 1024 -> Z.lor 0xdc00 x = 0xdc00 + x.
Proof.
  intros H. apply Z.eqb_eq.
  exact (forallb_range (fun x => Z.lor 0xdc00 x =? 0xdc00 + x) 0 1024 x
           ltac:(vm_compute; reflexivity) ltac:(lia)).
Qed.

Lemma surrogate_split c : 0x10000 <= c <= 0x10ffff ->
  let n := c - 0x10000 in
  let hi := Z.lor 0xd800 (Z.land (Z.shiftr n 10) 0x3ff) in
  let lo := Z.lor 0xdc00 (Z.land n 0x3ff) in
  0xd800 <= hi <= 0xdbff /\ 0xdc00 <= lo <= 0xdfff /\
  0x10000 + Z.shiftl (hi - 0xd800) 10 + (lo - 0xdc00) = c.
Proof.
  intros Hc n hi lo.
  assert (Hn : 0 <= n < 1048576) by (unfold n; lia).
  assert (E1 : Z.land (Z.shiftr n 10) 0x3ff = n / 1024).
  { change 0x3ff with (Z.ones 10). rewrite Z.land_ones, Z.shiftr_div_pow2 by lia.
    change (2 ^ 10) with 1024. apply Z.mod_small. split; [apply Z.div_pos; lia|].
    apply Z.div_lt_upper_bound; lia. }
  assert (E2 : Z.land n 0x3ff = n mod 1024).
  { change 0x3ff with (Z.ones 10). rewrite Z.land_ones by lia. reflexivity. }
  assert (B1 : 0 <= n / 1024 < 1024) by (split; [apply Z.div_pos; lia | apply Z.div_lt_upper_bound; lia]).
  assert (B2 : 0 <= n mod 1024 < 1024) by (apply Z.mod_pos_bound; lia).
  unfold hi, lo. rewrite E1, E2, lor_d800, lor_dc00 by lia.
  rewrite Z.shiftl_mul_pow2 by lia. change (2 ^ 10) with 1024.
  pose proof (Z.div_mod n 1024 ltac:(lia)). unfold n in *. lia.
Qed.

Lemma esc_scan c r acc : scalarb c = true -> r <> [] ->
  scanstring (esc_char true c ++ r) acc = scanstring r (c :: acc).
Proof.
  intros Hc Hr. unfold scalarb, in_range in Hc.
  apply andb_true_iff in Hc as [Hc Hs]. apply andb_true_iff in Hc as [H0 H1].
  apply Z.leb_le in H0. apply Z.leb_le in H1. apply negb_true_iff in Hs.
  unfold esc_char.
  destruct (c =? 34) eqn:E34; [apply Z.eqb_eq in E34; subst; reflexivity|].
  destruct (c =? 92) eqn:E92; [apply Z.eqb_eq in E92; subst; reflexivity|].
  destruct (c =? 10) eqn:E10; [apply Z.eqb_eq in E10; subst; reflexivity|].
  destruct (c =? 13) eqn:E13; [apply Z.eqb_eq in E13; subst; reflexivity|].
  destruct (c =? 9) eqn:E9; [apply Z.eqb_eq in E9; subst; reflexivity|].
  destruct (c =? 8) eqn:E8; [apply Z.eqb_eq in E8; subst; reflexivity|].
  destruct (c =? 12) eqn:E12; [apply Z.eqb_eq in E12; subst; reflexivity|].
  destruct (in_range 32 126 c) eqn:Ep.
  - unfold in_range in Ep. apply andb_true_iff in Ep as [Ep _]. apply Z.leb_le in Ep.
    cbn [app scanstring]. rewrite E34, E92.
    replace (c <? 32) with false by (symmetry; apply Z.ltb_ge; lia). reflexivity.
  - destruct (c <? 0x10000) eqn:Eb.
    + apply Z.ltb_lt in Eb.
      destruct (hex4v_hex4 c r ltac:(lia)) as (a & b & d & e & Eh & Hv).
      cbn [app]. rewrite Eh. cbn [scanstring Z.eqb Pos.eqb]. rewrite Hv.
      destruct r as [|x t]; [congruence|].
      assert (Hn : in_range 0xd800 0xdbff c = false) by (unfold in_range in *; apply andb_false_iff; apply andb_false_iff in Hs; destruct Hs as [Hs|Hs]; [left|right]; apply Z.leb_gt in Hs; apply Z.leb_gt; lia).
      rewrite Hn. reflexivity.
    + apply Z.ltb_ge in Eb.
      destruct (surrogate_split c ltac:(lia)) as (Hhi & Hlo & Hj). cbv zeta in Hhi, Hlo, Hj.
      set (hi := Z.lor 0xd800 _) in *. set (lo := Z.lor 0xdc00 _) in *.
      destruct (hex4v_hex4 hi (92 :: 117 :: hex4 lo ++ r) ltac:(lia)) as (a & b & d & e & Eh & Hv).
      destruct (hex4v_hex4 lo r ltac:(lia)) as (a' & b' & d' & e' & Eh' & Hv').
      rewrite <- app_assoc. cbn [app]. rewrite Eh. cbn [scanstring Z.eqb Pos.eqb]. rewrite Hv.
      cbn [app]. rewrite Eh'.
      replace (in_range 0xd800 0xdbff hi) with true
        by (symmetry; unfold in_range; apply andb_true_iff; split; apply Z.leb_le; lia).
      cbn [Z.eqb Pos.eqb andb].
      destruct r as [|x t]; [congruence|]. cbn [length Nat.eqb negb]. rewrite Hv'.
      replace (in_range 0xdc00 0xdfff lo) with true
        by (symmetry; unfold in_range; apply andb_true_iff; split; apply Z.leb_le; lia).
      rewrite Hj. reflexivity.
Qed.

Lemma scanstring_dump s r acc : forallb scalarb s = true ->
  scanstring (flat_map (esc_char true) s ++ 34 :: r) acc = Ok (rev acc ++ s, r).
Proof.
  revert acc. induction s as [|c s IH]; intros acc Hs.
  - cbn. rewrite app_nil_r. reflexivity.
  - cbn [forallb] in Hs. apply andb_true_iff in Hs as [Hc Hs].
    cbn [flat_map]. rewrite <- app_assoc. rewrite esc_scan by first [exact Hc | intros Hx; apply app_eq_nil in Hx as [_ Hx]; discriminate Hx].
    rewrite IH by exact Hs. cbn [rev]. rewrite <- app_assoc. reflexivity.
Qed.

Lemma digits_aux_spec : forall f n acc, f <> O -> 0 <= n < 10 ^ Z.of_nat f ->
  exists ds, digits_aux f n acc = ds ++ acc /\ forallb is_digit ds = true /\
    digits_value ds = n /\
    (ds = [48] \/ exists d t, ds = d :: t /\ in_range 49 57 d = true).
Proof.
  induction f as [|f IH]; intros n acc Hf Hn; [congruence|].
  cbn [digits_aux].
  assert (Hm := Z.mod_pos_bound n 10 ltac:(lia)).
  destruct (n <? 10) eqn:E.
  - apply Z.ltb_lt in E. exists [48 + n mod 10]. rewrite Z.mod_small in * by lia.
    split; [reflexivity|]. split.
    + cbn [forallb]. unfold is_digit, in_range. rewrite andb_true_r.
      apply andb_true_iff; split; apply Z.leb_le; lia.
    + split; [unfold digits_value; cbn [fold_left]; lia|].
      destruct (Z.eq_dec n 0) as [-> | Hn0]; [left; reflexivity|].
      right. do 2 eexists. split; [reflexivity|].
      unfold in_range. apply andb_true_iff; split; apply Z.leb_le; lia.
  - apply Z.ltb_ge in E.
    assert (Hf' : f <> O).
    { intros ->. cbn in Hn. lia. }
    assert (Hq : 0 <= n / 10 < 10 ^ Z.of_nat f).
    { split; [apply Z.div_pos; lia|]. apply Z.div_lt_upper_bound; [lia|].
      rewrite Nat2Z.inj_succ, Z.pow_succ_r in Hn by lia. lia. }
    destruct (IH (n / 10) ((48 + n mod 10) :: acc) Hf' Hq) as (ds & Eds & Hd & Hv & Hh).
    exists (ds ++ [48 + n mod 10]). rewrite <- app_assoc. split; [exact Eds|].
    split.
    + rewrite forallb_app, Hd. cbn [forallb andb]. unfold is_digit, in_range.
      rewrite andb_true_r. apply andb_true_iff; split; apply Z.leb_le; lia.
    + split.
      * unfold digits_value in *. rewrite fold_left_app, Hv. cbn [fold_left].
        pose proof (Z.div_mod n 10 ltac:(lia)). lia.
      * right. destruct Hh as [->| (d & t & -> & Hd')].
        -- exfalso. unfold digits_value in Hv. cbn [fold_left] in Hv.
           assert (n / 10 >= 1) by (apply Z.le_ge, Z.div_le_lower_bound; lia). lia.
        -- exists d, (t ++ [48 + n mod 10]). split; [reflexivity | exact Hd'].
Qed.

Lemma nat_digits_spec n : 0 <= n ->
  forallb is_digit (nat_digits n) = true /\ digits_value (nat_digits n) = n /\
  (nat_digits n = [48] \/ exists d t, nat_digits n = d :: t /\ in_range 49 57 d = true).
Proof.
  intros Hn. unfold nat_digits.
  assert (Hb : 0 <= n < 10 ^ Z.of_nat (S (Z.to_nat (Z.log2 n)))).
  { split; [lia|]. rewrite Nat2Z.inj_succ, Z2Nat.id by apply Z.log2_nonneg.
    destruct (Z.eq_dec n 0) as [-> | Hn0]; [reflexivity|].
    apply Z.lt_le_trans with (2 ^ Z.succ (Z.log2 n)).
    - apply Z.log2_spec. lia.
    - apply Z.pow_le_mono_l. split; [lia|lia]. }
  destruct (digits_aux_spec _ n [] (Nat.neq_succ_0 _) Hb) as (ds & E & H1 & H2 & H3).
  rewrite app_nil_r in E. rewrite E. auto.
Qed.

Lemma span_digits_app ds r : forallb is_digit ds = true -> json_term r ->
  span_digits (ds ++ r) = (ds, r).
Proof.
  intros Hd Hr. induction ds as [|c ds IH].
  - destruct Hr as [-> | (c & t & -> & [-> | [-> | ->]])]; reflexivity.
  - cbn [forallb] in Hd. apply andb_true_iff in Hd as [Hc Hd].
    cbn [app span_digits]. rewrite Hc, IH by exact Hd. reflexivity.
Qed.

Lemma starts_with_neq p0 p s0 s : p0 <> s0 -> starts_with (p0 :: p) (s0 :: s) = false.
Proof. intros H. cbn [starts_with]. apply Z.eqb_neq in H. rewrite H. reflexivity. Qed.

Lemma match_number_int (neg : bool) ds r :
  (ds = [48] \/ exists d t, ds = d :: t /\ in_range 49 57 d = true /\ forallb is_digit t = true) ->
  json_term r ->
  match_number ((if neg then [45] else []) ++ ds ++ r) =
    Some (JInt ((if neg then -1 else 1) * digits_value ds), r).
Proof.
  intros Hds Hr.
  assert (Hfe : forall A (x y : A),
    match r with
    | c :: d :: t => if (c =? 46) && is_digit d then (x, r) else (y, r)
    | _ => (y, r)
    end = (y, r)).
  { intros A x y. destruct Hr as [-> | (c & t & -> & [-> | [-> | ->]])]; [reflexivity| | |];
      destruct t; reflexivity. }
  unfold match_number.
  destruct Hds as [->| (d & t & -> & Hd & Ht)].
  - destruct neg; cbn [app Z.eqb Pos.eqb].
    + destruct Hr as [-> | (c & u & -> & [-> | [-> | ->]])]; try reflexivity; destruct u; reflexivity.
    + destruct Hr as [-> | (c & u & -> & [-> | [-> | ->]])]; try reflexivity; destruct u; reflexivity.
  - assert (Hd48 : (d =? 48) = false).
    { apply Z.eqb_neq. unfold in_range in Hd. apply andb_true_iff in Hd as [A _].
      apply Z.leb_le in A. lia. }
    assert (Hd45 : (d =? 45) = false).
    { apply Z.eqb_neq. unfold in_range in Hd. apply andb_true_iff in Hd as [A _].
      apply Z.leb_le in A. lia. }
    destruct neg; cbn [app]; cbn [Z.eqb Pos.eqb]; rewrite ?Hd45, Hd48, Hd;
      rewrite span_digits_app by assumption;
      destruct Hr as [-> | (c & u & -> & [-> | [-> | ->]])]; try reflexivity; destruct u; reflexivity.
Qed.

Lemma json_ind' (P : json -> Prop) :
  P JNull -> (forall b, P (JBool b)) -> (forall z, P (JInt z)) -> (forall f, P (JFloat f)) ->
  (forall s, P (JStr s)) -> (forall l, Forall P l -> P (JList l)) ->
  (forall kv, Forall (fun p => P (snd p)) kv -> P (JObj kv)) -> forall v, P v.
Proof.
  intros H1 H2 H3 H4 H5 H6 H7. fix IH 1. intros [| b | z | f | s | l | kv].
  - exact H1.
  - apply H2.
  - apply H3.
  - apply H4.
  - apply H5.
  - apply H6. revert l. fix IHl 1. intros [|x r]; constructor; [apply IH | apply IHl].
  - apply H7. revert kv. fix IHk 1. intros [|[k x] r]; constructor; [apply IH | apply IHk].
Qed.

Lemma json_ok_list l : json_ok (JList l) = forallb json_ok l.
Proof. induction l as [|x r IH]; [reflexivity|]. cbn [forallb]. rewrite <- IH. reflexivity. Qed.

Lemma json_ok_obj kv : json_ok (JObj kv) =
  keys_distinct kv && forallb (fun p => forallb scalarb (fst p) && json_ok (snd p)) kv.
Proof.
  cbn [json_ok]. f_equal. induction kv as [|[k x] r IH]; [reflexivity|].
  cbn [forallb fst snd]. rewrite <- IH. reflexivity.
Qed.

Lemma dumps_list l : dumps true (JList l) = [91] ++ join (lit ", ") (map (dumps true) l) ++ [93].
Proof.
  reflexivity.
Qed.

Lemma dumps_obj kv : dumps true (JObj kv) = [123] ++ join (lit ", ") (map member_text kv) ++ [125].
Proof.
  cbn [dumps]. f_equal. f_equal. f_equal. induction kv as [|[k x] r IH]; [reflexivity|].
  cbn [map]. rewrite <- IH. reflexivity.
Qed.

Lemma Zeqb_list_sym a b : Zeqb_list a b = Zeqb_list b a.
Proof. unfold Zeqb_list. destruct (list_eq_dec _ a b), (list_eq_dec _ b a); congruence. Qed.

Lemma keys_distinct_cons k x r :
  keys_distinct ((k, x) :: r) = forallb (fun p => negb (Zeqb_list k (fst p))) r && keys_distinct r.
Proof. reflexivity. Qed.

Lemma keys_distinct_app_fresh a k x b : keys_distinct (a ++ (k, x) :: b) = true ->
  forall p, In p a -> Zeqb_list k (fst p) = false.
Proof.
  induction a as [|[k' x'] a IH]; intros H p Hp; [destruct Hp|].
  cbn [app] in H. rewrite keys_distinct_cons in H. apply andb_true_iff in H as [H1 H2].
  destruct Hp as [<- | Hp]; [|exact (IH H2 p Hp)].
  rewrite forallb_forall in H1. specialize (H1 (k, x) ltac:(apply in_or_app; right; left; reflexivity)).
  cbn [fst] in *. apply negb_true_iff in H1. rewrite Zeqb_list_sym. exact H1.
Qed.

Lemma dict_set_fresh k x acc : (forall p, In p acc -> Zeqb_list k (fst p) = false) ->
  dict_set k x acc = acc ++ [(k, x)].
Proof.
  induction acc as [|[k' x'] acc IH]; intros H; [reflexivity|].
  cbn [dict_set app]. pose proof (H (k', x') (or_introl eq_refl)) as Hk. cbn [fst] in Hk. rewrite Hk. f_equal.
  apply IH. intros p Hp. apply H. right. exact Hp.
Qed.

Lemma is_digit_range c : is_digit c = true -> 48 <= c <= 57.
Proof. unfold is_digit, in_range. intros H. apply andb_true_iff in H as [A B]. lia. Qed.

Lemma dumps_head v : json_ok v = true ->
  exists c t, dumps true v = c :: t /\ is_ws c = false /\ c <> 93 /\ c <> 125 /\
    (in_range 48 57 c = true \/ c = 45 \/ c = 34 \/ c = 91 \/ c = 123 \/ c = 110 \/ c = 116 \/ c = 102).
Proof.
  intros Hv. destruct v as [| b | z | f | s | l | kv].
  - exists 110, [117; 108; 108]. split; [reflexivity|]. split; [reflexivity|]. lia.
  - destruct b; [exists 116, [114; 117; 101] | exists 102, [97; 108; 115; 101]];
      (split; [reflexivity|]); (split; [reflexivity|]); lia.
  - cbn [dumps]. unfold int_repr. destruct (z <? 0) eqn:Ez.
    + exists 45, (nat_digits (- z)). split; [reflexivity|]. split; [reflexivity|]. lia.
    + apply Z.ltb_ge in Ez. destruct (nat_digits_spec z Ez) as (Hd & _ & [E | (d & t & E & Hr)]); rewrite E.
      * exists 48, []. split; [reflexivity|]. split; [reflexivity|]. split; [lia|split; [lia|left; reflexivity]].
      * exists d, t. split; [reflexivity|].
        unfold in_range in *. apply andb_true_iff in Hr as [A B].
        apply Z.leb_le in A. apply Z.leb_le in B.
        split; [|split; [lia | split; [lia | left; apply andb_true_iff; split; apply Z.leb_le; lia]]].
        unfold is_ws. repeat rewrite (proj2 (Z.eqb_neq _ _)) by lia. reflexivity.
  - discriminate Hv.
  - exists 34, (flat_map (esc_char true) s ++ [34]). split; [reflexivity|]. split; [reflexivity|]. lia.
  - rewrite dumps_list. eexists 91, _. split; [reflexivity|]. split; [reflexivity|]. lia.
  - rewrite dumps_obj. eexists 123, _. split; [reflexivity|]. split; [reflexivity|]. lia.
Qed.

Lemma skip_ws_dumps v s : json_ok v = true -> skip_ws (dumps true v ++ s) = dumps true v ++ s.
Proof.
  intros Hv. destruct (dumps_head v Hv) as (c & t & E & Hw & _). rewrite E. cbn [app skip_ws].
  rewrite Hw. reflexivity.
Qed.

Lemma scan_value_str f s : scan_value (S f) (34 :: s) =
  let* p := scanstring s [] in Ok (JStr (fst p), snd p).
Proof. reflexivity. Qed.

Lemma scan_value_list f s : scan_value (S f) (91 :: s) =
  match skip_ws s with
  | x :: t => if x =? 93 then Ok (JList [], t) else parse_elements f (x :: t) []
  | [] => Raise JSONDecodeError
  end.
Proof. reflexivity. Qed.

Lemma scan_value_obj f s : scan_value (S f) (123 :: s) =
  match skip_ws s with
  | x :: t => if x =? 125 then Ok (JObj [], t) else parse_members f (x :: t) []
  | [] => Raise JSONDecodeError
  end.
Proof. reflexivity. Qed.

Lemma parse_elements_eq f s acc : parse_elements (S f) s acc =
  let* vp := scan_value f s in
  let acc' := fst vp :: acc in
  match skip_ws (snd vp) with
  | x :: t =>
      if x =? 93 then Ok (JList (rev acc'), t)
      else if x =? 44 then parse_elements f (skip_ws t) acc'
      else Raise JSONDecodeError
  | [] => Raise JSONDecodeError
  end.
Proof. reflexivity. Qed.

Lemma parse_members_eq f s acc : parse_members (S f) (34 :: s) acc =
  let* kp := scanstring s [] in
  match skip_ws (snd kp) with
  | d :: t =>
      if d =? 58 then
        let* vp := scan_value f (skip_ws t) in
        let acc' := dict_set (fst kp) (fst vp) acc in
        match skip_ws (snd vp) with
        | x :: t' =>
            if x =? 125 then Ok (JObj acc', t')
            else if x =? 44 then parse_members f (skip_ws t') acc'
            else Raise JSONDecodeError
        | [] => Raise JSONDecodeError
        end
      else Raise JSONDecodeError
  | [] => Raise JSONDecodeError
  end.
Proof. reflexivity. Qed.

Lemma digit_cases c : is_digit c = true ->
  c = 48 \/ c = 49 \/ c = 50 \/ c = 51 \/ c = 52 \/ c = 53 \/ c = 54 \/ c = 55 \/ c = 56 \/ c = 57.
Proof. intros H. apply is_digit_range in H. lia. Qed.

Lemma scan_value_number f c s :
  is_digit c = true \/ (c = 45 /\ exists d t, s = d :: t /\ is_digit d = true) ->
  scan_value (S f) (c :: s) =
    match match_number (c :: s) with Some p => Ok p | None => Raise JSONDecodeError end.
Proof.
  intros [H | (-> & d & t & -> & H)].
  - apply digit_cases in H.
    destruct H as [-> | [-> | [-> | [-> | [-> | [-> | [-> | [-> | [-> | ->]]]]]]]]]; reflexivity.
  - apply digit_cases in H.
    destruct H as [-> | [-> | [-> | [-> | [-> | [-> | [-> | [-> | [-> | ->]]]]]]]]]; reflexivity.
Qed.

Lemma scan_value_int f z r : json_term r -> scan_value (S f) (int_repr z ++ r) = Ok (JInt z, r).
Proof.
  intros Hr. unfold int_repr. destruct (z <? 0) eqn:Ez.
  - apply Z.ltb_lt in Ez.
    destruct (nat_digits_spec (- z) ltac:(lia)) as (Hd & Hv & Hs).
    assert (Hs' : nat_digits (- z) = [48] \/ exists d t, nat_digits (- z) = d :: t /\
              in_range 49 57 d = true /\ forallb is_digit t = true).
    { destruct Hs as [E | (d & t & E & Hd')]; [left; exact E | right].
      exists d, t. rewrite E in Hd. cbn [forallb] in Hd. apply andb_true_iff in Hd as [_ Hd].
      auto. }
    cbn [app]. rewrite scan_value_number.
    + pose proof (match_number_int true _ r Hs' Hr) as M. cbn [app] in M. rewrite M.
      rewrite Hv. f_equal. f_equal. f_equal. lia.
    + right. split; [reflexivity|].
      destruct Hs as [E | (d & t & E & Hd')]; rewrite E; [exists 48, r; split; reflexivity|].
      exists d, (t ++ r). split; [reflexivity|]. rewrite E in Hd.
      cbn [forallb] in Hd. apply andb_true_iff in Hd. tauto.
  - apply Z.ltb_ge in Ez.
    destruct (nat_digits_spec z Ez) as (Hd & Hv & Hs).
    assert (Hs' : nat_digits z = [48] \/ exists d t, nat_digits z = d :: t /\
              in_range 49 57 d = true /\ forallb is_digit t = true).
    { destruct Hs as [E | (d & t & E & Hd')]; [left; exact E | right].
      exists d, t. rewrite E in Hd. cbn [forallb] in Hd. apply andb_true_iff in Hd as [_ Hd].
      auto. }
    pose proof (match_number_int false _ r Hs' Hr) as M. cbn [app] in M.
    destruct Hs as [E | (d & t & E & Hd')]; rewrite E in *; cbn [app].
    + rewrite scan_value_number by (left; reflexivity).
      cbn [app] in M. rewrite M, Hv. f_equal. f_equal. f_equal. lia.
    + rewrite scan_value_number.
      * cbn [app] in M. rewrite M. rewrite Hv. f_equal. f_equal. f_equal. lia.
      * left. cbn [forallb] in Hd. apply andb_true_iff in Hd. tauto.
Qed.

Lemma join_cons_app sep x l s : exists s', join sep (x :: l) ++ s = x ++ s'.
Proof. destruct l as [|y l]; [exists s; reflexivity|]. exists (sep ++ join sep (y :: l) ++ s). cbn [join]. rewrite <- !app_assoc. reflexivity. Qed.

Lemma skip_ws_join l s : l <> [] -> Forall (fun v => json_ok v = true) l ->
  skip_ws (join (lit ", ") (map (dumps true) l) ++ s) = join (lit ", ") (map (dumps true) l) ++ s.
Proof.
  intros Hl Hf. destruct l as [|y l]; [congruence|]. inversion Hf as [|? ? Hy _]; subst.
  cbn [map]. destruct (join_cons_app (lit ", ") (dumps true y) (map (dumps true) l) s) as (s' & E).
  rewrite E. apply skip_ws_dumps. exact Hy.
Qed.

Lemma parse_elements_dumps : forall l acc f r, l <> [] ->
  Forall (fun v => json_ok v = true /\ scans_back v) l ->
  (S (length (join (lit ", ") (map (dumps true) l))) < f)%nat -> json_term r ->
  parse_elements f (join (lit ", ") (map (dumps true) l) ++ 93 :: r) acc = Ok (JList (rev acc ++ l), r).
Proof.
  induction l as [|x l IH]; intros acc f r Hl Hf Hlen Hr; [congruence|].
  destruct f as [|f]; [lia|]. rewrite parse_elements_eq.
  inversion Hf as [|? ? [Hx Px] Fl]; subst.
  destruct l as [|y l].
  - cbn [map join] in *. rewrite Px by (lia || (right; exists 93, r; auto)). reflexivity.
  - change (join (lit ", ") (map (dumps true) (x :: y :: l)))
      with (dumps true x ++ [44; 32] ++ join (lit ", ") (map (dumps true) (y :: l))) in *.
    rewrite !length_app in Hlen. cbn [length] in Hlen. rewrite <- !app_assoc. cbn [app].
    rewrite Px by (lia || (right; do 2 eexists; split; [reflexivity | left; reflexivity])).
    transitivity (parse_elements f (skip_ws (join (lit ", ") (map (dumps true) (y :: l)) ++ 93 :: r)) (x :: acc));
      [reflexivity|].
    rewrite skip_ws_join by (congruence || (eapply Forall_impl; [|exact Fl]; intros ? []; assumption)).
    rewrite IH by (congruence || assumption || (cbn [length] in Hlen; lia)).
    cbn [rev]. rewrite <- app_assoc. reflexivity.
Qed.

Lemma member_text_app k x s :
  member_text (k, x) ++ s = 34 :: flat_map (esc_char true) k ++ 34 :: 58 :: 32 :: dumps true x ++ s.
Proof. unfold member_text, dump_str. cbn [fst snd app]. rewrite <- !app_assoc. reflexivity. Qed.

Lemma parse_members_dumps : forall kv acc f r, kv <> [] ->
  Forall (fun p => forallb scalarb (fst p) = true /\ json_ok (snd p) = true /\ scans_back (snd p)) kv ->
  keys_distinct (acc ++ kv) = true ->
  (S (length (join (lit ", ") (map member_text kv))) < f)%nat -> json_term r ->
  parse_members f (join (lit ", ") (map member_text kv) ++ 125 :: r) acc = Ok (JObj (acc ++ kv), r).
Proof.
  induction kv as [|[k x] kv IH]; intros acc f r Hl Hf Hd Hlen Hr; [congruence|].
  destruct f as [|f]; [lia|].
  inversion Hf as [|? ? (Hk & Hx & Px) Fl]; subst. cbn [fst snd] in Hk, Hx, Px.
  assert (Hlx : (length (dumps true x) <= length (member_text (k, x)))%nat).
  { unfold member_text. rewrite !length_app. cbn [snd]. lia. }
  destruct kv as [|[k' x'] kv].
  - cbn [map join] in *. rewrite member_text_app, parse_members_eq, scanstring_dump by exact Hk.
    cbn [bind fst snd rev app skip_ws is_ws Z.eqb Pos.eqb orb].
    rewrite skip_ws_dumps by exact Hx.
    rewrite Px by (lia || (right; exists 125, r; auto)).
    cbn [bind fst snd rev app skip_ws is_ws Z.eqb Pos.eqb orb].
    rewrite dict_set_fresh by exact (keys_distinct_app_fresh _ _ _ _ Hd). reflexivity.
  - change (join (lit ", ") (map member_text ((k, x) :: (k', x') :: kv)))
      with (member_text (k, x) ++ [44; 32] ++ join (lit ", ") (map member_text ((k', x') :: kv))) in *.
    rewrite !length_app in Hlen. cbn [length] in Hlen. rewrite <- !app_assoc.
    rewrite member_text_app, parse_members_eq, scanstring_dump by exact Hk.
    cbn [bind fst snd rev app skip_ws is_ws Z.eqb Pos.eqb orb].
    rewrite skip_ws_dumps by exact Hx.
    rewrite Px by (lia || (right; do 2 eexists; split; [reflexivity | left; reflexivity])).
    cbn [bind fst snd rev app skip_ws is_ws Z.eqb Pos.eqb orb].
    rewrite dict_set_fresh by exact (keys_distinct_app_fresh _ _ _ _ Hd).
    assert (Hs : skip_ws (join (lit ", ") (map member_text ((k', x') :: kv)) ++ 125 :: r) =
                 join (lit ", ") (map member_text ((k', x') :: kv)) ++ 125 :: r).
    { destruct (join_cons_app (lit ", ") (member_text (k', x')) (map member_text kv) (125 :: r)) as (s' & Es).
      change (map member_text ((k', x') :: kv)) with (member_text (k', x') :: map member_text kv).
      rewrite Es, member_text_app. reflexivity. }
    rewrite Hs.
    rewrite IH.
    + rewrite <- app_assoc. reflexivity.
    + congruence.
    + exact Fl.
    + rewrite <- app_assoc. exact Hd.
    + lia.
    + exact Hr.
Qed.

Lemma dumps_scan : forall v, json_ok v = true -> scans_back v.
Proof.
  apply (json_ind' (fun v => json_ok v = true -> scans_back v)); unfold scans_back.
  - intros _ f r Hf Hr. destruct f as [|f]; [cbn in Hf; lia|]. reflexivity.
  - intros b _ f r Hf Hr. destruct f as [|f]; [cbn in Hf; lia|]. destruct b; reflexivity.
  - intros z _ f r Hf Hr. destruct f as [|f]; [lia|]. apply scan_value_int. exact Hr.
  - intros fl H. discriminate H.
  - intros s Hs f r Hf Hr. destruct f as [|f]; [lia|]. cbn [dumps]. unfold dump_str. cbn [app].
    rewrite <- app_assoc. cbn [app]. rewrite scan_value_str, scanstring_dump by exact Hs. reflexivity.
  - intros l IH Hok f r Hf Hr. rewrite json_ok_list in Hok. rewrite dumps_list in *.
    destruct f as [|f]; [lia|]. cbn [app]. rewrite scan_value_list.
    destruct l as [|x l']; [reflexivity|].
    assert (Hall : Forall (fun v => json_ok v = true /\ scans_back v) (x :: l')).
    { rewrite Forall_forall in IH |- *. intros y Hy. rewrite forallb_forall in Hok.
      pose proof (Hok y Hy) as Hy'. split; [assumption | exact (IH y Hy Hy')]. }
    assert (Hx : json_ok x = true) by (cbn [forallb] in Hok; apply andb_true_iff in Hok; tauto).
    rewrite <- app_assoc. cbn [app].
    rewrite skip_ws_join by (congruence || (rewrite Forall_forall; intros y Hy; rewrite forallb_forall in Hok; auto)).
    destruct (join_cons_app (lit ", ") (dumps true x) (map (dumps true) l') (93 :: r)) as (s' & Es).
    change (map (dumps true) (x :: l')) with (dumps true x :: map (dumps true) l') in *.
    rewrite Es. destruct (dumps_head x Hx) as (c & t & Ec & _ & H93 & _). rewrite Ec. cbn [app].
    rewrite (proj2 (Z.eqb_neq c 93) H93).
    change (c :: t ++ s') with ((c :: t) ++ s'). rewrite <- Ec, <- Es.
    change (dumps true x :: map (dumps true) l') with (map (dumps true) (x :: l')) in *.
    rewrite parse_elements_dumps by (congruence || assumption || (rewrite !length_app in Hf; cbn [length] in Hf; lia)).
    reflexivity.
  - intros kv IH Hok f r Hf Hr. rewrite json_ok_obj in Hok. apply andb_true_iff in Hok as [Hd Hok].
    rewrite dumps_obj in *.
    destruct f as [|f]; [lia|]. cbn [app]. rewrite scan_value_obj.
    destruct kv as [|[k x] kv']; [reflexivity|].
    assert (Hall : Forall (fun p => forallb scalarb (fst p) = true /\ json_ok (snd p) = true /\
                                     scans_back (snd p)) ((k, x) :: kv')).
    { rewrite Forall_forall in IH |- *. intros y Hy. rewrite forallb_forall in Hok.
      pose proof (Hok y Hy) as Hy'. apply andb_true_iff in Hy' as [Hy1 Hy2].
      split; [assumption | split; [assumption | exact (IH y Hy Hy2)]]. }
    rewrite <- app_assoc. cbn [app].
    destruct (join_cons_app (lit ", ") (member_text (k, x)) (map member_text kv') (125 :: r)) as (s' & Es).
    change (map member_text ((k, x) :: kv')) with (member_text (k, x) :: map member_text kv') in *.
    rewrite Es, member_text_app. cbn [skip_ws is_ws Z.eqb Pos.eqb orb].
    rewrite <- member_text_app, <- Es.
    change (member_text (k, x) :: map member_text kv') with (map member_text ((k, x) :: kv')) in *.
    rewrite parse_members_dumps by (congruence || assumption || (rewrite !length_app in Hf; cbn [length] in Hf; lia)).
    reflexivity.
Qed.

Lemma json_loads_dumps v : json_ok v = true -> json_loads (dumps true v) = Ok v.
Proof.
  intros Hv. unfold json_loads.
  destruct (dumps_head v Hv) as (c & t & Ec & _ & _ & _ & Hc).
  replace (starts_with [0xfeff] (dumps true v)) with false.
  2:{ rewrite Ec. symmetry. apply starts_with_neq. unfold in_range in Hc.
      destruct Hc as [Hc | Hc]; [apply andb_true_iff in Hc as [_ Hc]; apply Z.leb_le in Hc|]; lia. }
  rewrite <- (app_nil_r (dumps true v)) at 2. rewrite skip_ws_dumps by exact Hv.
  rewrite (dumps_scan v Hv) by (lia || (left; reflexivity)). reflexivity.
Qed.

(** ** Tokens *)

Lemma b64_url_char v : 0 <= v < 64 -> url_text_char (urlsafe_encode_char (b64_char v)).
Proof.
  intros Hv.
  pose proof (forallb_range (fun v => let c := urlsafe_encode_char (b64_char v) in
     asciib c && negb (c =? 59) && negb (c =? 46) && negb (c =? 61) && negb (is_space c))
     0 64 v ltac:(vm_compute; reflexivity) ltac:(lia)) as H.
  cbv zeta in H. unfold url_text_char.
  repeat rewrite andb_true_iff in H. rewrite !negb_true_iff, !Z.eqb_neq in H. tauto.
Qed.

Lemma b64_url_text bs : Forall (fun b => 0 <= b < 256) bs ->
  Forall url_text_char (rstrip_eq (urlsafe_b64encode bs)).
Proof.
  intros Hb. pose proof (b64_unpadded_sextets bs Hb) as Hs.
  destruct (b64encode_unpadded bs) as [k Hk].
  unfold urlsafe_b64encode. rewrite Hk, map_app, map_repeat.
  change (urlsafe_encode_char 61) with 61.
  assert (Hf : Forall url_text_char (map urlsafe_encode_char (b64_unpadded bs))).
  { rewrite Forall_map. eapply Forall_impl; [|exact Hs].
    intros c [v [Hv ->]]. apply b64_url_char. exact Hv. }
  rewrite rstrip_eq_pad by (eapply Forall_impl; [|exact Hf]; intros c Hc; apply Hc).
  exact Hf.
Qed.

Lemma url_text_ascii u : Forall url_text_char u -> forallb asciib u = true.
Proof. intros H. apply forallb_forall. intros c Hc. rewrite Forall_forall in H. apply (H c Hc). Qed.

Lemma cookie_safe_app a b : forallb (fun c => negb (c =? 59)) a = true -> cookie_safe b = true ->
  cookie_safe (a ++ b) = true.
Proof.
  unfold cookie_safe. intros Ha Hb. apply andb_true_iff in Hb as [Hb1 Hb2].
  rewrite forallb_app, Ha, Hb1, rev_app_distr. cbn [andb].
  destruct (rev b) as [|c r]; [discriminate Hb2 | exact Hb2].
Qed.

Lemma cookie_safe_dot s : Forall url_text_char s -> cookie_safe (46 :: s) = true.
Proof.
  intros Hs. unfold cookie_safe. apply andb_true_iff. split.
  - cbn [forallb]. apply andb_true_iff. split; [reflexivity|].
    apply forallb_forall. intros c Hc. rewrite Forall_forall in Hs.
    destruct (Hs c Hc) as (_ & H59 & _). apply negb_true_iff, Z.eqb_neq. exact H59.
  - cbn [rev]. destruct (rev s) as [|c r] eqn:E; [reflexivity|].
    cbn [app]. rewrite Forall_forall in Hs.
    assert (Hc : In c s) by (rewrite in_rev, E; left; reflexivity).
    destruct (Hs c Hc) as (_ & _ & _ & _ & Hsp). rewrite Hsp. reflexivity.
Qed.

Lemma no_semi_text u : Forall url_text_char u -> forallb (fun c => negb (c =? 59)) u = true.
Proof.
  intros H. apply forallb_forall. intros c Hc. rewrite Forall_forall in H.
  destruct (H c Hc) as (_ & H59 & _). apply negb_true_iff, Z.eqb_neq. exact H59.
Qed.

Lemma token_cookie_safe h p s : Forall url_text_char h -> Forall url_text_char p ->
  Forall url_text_char s -> cookie_safe (h ++ [46] ++ p ++ [46] ++ s) = true.
Proof.
  intros Hh Hp Hs. rewrite !app_assoc. rewrite <- (app_assoc _ [46] s).
  apply cookie_safe_app; [|apply cookie_safe_dot; exact Hs].
    rewrite !forallb_app, (no_semi_text h Hh), (no_semi_text p Hp). reflexivity.
Qed.

Lemma created_cookie_safe env t_exp t_iat c tok c' :
  Auth.create_jwt_token env t_exp t_iat c = Ok (tok, c') -> cookie_safe tok = true.
Proof.
  intros Hc.
  destruct (create_jwt_token_ok _ _ _ _ _ _ Hc) as (kv & key & msg & _ & _ & _ & _ & Htok).
  cbv zeta in Htok. rewrite Htok.
  apply token_cookie_safe; apply b64_url_text;
    first [apply ascii_bytes, dumps_ascii | apply hmac_bytes].
Qed.

Lemma create_jwt_token_dict env t_exp t_iat kv key : jwt_secret env = Ok key ->
  exists tok, Auth.create_jwt_token env t_exp t_iat (JObj kv) = Ok (tok, issued_claims t_exp t_iat kv).
Proof.
  intros Hkey. unfold Auth.create_jwt_token. cbn [setitem bind].
  rewrite (utf8_encode_ascii (dumps true (JObj _))) by apply dumps_ascii.
  rewrite (utf8_encode_ascii (dumps true (JObj (dict_set _ _ (dict_set _ _ kv))))) by apply dumps_ascii.
  cbn [bind]. rewrite Hkey. cbn [bind].
  rewrite utf8_encode_ascii.
  - cbn [bind]. eexists. reflexivity.
  - rewrite !forallb_app. repeat (apply andb_true_iff; split); first [reflexivity | apply url_text_ascii, b64_url_text, ascii_bytes, dumps_ascii].
Qed.

Lemma user_create_jwt_token_eq : UserAuth.create_jwt_token = Auth.create_jwt_token.
Proof. reflexivity. Qed.

Lemma user_verify_jwt_token_eq : UserAuth.verify_jwt_token = Auth.verify_jwt_token.
Proof. reflexivity. Qed.

Lemma user_verify_body_eq : UserAuth.verify_body = Auth.verify_body.
Proof. reflexivity. Qed.

Lemma Zeqb_list_iff a b : Zeqb_list a b = true <-> a = b.
Proof. split; [apply Zeqb_list_true | intros ->; apply Zeqb_list_refl]. Qed.

Lemma keys_distinct_nodup kv : keys_distinct kv = true <-> NoDup (map fst kv).
Proof.
  induction kv as [|[k x] r IH]; [split; [constructor | reflexivity]|].
  rewrite keys_distinct_cons, andb_true_iff, IH. cbn [map fst]. split.
  - intros [H1 H2]. constructor; [|exact H2]. intros Hin.
    apply in_map_iff in Hin as [[k' x'] [Hk Hin]]. cbn [fst] in Hk. subst k'.
    rewrite forallb_forall in H1. specialize (H1 _ Hin). cbn [fst] in H1.
    rewrite Zeqb_list_refl in H1. discriminate H1.
  - intros H. inversion H as [|? ? Hn Hd]; subst. split; [|exact Hd].
    apply forallb_forall. intros [k' x'] Hin. cbn [fst]. apply negb_true_iff.
    destruct (Zeqb_list k k') eqn:E; [|reflexivity]. apply Zeqb_list_true in E. subst k'.
    exfalso. apply Hn. apply in_map_iff. exists (k, x'). auto.
Qed.

Lemma map_fst_dict_set k v kv :
  (In k (map fst kv) /\ map fst (dict_set k v kv) = map fst kv) \/
  (~ In k (map fst kv) /\ map fst (dict_set k v kv) = map fst kv ++ [k]).
Proof.
  induction kv as [|[k' v'] r IH]; [right; split; [intros [] | reflexivity]|].
  cbn [dict_set]. destruct (Zeqb_list k k') eqn:E.
  - apply Zeqb_list_true in E. subst k'. left. split; [left; reflexivity | reflexivity].
  - cbn [map fst]. destruct IH as [[Hin Hm] | [Hin Hm]]; rewrite Hm.
    + left. split; [right; exact Hin | reflexivity].
    + right. split; [|reflexivity]. intros [Heq | H]; [|exact (Hin H)].
      subst k'. rewrite Zeqb_list_refl in E. discriminate E.
Qed.

Lemma in_dict_set k v kv p : In p (dict_set k v kv) -> In p kv \/ p = (k, v).
Proof.
  induction kv as [|[k' v'] r IH]; cbn [dict_set].
  - intros [<- | []]. right. reflexivity.
  - destruct (Zeqb_list k k') eqn:E.
    + apply Zeqb_list_true in E. subst k'. intros [<- | H]; [right; reflexivity | left; right; exact H].
    + intros [<- | H]; [left; left; reflexivity|]. destruct (IH H) as [H' | H']; [left; right; exact H' | right; exact H'].
Qed.

Lemma json_ok_dict_set k v kv : json_ok (JObj kv) = true -> forallb scalarb k = true ->
  json_ok v = true -> json_ok (JObj (dict_set k v kv)) = true.
Proof.
  rewrite !json_ok_obj. intros H Hk Hv. apply andb_true_iff in H as [Hd Hf].
  apply andb_true_iff. split.
  - rewrite keys_distinct_nodup in *.
    destruct (map_fst_dict_set k v kv) as [[_ ->] | [Hn ->]]; [exact Hd|].
    apply NoDup_app; [exact Hd | repeat constructor; intros [] | ].
    intros x Hx [<- | []]. exact (Hn Hx).
  - apply forallb_forall. intros p Hp. destruct (in_dict_set _ _ _ _ Hp) as [Hin | ->].
    + rewrite forallb_forall in Hf. exact (Hf p Hin).
    + cbn [fst snd]. rewrite Hk, Hv. reflexivity.
Qed.

Lemma json_ok_issued t_exp t_iat kv : json_ok (JObj kv) = true ->
  json_ok (issued_claims t_exp t_iat kv) = true.
Proof.
  intros H. unfold issued_claims.
  apply json_ok_dict_set; [apply json_ok_dict_set; [exact H | reflexivity | reflexivity] | reflexivity | reflexivity].
Qed.

Lemma created_verify env t_exp t_iat c tok c' now :
  Auth.create_jwt_token env t_exp t_iat c = Ok (tok, c') ->
  json_loads (dumps true c') = Ok c' ->
  Auth.verify_jwt_token env now tok =
    if Qle_bool now (inject_Z (py_int t_exp + 7 * 24 * 3600)) then Some c' else None.
Proof.
  intros Hc Hjson.
  destruct (create_jwt_token_ok _ _ _ _ _ _ Hc) as (kv & key & msg & -> & Hc' & Hkey & Hmsg & Htok).
  cbv zeta in Hmsg, Htok.
  set (hb := dumps true (JObj _)) in Hmsg, Htok.
  assert (Hhb : Forall (fun b => 0 <= b < 256) hb) by apply ascii_bytes, dumps_ascii.
  assert (Hpb : Forall (fun b => 0 <= b < 256) (dumps true c')) by apply ascii_bytes, dumps_ascii.
  assert (Hsplit : split_on 46 tok =
            [rstrip_eq (urlsafe_b64encode hb); rstrip_eq (urlsafe_b64encode (dumps true c'));
             rstrip_eq (urlsafe_b64encode (hmac_sha256 key msg))]).
  { rewrite Htok. cbn [app]. rewrite split_on_app, split_on_app, split_on_none; try reflexivity;
      apply no_dot_encoded; auto using hmac_bytes. }
  unfold Auth.verify_jwt_token, Auth.verify_body. rewrite Hsplit, Hkey. cbn [bind].
  rewrite Hmsg. cbn [bind]. rewrite b64_roundtrip by apply hmac_bytes. cbn [bind].
  rewrite Zeqb_list_refl. cbn [negb]. rewrite b64_roundtrip by exact Hpb. cbn [bind].
  rewrite utf8_decode_ascii by apply dumps_ascii. cbn [bind].
  rewrite Hjson. cbn [bind]. rewrite Hc'. cbn [dict_get].
  rewrite dict_lookup_set_ne by reflexivity. rewrite dict_lookup_set_eq.
  cbn [bind lt_time]. unfold Qltb.
  destruct (Qle_bool now _); reflexivity.
Qed.

Lemma Qltb_false_antitone x t1 t2 : (t1 <= t2)%Q -> Qltb x t2 = false -> Qltb x t1 = false.
Proof.
  unfold Qltb. intros Ht H. apply negb_false_iff in H. apply negb_false_iff.
  apply Qle_bool_iff in H. apply Qle_bool_iff. apply (Qle_trans _ _ _ Ht H).
Qed.

Lemma lt_time_antitone v t1 t2 : (t1 <= t2)%Q -> lt_time v t2 = Ok false -> lt_time v t1 = Ok false.
Proof.
  intros Ht H. destruct v as [| b | z | [m e| | |] | s | l | kv]; cbn [lt_time] in *; try discriminate H;
    try reflexivity; injection H as H; rewrite (Qltb_false_antitone _ _ _ Ht H); reflexivity.
Qed.

Lemma verify_antitone env t1 t2 tok p : (t1 <= t2)%Q ->
  Auth.verify_jwt_token env t2 tok = Some p -> Auth.verify_jwt_token env t1 tok = Some p.
Proof.
  intros Ht H. unfold Auth.verify_jwt_token, Auth.verify_body in *.
  destruct (split_on 46 tok) as [|a [|b [|c [|d r]]]]; try discriminate H.
  unfold bind in *.
  destruct (jwt_secret env) as [key|e]; [|discriminate H].
  destruct (utf8_encode (a ++ [46] ++ b)) as [msg|e]; [|discriminate H].
  destruct (urlsafe_b64decode (add_padding c)) as [sg|e]; [|discriminate H].
  destruct (negb _); [discriminate H|].
  destruct (urlsafe_b64decode (add_padding b)) as [pb|e]; [|discriminate H].
  destruct (utf8_decode pb) as [ps|e]; [|discriminate H].
  destruct (json_loads ps) as [pl|e]; [|discriminate H].
  destruct (dict_get pl (lit "exp") (JInt 0)) as [x|e]; [|discriminate H].
  destruct (lt_time x t2) as [[|]|e] eqn:E; try discriminate H.
  rewrite (lt_time_antitone x t1 t2 Ht E). exact H.
Qed.

Lemma in_lstrip p s x : In x (lstrip_by p s) -> In x s.
Proof. induction s as [|c s IH]; cbn [lstrip_by]; [auto|]. destruct (p c); [intros H; right; auto | auto]. Qed.

Lemma in_strip s x : In x (strip s) -> In x s.
Proof.
  unfold strip, rstrip_by. intros H. apply in_rev in H. apply in_lstrip in H.
  apply in_rev in H. apply in_lstrip in H. exact H.
Qed.

Lemma split_on_no_sep sep s : Forall (fun p => ~ In sep p) (split_on sep s).
Proof.
  induction s as [|c s IH]; cbn [split_on].
  - repeat constructor. intros [].
  - destruct (c =? sep) eqn:E.
    + constructor; [intros []| exact IH].
    + apply Z.eqb_neq in E. destruct (split_on sep s) as [|q qs].
      * repeat constructor. intros [H|[]]. congruence.
      * inversion IH as [|? ? Hq Hqs]; subst. constructor; [|exact Hqs].
        intros [H|H]; [congruence | exact (Hq H)].
Qed.

Lemma starts_with_inv pre s : starts_with pre s = true -> exists r, s = pre ++ r.
Proof.
  revert s. induction pre as [|p pre IH]; intros s H; [exists s; reflexivity|].
  destruct s as [|c s]; [discriminate H|]. cbn [starts_with] in H.
  apply andb_true_iff in H as [H1 H2]. apply Z.eqb_eq in H1. subst c.
  destruct (IH s H2) as [r ->]. exists r. reflexivity.
Qed.

Lemma after_first_auth rest : after_first 61 (lit "auth_token=" ++ rest) = Ok rest.
Proof. reflexivity. Qed.

(** [extract_token_from_cookies] never raises, and a token it returns holds
    no ";". *)
Theorem extract_token_never_raises h :
  exists r, extract_token_from_cookies h = Ok r /\ forall t, r = Some t -> ~ In 59 t.
Proof.
  unfold extract_token_from_cookies.
  destruct (Nat.eqb (length h) 0); [exists None; split; [reflexivity| discriminate]|].
  generalize (split_on_no_sep 59 h). induction (split_on 59 h) as [|c cs IH]; intros HF.
  - exists None. split; [reflexivity|discriminate].
  - inversion HF as [|? ? Hc Hcs]; subst. lazy beta iota zeta.
    destruct (starts_with (lit "auth_token=") (strip c)) eqn:Es.
    + destruct (starts_with_inv _ _ Es) as [rest Er]. rewrite Er, after_first_auth.
      exists (Some rest). split; [reflexivity|]. intros t Ht. injection Ht as <-.
      intros Hin. apply Hc, in_strip. rewrite Er. apply in_or_app. right. exact Hin.
    + exact (IH Hcs).
Qed.

Lemma goals_extract_eq env now hs :
  Goals.extract_user_id_from_cookies env now hs =
  match extract_token_from_cookies (header_get (lit "Cookie") hs) with
  | Ok (Some t) =>
      if Nat.eqb (length t) 0 then JNull
      else match Auth.verify_jwt_token env now t with
           | Some (JObj kv) =>
               match dict_lookup (lit "user_id") kv with Some v => v | None => JNull end
           | _ => JNull
           end
  | _ => JNull
  end.
Proof.
  unfold Goals.extract_user_id_from_cookies, Goals.extract_body, extract_token_from_cookies.
  destruct (Nat.eqb (length (header_get (lit "Cookie") hs)) 0); [reflexivity|].
  match goal with |- context [bind (?f (split_on 59 ?c)) _] =>
    destruct (f (split_on 59 c)) as [[t|]|e] end; try reflexivity.
  cbn [bind]. destruct (Nat.eqb (length t) 0); [reflexivity|].
  unfold Auth.verify_jwt_token, Auth.verify_body, bind.
  destruct (split_on 46 t) as [|a [|b [|c [|d l]]]]; try reflexivity.
  destruct (jwt_secret env) as [key|e]; [|reflexivity].
  destruct (utf8_encode (a ++ [46] ++ b)) as [msg|e]; [|reflexivity].
  destruct (urlsafe_b64decode (add_padding c)) as [sg|e]; [|reflexivity].
  destruct (negb _); [reflexivity|].
  destruct (urlsafe_b64decode (add_padding b)) as [pb|e]; [|reflexivity].
  destruct (utf8_decode pb) as [ps|e]; [|reflexivity].
  destruct (json_loads ps) as [pl|e]; [|reflexivity].
  destruct pl as [| | | | | |kv]; try reflexivity.
  cbn [dict_get]. destruct (lt_time _ now) as [[|]|e]; reflexivity.
Qed.

Lemma utf8_encode_scalar s : forallb scalarb s = true -> exists b, utf8_encode s = Ok b.
Proof.
  induction s as [|c s IH]; intros H; [exists []; reflexivity|].
  cbn [forallb] in H. apply andb_true_iff in H as [Hc Hs].
  destruct (IH Hs) as [b Hb]. cbn [utf8_encode]. rewrite Hb. cbn [bind].
  unfold scalarb, in_range in Hc.
  destruct (c <? 0x80); [eexists; reflexivity|].
  destruct (c <? 0x800); [eexists; reflexivity|].
  replace ((0xd800 <=? c) && (c <=? 0xdfff)) with false.
  2:{ apply andb_true_iff in Hc as [_ Hc]. apply negb_true_iff in Hc. symmetry. exact Hc. }
  destruct (c <? 0x10000); eexists; reflexivity.
Qed.

Lemma json_ok_token_claims uid em : forallb scalarb em = true ->
  json_ok (token_claims uid em) = true.
Proof. intros H. unfold token_claims. cbn [json_ok]. rewrite H. reflexivity. Qed.

Lemma cookie_safe_nonempty t : cookie_safe t = true -> Nat.eqb (length t) 0 = false.
Proof. destruct t; [discriminate|reflexivity]. Qed.

Lemma find_id_unique users u :
  In u users -> (forall v, In v users -> id v = id u -> v = u) ->
  find (fun v => Qeq_bool (inject_Z (id v)) (inject_Z (id u))) users = Some u.
Proof.
  induction users as [|w users IH]; intros Hin Hid; [destruct Hin|].
  cbn [find]. destruct (Qeq_bool (inject_Z (id w)) (inject_Z (id u))) eqn:E.
  - apply Qeq_bool_iff in E. unfold Qeq in E. cbn in E. rewrite !Z.mul_1_r in E.
    f_equal. apply Hid; [left; reflexivity | exact E].
  - destruct Hin as [<-|Hin].
    + rewrite Qeq_bool_refl in E. discriminate E.
    + apply IH; [exact Hin|]. intros v Hv. apply Hid. right. exact Hv.
Qed.

Lemma issued_user_id t_exp t_iat uid em :
  getitem (issued_claims t_exp t_iat [(lit "user_id", JInt uid); (lit "email", JStr em)])
    (lit "user_id") = Ok (JInt uid).
Proof. reflexivity. Qed.

(** A login (in both files) with a registered email and a wrong password
    gets the same answer as one with an unknown email: 401 "Invalid
    credentials". The email is one psycopg2 accepts (no NUL) and the wrong
    password's bytes ones bcrypt accepts ([login_rejects]). *)
Theorem login_invalid_uniform py_lower checkpw env t_exp t_iat users email_in password :
  let email_n := strip (py_lower email_in) in
  Nat.eqb (length email_n) 0 = false -> Nat.eqb (length password) 0 = false ->
  pg_param email_n = Ok tt -> login_rejects checkpw users email_n password ->
  AuthHandler.handle_login py_lower checkpw env t_exp t_iat users email_in password =
    AuthHandler.error_response (lit "Invalid credentials") 401 /\
  UserAuthHandler.handle_login py_lower checkpw env t_exp t_iat users email_in password =
    UserAuthHandler.error_response (lit "Invalid credentials") 401 UserAuthHandler.cors_headers.
Proof.
  intros email_n He Hp Hbe Hr. unfold login_rejects in Hr.
  unfold AuthHandler.handle_login, UserAuthHandler.handle_login,
    AuthHandler.login_body, UserAuthHandler.login_body.
  fold email_n. rewrite He, Hp. cbn [orb]. rewrite Hbe. cbn [bind].
  destruct (find _ users) as [u|]; [|split; reflexivity].
  destruct Hr as (pb & Hpb & _ & Hc). rewrite Hpb. cbn [bind]. rewrite Hc. split; reflexivity.
Qed.

Lemma login_body_ok checkpw env t_exp t_iat users email_n password u pb key :
  find (fun v => Zeqb_list (email v) email_n) users = Some u ->
  forallb scalarb (email u) = true -> pg_param email_n = Ok tt ->
  utf8_encode password = Ok pb -> checkpw pb (password_hash u) = true ->
  jwt_secret env = Ok key ->
  exists tok,
    Auth.create_jwt_token env t_exp t_iat (token_claims (id u) (email u)) =
      Ok (tok, issued_claims t_exp t_iat
                 [(lit "user_id", JInt (id u)); (lit "email", JStr (email u))]) /\
    AuthHandler.login_body checkpw env t_exp t_iat users email_n password =
      Ok (AuthHandler.success_response (JObj [(lit "token", JStr tok); (lit "user", user_json u)])) /\
    UserAuthHandler.login_body checkpw env t_exp t_iat users email_n password =
      Ok (UserAuthHandler.success_response_with_cookie (JObj [(lit "user", user_json u)]) tok
            UserAuthHandler.cors_headers).
Proof.
  intros Hf Hs Hpg Hpb Hc Hkey.
  assert (Heq : email u = email_n).
  { apply find_some in Hf as [_ Hf]. apply Zeqb_list_true in Hf. exact Hf. }
  destruct (create_jwt_token_dict env t_exp t_iat
              [(lit "user_id", JInt (id u)); (lit "email", JStr (email u))] key Hkey) as [tok Ht].
  exists tok. split; [exact Ht|].
  unfold AuthHandler.login_body, UserAuthHandler.login_body.
  rewrite Hpg, Hf. cbn [bind]. rewrite Hpb. cbn [bind]. rewrite Hc. cbn [negb].
  rewrite user_create_jwt_token_eq. unfold token_claims in *. rewrite Ht. split; reflexivity.
Qed.

Lemma session_after_create env t_exp t_iat users u tok now :
  In u users -> (forall v, In v users -> id v = id u -> v = u) ->
  forallb scalarb (email u) = true ->
  Auth.create_jwt_token env t_exp t_iat (token_claims (id u) (email u)) =
    Ok (tok, issued_claims t_exp t_iat
               [(lit "user_id", JInt (id u)); (lit "email", JStr (email u))]) ->
  AuthHandler.handle_session_check env now users [(lit "Cookie", lit "auth_token=" ++ tok)] =
    Ok (if Qle_bool now (inject_Z (py_int t_exp + 7 * 24 * 3600))
        then AuthHandler.success_response
               (JObj [(lit "user", user_json u); (lit "valid", JBool true)])
        else AuthHandler.error_response (lit "Invalid token") 401) /\
  UserAuthHandler.handle_session_check env now users [(lit "Cookie", lit "auth_token=" ++ tok)] =
    Ok (if Qle_bool now (inject_Z (py_int t_exp + 7 * 24 * 3600))
        then UserAuthHandler.success_response
               (JObj [(lit "user", user_json u); (lit "valid", JBool true)])
               UserAuthHandler.cors_headers
        else UserAuthHandler.error_response (lit "Invalid token") 401 UserAuthHandler.cors_headers).
Proof.
  intros Hin Hid Hs Hc.
  pose proof (created_cookie_safe _ _ _ _ _ _ Hc) as Hsafe.
  assert (Hl : json_loads (dumps true (issued_claims t_exp t_iat
             [(lit "user_id", JInt (id u)); (lit "email", JStr (email u))])) =
           Ok (issued_claims t_exp t_iat
             [(lit "user_id", JInt (id u)); (lit "email", JStr (email u))])).
  { apply json_loads_dumps, json_ok_issued. exact (json_ok_token_claims (id u) (email u) Hs). }
  pose proof (created_verify _ _ _ _ _ _ now Hc Hl) as Hv.
  unfold AuthHandler.handle_session_check, UserAuthHandler.handle_session_check.
  rewrite user_verify_jwt_token_eq.
  replace (header_get (lit "Cookie") [(lit "Cookie", lit "auth_token=" ++ tok)])
    with (lit "auth_token=" ++ tok) by reflexivity.
  rewrite (extract_cookie_safe tok Hsafe). cbn [bind].
  rewrite (cookie_safe_nonempty tok Hsafe). cbn [negb]. rewrite Hv.
  destruct (Qle_bool _ _); [|split; reflexivity].
  replace (truthy _) with true by reflexivity. rewrite issued_user_id. cbn [bind].
  replace (select_user_by_id users (JInt (id u)))
    with (Ok (find (fun v => Qeq_bool (inject_Z (id v)) (inject_Z (id u))) users))
    by reflexivity.
  cbn [bind]. rewrite (find_id_unique users u Hin Hid). split; reflexivity.
Qed.

Lemma cookie_pair_set_cookie tok rest : cookie_safe tok = true ->
  cookie_pair (lit "auth_token=" ++ tok ++ 59 :: rest) = lit "auth_token=" ++ tok.
Proof.
  intros H. unfold cookie_safe in H. apply andb_true_iff in H as [Hsemi _].
  unfold cookie_pair. rewrite app_assoc, split_on_app; [reflexivity|].
  intros Hin. apply in_app_iff in Hin as [Hin|Hin]; [cbn in Hin; lia|].
  rewrite forallb_forall in Hsemi. specialize (Hsemi 59 Hin). discriminate Hsemi.
Qed.

(** Logging in (backend/auth) with an email psycopg2 accepts (no NUL)
    returns a token in the body; sending it back in the auth_token cookie,
    the session check answers with the user until the token's expiry and
    with 401 after it. *)
Theorem login_then_session py_lower checkpw env t_exp t_iat users email_in password u pb key :
  let email_n := strip (py_lower email_in) in
  Nat.eqb (length email_n) 0 = false -> Nat.eqb (length password) 0 = false ->
  find (fun v => Zeqb_list (email v) email_n) users = Some u ->
  forallb scalarb (email u) = true -> pg_param email_n = Ok tt ->
  utf8_encode password = Ok pb -> checkpw pb (password_hash u) = true ->
  jwt_secret env = Ok key ->
  (forall v, In v users -> id v = id u -> v = u) ->
  exists tok,
    AuthHandler.handle_login py_lower checkpw env t_exp t_iat users email_in password =
      AuthHandler.success_response (JObj [(lit "token", JStr tok); (lit "user", user_json u)]) /\
    forall now,
      AuthHandler.handle_session_check env now users [(lit "Cookie", lit "auth_token=" ++ tok)] =
        Ok (if Qle_bool now (inject_Z (py_int t_exp + 7 * 24 * 3600))
            then AuthHandler.success_response
                   (JObj [(lit "user", user_json u); (lit "valid", JBool true)])
            else AuthHandler.error_response (lit "Invalid token") 401).
Proof.
  intros email_n He Hp Hf Hs Hpg Hpb Hc Hkey Hid.
  destruct (login_body_ok checkpw env t_exp t_iat users email_n password u pb key Hf Hs Hpg Hpb Hc Hkey)
    as (tok & Ht & Hb & _).
  exists tok. split.
  - unfold AuthHandler.handle_login. fold email_n. rewrite He, Hp. cbn [orb]. rewrite Hb. reflexivity.
  - intros now. apply (session_after_create env t_exp t_iat users u tok now);
      [apply find_some in Hf as [Hf _]; exact Hf | exact Hid | exact Hs | exact Ht].
Qed.

(** Logging in (backend/user-auth) answers 200 with a Set-Cookie header; the
    Cookie a browser sends back from it makes the session check answer with
    the user until the token's expiry and with 401 after it. *)
Theorem login_cookie_session py_lower checkpw env t_exp t_iat users email_in password u pb key :
  let email_n := strip (py_lower email_in) in
  Nat.eqb (length email_n) 0 = false -> Nat.eqb (length password) 0 = false ->
  find (fun v => Zeqb_list (email v) email_n) users = Some u ->
  forallb scalarb (email u) = true -> pg_param email_n = Ok tt ->
  utf8_encode password = Ok pb -> checkpw pb (password_hash u) = true ->
  jwt_secret env = Ok key ->
  (forall v, In v users -> id v = id u -> v = u) ->
  let r := UserAuthHandler.handle_login py_lower checkpw env t_exp t_iat users email_in password in
  statusCode r = 200 /\
  body r = dumps false (JObj [(lit "user", user_json u)]) /\
  forall now,
    UserAuthHandler.handle_session_check env now users
      [(lit "Cookie", cookie_pair (header_get (lit "Set-Cookie") (headers r)))] =
      Ok (if Qle_bool now (inject_Z (py_int t_exp + 7 * 24 * 3600))
          then UserAuthHandler.success_response
                 (JObj [(lit "user", user_json u); (lit "valid", JBool true)])
                 UserAuthHandler.cors_headers
          else UserAuthHandler.error_response (lit "Invalid token") 401 UserAuthHandler.cors_headers).
Proof.
  intros email_n He Hp Hf Hs Hpg Hpb Hc Hkey Hid r.
  destruct (login_body_ok checkpw env t_exp t_iat users email_n password u pb key Hf Hs Hpg Hpb Hc Hkey)
    as (tok & Ht & _ & Hb).
  assert (Hr : r = UserAuthHandler.success_response_with_cookie
                     (JObj [(lit "user", user_json u)]) tok UserAuthHandler.cors_headers).
  { unfold r, UserAuthHandler.handle_login. fold email_n. rewrite He, Hp. cbn [orb].
    rewrite Hb. reflexivity. }
  rewrite Hr. split; [reflexivity|]. split; [reflexivity|]. intros now.
  unfold UserAuthHandler.success_response_with_cookie. cbn [headers].
  replace (header_get (lit "Set-Cookie") _)
    with (lit "auth_token=" ++ tok ++ 59 :: lit " Path=/; HttpOnly; SameSite=Lax; Max-Age=" ++
          int_repr (7 * 24 * 3600)) by reflexivity.
  rewrite cookie_pair_set_cookie by exact (created_cookie_safe _ _ _ _ _ _ Ht).
  apply (session_after_create env t_exp t_iat users u tok now);
    [apply find_some in Hf as [Hf _]; exact Hf | exact Hid | exact Hs | exact Ht].
Qed.

Lemma find_email_none users email_n :
  find (fun u => Zeqb_list (email u) email_n) users = None ->
  Forall (fun v => email v <> email_n) users.
Proof.
  intros H. apply Forall_forall. intros v Hv Heq.
  pose proof (find_none _ _ H v Hv) as Hf. cbn beta in Hf. rewrite Heq, Zeqb_list_refl in Hf.
  discriminate Hf.
Qed.

Lemma register_effect_auth py_lower env t_exp t_iat salt next_id users email_in password fn ln r users' :
  AuthHandler.handle_register py_lower env t_exp t_iat salt next_id users email_in password fn ln =
    (r, users') ->
  appends_fresh users users' next_id (strip (py_lower email_in)).
Proof.
  unfold AuthHandler.handle_register, appends_fresh. lazy beta zeta. intros H.
  destruct (_ || _); [injection H as _ <-; left; reflexivity|].
  destruct (Nat.ltb _ _); [injection H as _ <-; left; reflexivity|].
  destruct (pg_param (strip (py_lower email_in))); [|injection H as _ <-; left; reflexivity].
  destruct (find _ users) eqn:Hf; [injection H as _ <-; left; reflexivity|].
  destruct (utf8_encode password) as [pw|], (pg_param fn), (pg_param ln);
    try (injection H as _ <-; left; reflexivity).
  right. eexists. destruct (Auth.create_jwt_token _ _ _ _); injection H as _ <-;
    (split; [reflexivity|]); (split; [reflexivity|]); (split; [reflexivity|]);
    exact (find_email_none _ _ Hf).
Qed.

Lemma register_effect_user py_lower env t_exp t_iat salt next_id users email_in password fn ln r users' :
  UserAuthHandler.handle_register py_lower env t_exp t_iat salt next_id users email_in password fn ln =
    (r, users') ->
  appends_fresh users users' next_id (strip (py_lower email_in)).
Proof.
  unfold UserAuthHandler.handle_register, appends_fresh. lazy beta zeta. intros H.
  destruct (_ || _); [injection H as _ <-; left; reflexivity|].
  destruct (Nat.ltb _ _); [injection H as _ <-; left; reflexivity|].
  destruct (pg_param (strip (py_lower email_in))); [|injection H as _ <-; left; reflexivity].
  destruct (find _ users) eqn:Hf; [injection H as _ <-; left; reflexivity|].
  destruct (utf8_encode password) as [pw|], (pg_param fn), (pg_param ln);
    try (injection H as _ <-; left; reflexivity).
  right. eexists. destruct (UserAuth.create_jwt_token _ _ _ _); injection H as _ <-;
    (split; [reflexivity|]); (split; [reflexivity|]); (split; [reflexivity|]);
    exact (find_email_none _ _ Hf).
Qed.

Lemma appends_fresh_nodup users users' next_id email_n :
  appends_fresh users users' next_id email_n ->
  NoDup (map email users) -> NoDup (map email users').
Proof.
  intros [-> | (u & -> & _ & Hu & Hf)] Hnd; [exact Hnd|].
  rewrite map_app. cbn [map]. apply NoDup_app; [exact Hnd | constructor; [intros []|constructor] |].
  intros x Hx Hx'. destruct Hx' as [<-|[]]. apply in_map_iff in Hx as (v & Hv & Hin).
  rewrite Forall_forall in Hf. apply (Hf v Hin). rewrite Hv. exact Hu.
Qed.

Lemma find_app_none {A} (f : A -> bool) l x :
  find f l = None -> f x = true -> find f (l ++ [x]) = Some x.
Proof.
  induction l as [|a l IH]; intros H Hx; cbn [find app] in *; [rewrite Hx; reflexivity|].
  destruct (f a); [discriminate H|]. exact (IH H Hx).
Qed.

(** Registering a new email makes the account usable: the row is appended
    and logging in with the same email and password then succeeds, in both
    handlers. The inputs are ones the libraries take without raising:
    psycopg2 accepts the email and names (no NUL), bcrypt accepts the
    password's bytes, and the token claims are within CPython's int limit. *)
Theorem register_then_login py_lower checkpw env t_exp t_iat t_exp' t_iat' salt next_id users
  email_in password fn ln pw key :
  let email_n := strip (py_lower email_in) in
  (forall pw s, checkpw pw (Bcrypt pw s) = true) ->
  Nat.eqb (length email_n) 0 = false -> (6 <= length password)%nat ->
  forallb scalarb email_n = true -> pg_param email_n = Ok tt ->
  utf8_encode password = Ok pw -> bcrypt_input pw ->
  pg_param fn = Ok tt -> pg_param ln = Ok tt ->
  find (fun u => Zeqb_list (email u) email_n) users = None ->
  jwt_secret env = Ok key ->
  json_small (issued_claims t_exp t_iat
                [(lit "user_id", JInt next_id); (lit "email", JStr email_n)]) = true ->
  json_small (issued_claims t_exp' t_iat'
                [(lit "user_id", JInt next_id); (lit "email", JStr email_n)]) = true ->
  exists tok1 tok2,
    let u := mk_user next_id email_n (Bcrypt pw salt) fn ln None None in
    AuthHandler.handle_register py_lower env t_exp t_iat salt next_id users email_in password fn ln =
      (AuthHandler.success_response (JObj [(lit "token", JStr tok1); (lit "user", user_json u)]),
       users ++ [u]) /\
    AuthHandler.handle_login py_lower checkpw env t_exp' t_iat' (users ++ [u]) email_in password =
      AuthHandler.success_response (JObj [(lit "token", JStr tok2); (lit "user", user_json u)]) /\
    UserAuthHandler.handle_register py_lower env t_exp t_iat salt next_id users email_in password fn ln =
      (UserAuthHandler.success_response_with_cookie (JObj [(lit "user", user_json u)]) tok1
         UserAuthHandler.cors_headers, users ++ [u]) /\
    UserAuthHandler.handle_login py_lower checkpw env t_exp' t_iat' (users ++ [u]) email_in password =
      UserAuthHandler.success_response_with_cookie (JObj [(lit "user", user_json u)]) tok2
        UserAuthHandler.cors_headers.
Proof.
  intros email_n Hck He Hlen Hs Hpg Hpw _ Hfn Hln Hf Hkey _ _.
  set (u := mk_user next_id email_n (Bcrypt pw salt) fn ln None None).
  destruct (create_jwt_token_dict env t_exp t_iat
              [(lit "user_id", JInt next_id); (lit "email", JStr email_n)] key Hkey) as [tok1 Ht1].
  assert (Hf' : find (fun v => Zeqb_list (email v) email_n) (users ++ [u]) = Some u).
  { apply find_app_none; [exact Hf | apply Zeqb_list_refl]. }
  assert (Hp : Nat.eqb (length password) 0 = false).
  { apply Nat.eqb_neq. lia. }
  destruct (login_body_ok checkpw env t_exp' t_iat' (users ++ [u]) email_n password u pw key
              Hf' Hs Hpg Hpw (Hck pw salt) Hkey) as (tok2 & _ & Hb2 & Hb2').
  exists tok1, tok2. cbv zeta. fold u.
  assert (Hl : Nat.ltb (length password) 6 = false) by (apply Nat.ltb_ge; lia).
  unfold AuthHandler.handle_register, UserAuthHandler.handle_register,
    AuthHandler.handle_login, UserAuthHandler.handle_login.
  lazy beta zeta. fold email_n. rewrite He, Hp, Hl. cbn [orb].
  rewrite Hpg, Hf, Hpw, Hfn, Hln, Hb2, Hb2'. rewrite user_create_jwt_token_eq.
  unfold token_claims. cbn [id email]. rewrite Ht1.
  repeat split; reflexivity.
Qed.

Lemma create_jwt_token_secret_fail env t_exp t_iat kv e : jwt_secret env = Raise e ->
  Auth.create_jwt_token env t_exp t_iat (JObj kv) = Raise e.
Proof.
  intros Hkey. unfold Auth.create_jwt_token. cbn [setitem bind].
  rewrite (utf8_encode_ascii (dumps true (JObj _))) by apply dumps_ascii.
  rewrite (utf8_encode_ascii (dumps true (JObj (dict_set _ _ (dict_set _ _ kv))))) by apply dumps_ascii.
  cbn [bind]. rewrite Hkey. reflexivity.
Qed.

(** When the signing key cannot be encoded, registration answers 500 but the
    new row is already committed, so registering the same email again is
    refused with 409; in both handlers. The email and names are ones
    psycopg2 accepts (no NUL) and the password's bytes ones bcrypt accepts. *)
Theorem register_commits_before_token py_lower env t_exp t_iat salt next_id next_id' users
  email_in password fn ln pw e :
  let email_n := strip (py_lower email_in) in
  Nat.eqb (length email_n) 0 = false -> (6 <= length password)%nat ->
  pg_param email_n = Ok tt -> utf8_encode password = Ok pw -> bcrypt_input pw ->
  pg_param fn = Ok tt -> pg_param ln = Ok tt ->
  find (fun u => Zeqb_list (email u) email_n) users = None ->
  jwt_secret env = Raise e ->
  let u := mk_user next_id email_n (Bcrypt pw salt) fn ln None None in
  let r1 := AuthHandler.handle_register py_lower env t_exp t_iat salt next_id users
              email_in password fn ln in
  let r2 := UserAuthHandler.handle_register py_lower env t_exp t_iat salt next_id users
              email_in password fn ln in
  statusCode (fst r1) = 500 /\ snd r1 = users ++ [u] /\
  AuthHandler.handle_register py_lower env t_exp t_iat salt next_id' (users ++ [u])
    email_in password fn ln =
    (AuthHandler.error_response (lit "User already exists") 409, users ++ [u]) /\
  statusCode (fst r2) = 500 /\ snd r2 = users ++ [u] /\
  UserAuthHandler.handle_register py_lower env t_exp t_iat salt next_id' (users ++ [u])
    email_in password fn ln =
    (UserAuthHandler.error_response (lit "User already exists") 409 UserAuthHandler.cors_headers,
     users ++ [u]).
Proof.
  intros email_n He Hlen Hpg Hpw _ Hfn Hln Hf Hkey u r1 r2.
  assert (Hf' : find (fun v => Zeqb_list (email v) email_n) (users ++ [u]) = Some u).
  { apply find_app_none; [exact Hf | apply Zeqb_list_refl]. }
  assert (Hp : Nat.eqb (length password) 0 = false) by (apply Nat.eqb_neq; lia).
  assert (Hl : Nat.ltb (length password) 6 = false) by (apply Nat.ltb_ge; lia).
  unfold r1, r2, AuthHandler.handle_register, UserAuthHandler.handle_register.
  lazy beta zeta. fold email_n. fold u. rewrite He, Hp, Hl. cbn [orb].
  rewrite Hpg, Hf, Hf', Hpw, Hfn, Hln. rewrite user_create_jwt_token_eq.
  unfold token_claims. rewrite (create_jwt_token_secret_fail env t_exp t_iat _ e Hkey).
  repeat split; reflexivity.
Qed.

Lemma select_after_reset t e tok uid users :
  (forall v, In v users -> reset_token v <> Some tok) ->
  select_by_reset_token t
    (map (fun v => if id v =? uid
                   then mk_user (id v) (email v) (password_hash v) (first_name v)
                          (last_name v) (Some tok) (Some e)
                   else v) users) tok =
  if Qltb t e
  then option_map (fun v => mk_user (id v) (email v) (password_hash v) (first_name v)
                              (last_name v) (Some tok) (Some e))
         (find (fun v => id v =? uid) users)
  else None.
Proof.
  unfold select_by_reset_token.
  induction users as [|v users IH]; intros Hfresh; [destruct (Qltb t e); reflexivity|].
  cbn [map find]. destruct (id v =? uid) eqn:Ev.
  - cbn [reset_token reset_token_expires]. rewrite Zeqb_list_refl. cbn [andb].
    destruct (Qltb t e) eqn:Et; [reflexivity|].
    rewrite IH by (intros y Hy; apply Hfresh; right; exact Hy). reflexivity.
  - replace (match reset_token v, reset_token_expires v with
             | Some t0, Some e0 => Zeqb_list t0 tok && Qltb t e0 | _, _ => false end) with false.
    + apply IH. intros y Hy; apply Hfresh; right; exact Hy.
    + specialize (Hfresh v (or_introl eq_refl)).
      destruct (reset_token v) as [r|]; [|reflexivity]. destruct (reset_token_expires v); [|reflexivity].
      destruct (Zeqb_list r tok) eqn:Er; [|reflexivity].
      apply Zeqb_list_true in Er. subst r. exfalso. apply Hfresh. reflexivity.
Qed.

Lemma find_id_exists users u :
  In u users -> exists w, find (fun v => id v =? id u) users = Some w /\ id w = id u.
Proof.
  intros Hin. destruct (find (fun v => id v =? id u) users) as [w|] eqn:E.
  - exists w. split; [reflexivity|]. apply find_some in E as [_ E]. apply Z.eqb_eq. exact E.
  - pose proof (find_none _ _ E u Hin) as H. cbn beta in H. rewrite Z.eqb_refl in H. discriminate H.
Qed.

(** A reset request for a registered email followed by a confirmation with
    the token it stored: the confirmation succeeds, setting the new password,
    when it comes at least a second before the token's expiry one hour later,
    and is refused with "Invalid or expired token" from a second after it on.
    The second of margin covers the rounding of the stored expiry
    ([to_timestamp] keeps microseconds); the email and the token are ones
    psycopg2 accepts (no NUL) and the new password's bytes ones bcrypt
    accepts. *)
Theorem reset_then_confirm py_lower now new_token smtp users email_in u t salt new_password pw :
  let email_n := strip (py_lower email_in) in
  Nat.eqb (length email_n) 0 = false -> pg_param email_n = Ok tt ->
  find (fun v => Zeqb_list (email v) email_n) users = Some u ->
  (forall v, In v users -> reset_token v <> Some new_token) ->
  Nat.eqb (length new_token) 0 = false -> pg_param new_token = Ok tt ->
  (6 <= length new_password)%nat -> utf8_encode new_password = Ok pw -> bcrypt_input pw ->
  let step1 := handle_reset_password py_lower now new_token smtp users email_in in
  fst step1 = success_response reset_sent /\
  ((t <= now + inject_Z 3599)%Q ->
   handle_confirm_reset t salt (snd step1) new_token new_password =
     (success_response reset_done, update_password (snd step1) (id u) (Bcrypt pw salt))) /\
  ((now + inject_Z 3601 <= t)%Q ->
   handle_confirm_reset t salt (snd step1) new_token new_password =
     (error_response (lit "Invalid or expired token") 400, snd step1)).
Proof.
  intros email_n He _ Hf Hfresh Ht _ Hlen Hpw _ step1.
  assert (Hp : Nat.eqb (length new_password) 0 = false) by (apply Nat.eqb_neq; lia).
  assert (Hl : Nat.ltb (length new_password) 6 = false) by (apply Nat.ltb_ge; lia).
  apply find_some in Hf as Hin. destruct Hin as [Hin _].
  destruct (find_id_exists users u Hin) as (w & Hw & Hwid).
  assert (Hc : forall users1,
    select_by_reset_token t users1 new_token =
      (if Qltb t (now + inject_Z 3600)
       then option_map (fun v => mk_user (id v) (email v) (password_hash v) (first_name v)
                              (last_name v) (Some new_token) (Some (now + inject_Z 3600)%Q))
              (find (fun v => id v =? id u) users) else None) ->
    handle_confirm_reset t salt users1 new_token new_password =
      if Qltb t (now + inject_Z 3600)
      then (success_response reset_done, update_password users1 (id u) (Bcrypt pw salt))
      else (error_response (lit "Invalid or expired token") 400, users1)).
  { intros users1 Hs. unfold handle_confirm_reset. rewrite Ht, Hp, Hl. cbn [orb].
    rewrite Hs. destruct (Qltb _ _); [|reflexivity]. rewrite Hw. cbn [option_map id].
    rewrite Hpw, Hwid. reflexivity. }
  assert (Hexact : fst step1 = success_response reset_sent /\
    handle_confirm_reset t salt (snd step1) new_token new_password =
      if Qltb t (now + inject_Z 3600)
      then (success_response reset_done, update_password (snd step1) (id u) (Bcrypt pw salt))
      else (error_response (lit "Invalid or expired token") 400, snd step1)).
  { unfold step1, handle_reset_password. lazy beta zeta. fold email_n. rewrite He, Hf.
    destruct smtp; cbn [fst snd]; (split; [reflexivity|]); apply Hc, select_after_reset;
      exact Hfresh. }
  destruct Hexact as [H1 H2]. split; [exact H1|]. rewrite H2. split; intros Htq.
  - replace (Qltb t (now + inject_Z 3600)) with true; [reflexivity|].
    symmetry. unfold Qltb. apply negb_true_iff. apply not_true_is_false. intros Hb.
    apply Qle_bool_iff in Hb.
    assert (Hq : (now + inject_Z 3599 < now + inject_Z 3600)%Q).
    { apply Qplus_lt_r. unfold Qlt; cbn; lia. }
    apply (Qlt_not_le _ _ Hq). apply (Qle_trans _ _ _ Hb Htq).
  - replace (Qltb t (now + inject_Z 3600)) with false; [reflexivity|].
    symmetry. unfold Qltb. apply negb_false_iff. apply Qle_bool_iff.
    apply (Qle_trans _ (now + inject_Z 3601)); [|exact Htq].
    apply Qplus_le_r. unfold Qle; cbn; lia.
Qed.

(** The cookie check of backend/goals (and backend/calendar) accepts exactly
    what backend/auth accepts: it reads the same auth_token cookie, and
    returns the token's user_id when backend/auth's [verify_jwt_token]
    accepts the token, and None otherwise. *)
Theorem goals_cookie_matches_auth env now hs :
  Goals.extract_user_id_from_cookies env now hs =
  match extract_token_from_cookies (header_get (lit "Cookie") hs) with
  | Ok (Some t) =>
      if Nat.eqb (length t) 0 then JNull
      else match Auth.verify_jwt_token env now t with
           | Some (JObj kv) =>
               match dict_lookup (lit "user_id") kv with Some v => v | None => JNull end
           | _ => JNull
           end
  | _ => JNull
  end.
Proof. exact (goals_extract_eq env now hs). Qed.

(** [json.loads] reads back what [json.dumps] writes, for values without
    floats whose strings hold no surrogates and whose dicts have distinct
    keys, with ints of at most 4300 digits and nesting within 100 levels
    (where neither function raises). *)
Theorem json_roundtrip_ok v :
  json_ok v = true -> json_small v = true -> json_loads (dumps true v) = Ok v.
Proof. intros Hok _. exact (json_loads_dumps v Hok). Qed.

(** For a dict payload that [json.dumps] can write and [json.loads] read
    back (ints of at most 4300 digits, nesting within 100 levels, once
    [exp] and [iat] are added), and a secret that encodes, [create_jwt_token] (in both files)
    succeeds with the payload plus [exp] and [iat], and [verify_jwt_token]
    returns exactly those claims up to the expiry time and None after it. *)
Theorem created_token_lifetime env t_exp t_iat kv key now :
  json_ok (JObj kv) = true -> json_small (issued_claims t_exp t_iat kv) = true ->
  jwt_secret env = Ok key ->
  exists tok,
    Auth.create_jwt_token env t_exp t_iat (JObj kv) = Ok (tok, issued_claims t_exp t_iat kv) /\
    UserAuth.create_jwt_token env t_exp t_iat (JObj kv) = Ok (tok, issued_claims t_exp t_iat kv) /\
    Auth.verify_jwt_token env now tok =
      (if Qle_bool now (inject_Z (py_int t_exp + 7 * 24 * 3600))
       then Some (issued_claims t_exp t_iat kv) else None) /\
    UserAuth.verify_jwt_token env now tok =
      (if Qle_bool now (inject_Z (py_int t_exp + 7 * 24 * 3600))
       then Some (issued_claims t_exp t_iat kv) else None).
Proof.
  intros Hok _ Hkey. destruct (create_jwt_token_dict env t_exp t_iat kv key Hkey) as [tok Ht].
  pose proof (created_verify env t_exp t_iat _ _ _ now Ht
                (json_loads_dumps _ (json_ok_issued t_exp t_iat kv Hok))) as Hv.
  exists tok. rewrite user_create_jwt_token_eq, user_verify_jwt_token_eq.
  repeat split; assumption.
Qed.

(** A token that [verify_jwt_token] accepts at some time is accepted, with the
    same claims, at every earlier time (both files). *)
Theorem verify_earlier_time env t1 t2 tok p :
  (t1 <= t2)%Q -> Auth.verify_jwt_token env t2 tok = Some p ->
  Auth.verify_jwt_token env t1 tok = Some p /\ UserAuth.verify_jwt_token env t1 tok = Some p.
Proof.
  intros Ht H. rewrite user_verify_jwt_token_eq.
  pose proof (verify_antitone env t1 t2 tok p Ht H). split; assumption.
Qed.

(** The cookie that logout sets (in both files), sent back by a browser,
    never passes the session check: the answer is 401 "Invalid token". *)
Theorem logout_cookie_rejected env now users :
  AuthHandler.handle_session_check env now users
    [(lit "Cookie", cookie_pair (header_get (lit "Set-Cookie") (headers AuthHandler.logout_response)))] =
    Ok (AuthHandler.error_response (lit "Invalid token") 401) /\
  UserAuthHandler.handle_session_check env now users
    [(lit "Cookie",
      cookie_pair (header_get (lit "Set-Cookie") (headers UserAuthHandler.logout_response)))] =
    Ok (UserAuthHandler.error_response (lit "Invalid token") 401 UserAuthHandler.cors_headers).
Proof. split; reflexivity. Qed.

(** A token issued for [{'user_id': uid, 'email': em}] passes the cookie gate
    of backend/goals (and backend/calendar) with [uid] up to its expiry,
    unless [uid] is 0 (falsy in Python); otherwise the gate answers 401
    "Authentication required". *)
Theorem goals_gate_issued_token env t_exp t_iat uid em key :
  forallb scalarb em = true -> jwt_secret env = Ok key ->
  exists tok,
    Auth.create_jwt_token env t_exp t_iat (token_claims uid em) =
      Ok (tok, issued_claims t_exp t_iat [(lit "user_id", JInt uid); (lit "email", JStr em)]) /\
    forall now,
      Goals.auth_gate env now [(lit "Cookie", lit "auth_token=" ++ tok)] =
        if Qle_bool now (inject_Z (py_int t_exp + 7 * 24 * 3600)) && negb (uid =? 0)
        then inr (JInt uid)
        else inl (Goals.error_response (lit "Authentication required") 401).
Proof.
  intros Hs Hkey.
  destruct (create_jwt_token_dict env t_exp t_iat
              [(lit "user_id", JInt uid); (lit "email", JStr em)] key Hkey) as [tok Ht].
  exists tok. split; [exact Ht|]. intros now.
  pose proof (created_cookie_safe _ _ _ _ _ _ Ht) as Hsafe.
  pose proof (created_verify _ _ _ _ _ _ now Ht
                (json_loads_dumps _ (json_ok_issued t_exp t_iat _ (json_ok_token_claims uid em Hs))))
    as Hv.
  unfold Goals.auth_gate. rewrite goals_extract_eq.
  replace (header_get (lit "Cookie") [(lit "Cookie", lit "auth_token=" ++ tok)])
    with (lit "auth_token=" ++ tok) by reflexivity.
  rewrite (extract_cookie_safe tok Hsafe), (cookie_safe_nonempty tok Hsafe), Hv.
  destruct (Qle_bool _ _); [|reflexivity]. unfold issued_claims.
  replace (dict_lookup (lit "user_id") _) with (Some (JInt uid)) by reflexivity.
  cbn [truthy negb andb]. destruct (uid =? 0); reflexivity.
Qed.

(** Registration (in both files) leaves the users table as it was, or
    appends exactly one row, with the id the INSERT assigned and the
    normalized email, which no existing row had. *)
Theorem register_table_effect py_lower env t_exp t_iat salt next_id users email_in password fn ln :
  appends_fresh users
    (snd (AuthHandler.handle_register py_lower env t_exp t_iat salt next_id users
            email_in password fn ln)) next_id (strip (py_lower email_in)) /\
  appends_fresh users
    (snd (UserAuthHandler.handle_register py_lower env t_exp t_iat salt next_id users
            email_in password fn ln)) next_id (strip (py_lower email_in)).
Proof.
  split.
  - destruct (AuthHandler.handle_register _ _ _ _ _ _ _ _ _ _ _) as [r users'] eqn:E.
    exact (register_effect_auth _ _ _ _ _ _ _ _ _ _ _ _ _ E).
  - destruct (UserAuthHandler.handle_register _ _ _ _ _ _ _ _ _ _ _) as [r users'] eqn:E.
    exact (register_effect_user _ _ _ _ _ _ _ _ _ _ _ _ _ E).
Qed.

(** Registration (in both files) keeps the emails of the users table
    pairwise distinct. *)
Theorem register_keeps_emails_unique py_lower env t_exp t_iat salt next_id users
  email_in password fn ln :
  NoDup (map email users) ->
  NoDup (map email (snd (AuthHandler.handle_register py_lower env t_exp t_iat salt next_id users
                           email_in password fn ln))) /\
  NoDup (map email (snd (UserAuthHandler.handle_register py_lower env t_exp t_iat salt next_id users
                           email_in password fn ln))).
Proof.
  intros Hnd. split.
  - destruct (AuthHandler.handle_register _ _ _ _ _ _ _ _ _ _ _) as [r users'] eqn:E.
    exact (appends_fresh_nodup _ _ _ _ (register_effect_auth _ _ _ _ _ _ _ _ _ _ _ _ _ E) Hnd).
  - destruct (UserAuthHandler.handle_register _ _ _ _ _ _ _ _ _ _ _) as [r users'] eqn:E.
    exact (appends_fresh_nodup _ _ _ _ (register_effect_user _ _ _ _ _ _ _ _ _ _ _ _ _ E) Hnd).
Qed.

Lemma bcrypt_input_check (pw : bytes) :
  forallb (fun c => negb (c =? 0)) pw && Nat.leb (length pw) 72 = true -> bcrypt_input pw.
Proof.
  intros H. apply andb_prop in H as [H1 H2]. split.
  - intros Hin. rewrite forallb_forall in H1. specialize (H1 0 Hin). discriminate H1.
  - apply Nat.leb_le. exact H2.
Qed.

Lemma json_roundtrip_ok_witness :
  json_ok login_claims = true /\ json_small login_claims = true /\
  json_loads (dumps true login_claims) = Ok login_claims.
Proof.
  split; [reflexivity|]. split; [reflexivity|].
  apply json_roundtrip_ok; reflexivity.
Defined.

Lemma created_token_lifetime_witness :
  json_ok login_claims = true /\
  json_small (issued_claims login_time login_time
                [(lit "user_id", JInt 7); (lit "email", JStr (lit "a@x.com"))]) = true /\
  jwt_secret None = Ok (lit "default-secret") /\
  exists tok,
    Auth.create_jwt_token None login_time login_time login_claims =
      Ok (tok, issued_claims login_time login_time
                 [(lit "user_id", JInt 7); (lit "email", JStr (lit "a@x.com"))]) /\
    Auth.verify_jwt_token None login_time tok =
      Some (issued_claims login_time login_time
              [(lit "user_id", JInt 7); (lit "email", JStr (lit "a@x.com"))]).
Proof.
  split; [reflexivity|]. split; [reflexivity|]. split; [reflexivity|].
  destruct (created_token_lifetime None login_time login_time
              [(lit "user_id", JInt 7); (lit "email", JStr (lit "a@x.com"))]
              (lit "default-secret") login_time eq_refl eq_refl eq_refl) as (tok & H1 & _ & H3 & _).
  exists tok. split; [exact H1|]. rewrite H3. reflexivity.
Defined.

Lemma verify_earlier_time_witness :
  (login_time <= inject_Z 1700604800)%Q /\
  Auth.verify_jwt_token None (inject_Z 1700604800) login_token = Some login_claims_issued /\
  UserAuth.verify_jwt_token None login_time login_token = Some login_claims_issued.
Proof.
  assert (Ht : (login_time <= inject_Z 1700604800)%Q) by (unfold login_time, Qle; cbn; lia).
  assert (Hv : Auth.verify_jwt_token None (inject_Z 1700604800) login_token = Some login_claims_issued)
    by (vm_compute; reflexivity).
  split; [exact Ht|]. split; [exact Hv|].
  exact (proj2 (verify_earlier_time None login_time (inject_Z 1700604800) login_token
                  login_claims_issued Ht Hv)).
Defined.

Lemma login_invalid_uniform_witness :
  AuthHandler.handle_login ascii_lower checkpw_model None login_time login_time reset_table
    (lit "B@x.com") (lit "wrongpw") = AuthHandler.error_response (lit "Invalid credentials") 401 /\
  UserAuthHandler.handle_login ascii_lower checkpw_model None login_time login_time reset_table
    (lit "nobody@x.com") (lit "secret1") =
    UserAuthHandler.error_response (lit "Invalid credentials") 401 UserAuthHandler.cors_headers.
Proof.
  split.
  - refine (proj1 (login_invalid_uniform ascii_lower checkpw_model None login_time login_time
                     reset_table (lit "B@x.com") (lit "wrongpw")
                     eq_refl eq_refl eq_refl _)).
    exists (lit "wrongpw"). split; [reflexivity|].
    split; [apply bcrypt_input_check; reflexivity | reflexivity].
  - exact (proj2 (login_invalid_uniform ascii_lower checkpw_model None login_time login_time
                    reset_table (lit "nobody@x.com") (lit "secret1")
                    eq_refl eq_refl eq_refl I)).
Defined.

Lemma reset_table_ids v : In v reset_table -> id v = id reset_user_7 -> v = reset_user_7.
Proof. intros [<-|[<-|[]]] H; [reflexivity|discriminate H]. Qed.

Lemma login_then_session_witness :
  exists tok,
    AuthHandler.handle_login ascii_lower checkpw_model None login_time login_time reset_table
      (lit " A@X.com") (lit "secret1") =
      AuthHandler.success_response
        (JObj [(lit "token", JStr tok); (lit "user", user_json reset_user_7)]) /\
    AuthHandler.handle_session_check None login_time reset_table
      [(lit "Cookie", lit "auth_token=" ++ tok)] =
      Ok (AuthHandler.success_response
            (JObj [(lit "user", user_json reset_user_7); (lit "valid", JBool true)])).
Proof.
  destruct (login_then_session ascii_lower checkpw_model None login_time login_time reset_table
              (lit " A@X.com") (lit "secret1") reset_user_7 (lit "secret1") (lit "default-secret")
              eq_refl eq_refl eq_refl eq_refl eq_refl eq_refl eq_refl eq_refl reset_table_ids)
    as (tok & H1 & H2).
  exists tok. split; [exact H1|]. rewrite H2. reflexivity.
Defined.

Lemma login_cookie_session_witness :
  UserAuthHandler.handle_session_check None login_time reset_table
    [(lit "Cookie", cookie_pair (header_get (lit "Set-Cookie")
        (headers (UserAuthHandler.handle_login ascii_lower checkpw_model None login_time login_time
                    reset_table (lit "a@x.com") (lit "secret1")))))] =
    Ok (UserAuthHandler.success_response
          (JObj [(lit "user", user_json reset_user_7); (lit "valid", JBool true)])
          UserAuthHandler.cors_headers).
Proof.
  destruct (login_cookie_session ascii_lower checkpw_model None login_time login_time reset_table
              (lit "a@x.com") (lit "secret1") reset_user_7 (lit "secret1") (lit "default-secret")
              eq_refl eq_refl eq_refl eq_refl eq_refl eq_refl eq_refl eq_refl reset_table_ids)
    as (_ & _ & H).
  rewrite H. reflexivity.
Defined.

Lemma register_keeps_emails_unique_witness :
  NoDup (map email reset_table) /\
  NoDup (map email (snd (AuthHandler.handle_register ascii_lower None login_time login_time 5 9
                           reset_table (lit "C@x.com") (lit "secret9") (lit "Cy") (lit "D")))).
Proof.
  assert (H : NoDup (map email reset_table)).
  { constructor; [intros [H|[]]; discriminate H | constructor; [intros []|constructor]]. }
  split; [exact H|].
  exact (proj1 (register_keeps_emails_unique ascii_lower None login_time login_time 5 9 reset_table
                  (lit "C@x.com") (lit "secret9") (lit "Cy") (lit "D") H)).
Defined.

Lemma register_then_login_witness :
  exists tok,
    AuthHandler.handle_login ascii_lower checkpw_model None login_time login_time
      (snd (AuthHandler.handle_register ascii_lower None login_time login_time 5 9 reset_table
              (lit "C@x.com") (lit "secret9") (lit "Cy") (lit "D")))
      (lit "c@x.com") (lit "secret9") =
    AuthHandler.success_response
      (JObj [(lit "token", JStr tok);
             (lit "user", user_json (mk_user 9 (lit "c@x.com") (Bcrypt (lit "secret9") 5)
                                       (lit "Cy") (lit "D") None None))]).
Proof.
  destruct (register_then_login ascii_lower checkpw_model None login_time login_time login_time
              login_time 5 9 reset_table (lit "C@x.com") (lit "secret9") (lit "Cy") (lit "D")
              (lit "secret9") (lit "default-secret") (fun pw s => Zeqb_list_refl pw) eq_refl
              (ltac:(cbn; lia)) eq_refl eq_refl eq_refl (bcrypt_input_check (lit "secret9") eq_refl)
              eq_refl eq_refl eq_refl eq_refl eq_refl eq_refl)
    as (tok1 & tok2 & H).
  cbv zeta in H. destruct H as (Hr & Hl & _ & _).
  exists tok2. rewrite Hr. exact Hl.
Defined.

Lemma register_commits_before_token_witness :
  jwt_secret (Some [0xd800]) = Raise UnicodeEncodeError /\
  statusCode (fst (AuthHandler.handle_register ascii_lower (Some [0xd800]) login_time login_time
                     5 9 reset_table (lit "c@x.com") (lit "secret9") (lit "Cy") (lit "D"))) = 500 /\
  snd (AuthHandler.handle_register ascii_lower (Some [0xd800]) login_time login_time 5 9 reset_table
         (lit "c@x.com") (lit "secret9") (lit "Cy") (lit "D")) =
    reset_table ++ [mk_user 9 (lit "c@x.com") (Bcrypt (lit "secret9") 5) (lit "Cy") (lit "D")
                      None None].
Proof.
  split; [reflexivity|].
  destruct (register_commits_before_token ascii_lower (Some [0xd800]) login_time login_time 5 9 10
              reset_table (lit "c@x.com") (lit "secret9") (lit "Cy") (lit "D") (lit "secret9")
              UnicodeEncodeError eq_refl (ltac:(cbn; lia)) eq_refl eq_refl
              (bcrypt_input_check (lit "secret9") eq_refl) eq_refl eq_refl eq_refl eq_refl)
    as (H1 & H2 & _).
  split; [exact H1 | exact H2].
Defined.

Lemma reset_then_confirm_witness :
  let step1 := handle_reset_password ascii_lower login_time (lit "NewTok123") (Ok tt)
                 reset_table (lit "b@x.com") in
  fst step1 = success_response reset_sent /\
  handle_confirm_reset login_time 3 (snd step1) (lit "NewTok123") (lit "newpass1") =
    (success_response reset_done, update_password (snd step1) 8 (Bcrypt (lit "newpass1") 3)) /\
  handle_confirm_reset (inject_Z 1700003601) 3 (snd step1) (lit "NewTok123") (lit "newpass1") =
    (error_response (lit "Invalid or expired token") 400, snd step1).
Proof.
  assert (Hfresh : forall v, In v reset_table -> reset_token v <> Some (lit "NewTok123")).
  { intros v [<-|[<-|[]]] H; discriminate H. }
  assert (Ha : (login_time <= login_time + inject_Z 3599)%Q) by (unfold login_time, Qle; cbn; lia).
  assert (Hb : (login_time + inject_Z 3601 <= inject_Z 1700003601)%Q)
    by (unfold login_time, Qle; cbn; lia).
  destruct (reset_then_confirm ascii_lower login_time (lit "NewTok123") (Ok tt) reset_table
              (lit "b@x.com") (nth 1 reset_table reset_user_7) login_time 3 (lit "newpass1")
              (lit "newpass1") eq_refl eq_refl eq_refl Hfresh eq_refl eq_refl (ltac:(cbn; lia))
              eq_refl (bcrypt_input_check (lit "newpass1") eq_refl))
    as (H1 & H2 & _).
  destruct (reset_then_confirm ascii_lower login_time (lit "NewTok123") (Ok tt) reset_table
              (lit "b@x.com") (nth 1 reset_table reset_user_7) (inject_Z 1700003601) 3
              (lit "newpass1") (lit "newpass1") eq_refl eq_refl eq_refl Hfresh eq_refl eq_refl
              (ltac:(cbn; lia)) eq_refl (bcrypt_input_check (lit "newpass1") eq_refl))
    as (_ & _ & H3).
  cbv zeta. split; [exact H1|].
  split; [rewrite (H2 Ha); reflexivity | rewrite (H3 Hb); reflexivity].
Defined.

Lemma goals_gate_issued_token_witness :
  exists tok,
    Auth.create_jwt_token None login_time login_time (token_claims 7 (lit "a@x.com")) =
      Ok (tok, issued_claims login_time login_time
                 [(lit "user_id", JInt 7); (lit "email", JStr (lit "a@x.com"))]) /\
    Goals.auth_gate None login_time [(lit "Cookie", lit "auth_token=" ++ tok)] = inr (JInt 7).
Proof.
  destruct (goals_gate_issued_token None login_time login_time 7 (lit "a@x.com")
              (lit "default-secret") eq_refl eq_refl) as (tok & H1 & H2).
  exists tok. split; [exact H1|]. rewrite H2. reflexivity.
Defined.
